(** * The S3 storage backend of the registry (pkg/storage/s3.go)

    A shallow embedding of [S3Storage] and its methods.  The AWS SDK is
    reached through the three interfaces of the file ([s3ClientAPI],
    [s3UploaderAPI], [s3DownloaderAPI]) and the presign client; they are
    records of functions over a backend state, so that the theorems hold for
    every backend, failing ones included.  Every call to the backend is
    recorded in a trace, which is what the statements about "no copy" and
    "no second write" are about. *)

From Stdlib Require Import ZArith Bool Ascii.
From stdpp Require Import base option list sorting strings gmap.

Local Open Scope string_scope.
Local Open Scope Z_scope.
Local Open Scope list_scope.

(** ** Go errors *)

(** The package-level error values of the storage package that this file
    returns or wraps.  They are declared in another file of the package
    (with [errors.New]); each is a value of its own, recognised by identity. *)
Inductive sentinel : Type :=
| ErrModuleNotFound
| ErrModuleListFailed
| ErrModuleAlreadyExists
| ErrModuleUploadFailed
| ErrProviderListFailed
| ErrProviderAlreadyExists.

(** Error values by dynamic type, with the chain that [Unwrap] follows.
    A [ResponseError] stands for [*awshttp.ResponseError] and carries the
    HTTP status of the response and its rendered message. *)
Inductive error : Type :=
| errorString (msg : string)
| sentinelError (v : sentinel)
| withMessage (cause : error) (msg : string)
| wrapError (msg : string) (err : error)
| ResponseError (status : Z) (msg : string).

Global Instance sentinel_eq_dec : EqDecision sentinel.
Proof. solve_decision. Defined.

Global Instance error_eq_dec : EqDecision error.
Proof. solve_decision. Defined.

(** [errors.Is err target] for a package-level target. *)
Fixpoint errors_Is (err : error) (target : sentinel) : bool :=
  match err with
  | errorString _ => false
  | sentinelError v => bool_decide (v = target)
  | withMessage cause _ => errors_Is cause target
  | wrapError _ inner => errors_Is inner target
  | ResponseError _ _ => false
  end.

(** [errors.As(err, &responseError)] followed by [HTTPStatusCode()]: the
    status of the first response error of the chain. *)
Fixpoint errors_As_ResponseError (err : error) : option Z :=
  match err with
  | errorString _ => None
  | sentinelError _ => None
  | withMessage cause _ => errors_As_ResponseError cause
  | wrapError _ inner => errors_As_ResponseError inner
  | ResponseError status _ => Some status
  end.

Definition StatusNotFound : Z := 404.

(** ** The entities of package core that this file builds *)

Module core.

(** core.Module *)
Module Mod.
Record t : Type := Build {
  Namespace : string;
  Name : string;
  Provider : string;
  Version : string;
  DownloadURL : string
}.
Definition zero : t := Build "" "" "" "" "".
Definition setDownloadURL (m : t) (url : string) : t :=
  Build (Namespace m) (Name m) (Provider m) (Version m) url.
End Mod.

(** core.Provider, over the type of the signing keys; [None] is the zero
    value of the field. *)
Module Provider.
Record t (K : Type) : Type := Build {
  Namespace : string;
  Name : string;
  Version : string;
  OS : string;
  Arch : string;
  Shasum : string;
  Filename : string;
  DownloadURL : string;
  SHASumsURL : string;
  SHASumsSignatureURL : string;
  SigningKeys : option K
}.
Arguments Build {K}.
Arguments Namespace {K}.
Arguments Name {K}.
Arguments Version {K}.
Arguments OS {K}.
Arguments Arch {K}.
Arguments Filename {K}.
Definition zero {K : Type} : t K := Build "" "" "" "" "" "" "" "" "" "" None.
End Provider.

End core.

(** A helper of the package that returns [(value, error)] with the usual
    contract: a nil error comes with a usable value. *)
Inductive result (A : Type) : Type :=
| Ok (a : A)
| Err (e : error).
Arguments Ok {A}.
Arguments Err {A}.

(** ** What the file takes from elsewhere *)

(** The functions of the Go standard library that the file calls. *)
Class GoLib : Type := {
  fmt_Sprintf : string -> list string -> string;
  path_Join : list string -> string;
  path_Base : string -> string;
  filepath_Join : list string -> string;
  url_PathEscape : string -> string
}.

(** The constants, types and helpers of packages storage and core that the
    file uses and that are declared in other files of the repository. *)
Class Pkg : Type := {
  sentinelText : sentinel -> string;
  DefaultModuleArchiveFormat : string;
  internalModuleType : string;
  internalProviderType : string;
  modulePath : string -> string -> string -> string -> string -> string -> string;
  modulePathPrefix : string -> string -> string -> string -> string;
  moduleFromObject : string -> string -> result core.Mod.t;
  isUnmigratedModule : string -> string -> bool;
  migrationTargetPath : string -> string -> string -> string;
  providerMigrationTargetPath : string -> string -> result string;
  internalProviderPath :
    string -> string -> string -> string -> string -> string ->
    result (string * string * string);
  providerStoragePrefix :
    string -> string -> string -> string -> string -> result string;
  signingKeysPath : string -> string -> string;
  SigningKeysT : Type;
  unmarshalSigningKeys : string -> option SigningKeysT * option error;
  readSHASums : string -> string -> result string;
  NewProviderFromArchive : string -> result (core.Provider.t SigningKeysT);
  ProviderVersion : Type;
  Collection : Type;
  NewCollection : Collection;
  Collection_Add : core.Provider.t SigningKeysT -> Collection -> Collection;
  Collection_List : Collection -> list ProviderVersion
}.

(** ** The backend interfaces *)

(** One listing page as the paginator hands it to the loop: the keys of
    [resp.Contents], or the error of [NextPage]. *)
Definition page : Type := list string + error.

(** s3ClientAPI.  [ListObjectsV2] is used through the SDK's paginator only:
    the field gives, for a bucket and a prefix, the results of the
    successive [NextPage] calls until [HasMorePages] is false. *)
Record s3ClientAPI (W : Type) : Type := {
  HeadObject : string -> string -> W -> option error * W;
  ListObjectsV2 : string -> string -> W -> list page;
  CopyObject : string -> string -> string -> W -> option error * W
}.
Arguments HeadObject {W}.
Arguments ListObjectsV2 {W}.
Arguments CopyObject {W}.

(** s3UploaderAPI: bucket, key and the content of the body. *)
Record s3UploaderAPI (W : Type) : Type := {
  Upload : string -> string -> string -> W -> option error * W
}.
Arguments Upload {W}.

(** s3DownloaderAPI: the bytes written to the buffer and the error. *)
Record s3DownloaderAPI (W : Type) : Type := {
  Download : string -> string -> W -> (string * option error) * W
}.
Arguments Download {W}.

(** v4.PresignedHTTPRequest, of which only the URL is read. *)
Record PresignedHTTPRequest : Type := { URL : string }.

(** s3.PresignClient: bucket, key and expiry; the result is a pointer that
    may be nil. *)
Record PresignClient (W : Type) : Type := {
  PresignGetObject :
    string -> string -> Z -> W -> (option PresignedHTTPRequest * option error) * W
}.
Arguments PresignGetObject {W}.

Record S3Storage (W : Type) : Type := {
  client : s3ClientAPI W;
  presignClient : PresignClient W;
  downloader : s3DownloaderAPI W;
  uploader : s3UploaderAPI W;
  bucket : string;
  bucketPrefix : string;
  bucketRegion : string;
  bucketEndpoint : string;
  moduleArchiveFormat : string;
  forcePathStyle : bool;
  signedURLExpiry : Z
}.
Arguments client {W}.
Arguments presignClient {W}.
Arguments downloader {W}.
Arguments uploader {W}.
Arguments bucket {W}.
Arguments bucketPrefix {W}.
Arguments bucketRegion {W}.
Arguments bucketEndpoint {W}.
Arguments moduleArchiveFormat {W}.
Arguments forcePathStyle {W}.
Arguments signedURLExpiry {W}.

(** ** Running a method: backend state, trace of calls, log, panics *)

Inductive Call : Type :=
| HeadObjectCall (bucket key : string)
| NextPageCall (bucket prefix : string)
| CopyObjectCall (bucket copySource key : string)
| UploadCall (bucket key body : string)
| DownloadCall (bucket key : string)
| PresignGetObjectCall (bucket key : string).

Global Instance Call_eq_dec : EqDecision Call.
Proof. solve_decision. Defined.

Record State (W : Type) : Type := mkState {
  world : W;
  calls : list Call;
  logged : list (list string)
}.
Arguments mkState {W}.
Arguments world {W}.
Arguments calls {W}.
Arguments logged {W}.

Inductive Outcome (W A : Type) : Type :=
| Done (a : A) (st : State W)
| Panic (st : State W).
Arguments Done {W A}.
Arguments Panic {W A}.

Definition Go (W A : Type) : Type := State W -> Outcome W A.

Global Instance Go_ret (W : Type) : MRet (Go W) :=
  fun A a st => Done a st.

Global Instance Go_bind (W : Type) : MBind (Go W) :=
  fun A B f m st =>
    match m st with
    | Done a st' => f a st'
    | Panic st' => Panic st'
    end.

(** A nil pointer dereference. *)
Definition panic {W A : Type} : Go W A := fun st => Panic st.

(** One call to the backend: it is appended to the trace and run on the
    backend state. *)
Definition backend {W A : Type} (c : Call) (f : W -> A * W) : Go W A :=
  fun st =>
    let '(a, w) := f (world st) in
    Done a (mkState w (calls st ++ [c]) (logged st)).

(** [logger.Log(keyvals...)]; the returned error is dropped by every caller. *)
Definition Log {W : Type} (keyvals : list string) : Go W unit :=
  fun st => Done tt (mkState (world st) (calls st) (logged st ++ [keyvals])).

(** What the body of a loop does to the enclosing function: it returns from
    it, or goes on with the loop's variables. *)
Inductive Flow (R A : Type) : Type :=
| Return (r : R)
| Next (a : A).
Arguments Return {R A}.
Arguments Next {R A}.

(** ** The methods of S3Storage *)

Section Methods.
Context {W : Type} {lib : GoLib} {pkg : Pkg}.

(** [err.Error()] *)
Fixpoint Error (err : error) : string :=
  match err with
  | errorString msg => msg
  | sentinelError v => sentinelText v
  | withMessage cause msg => msg +:+ ": " +:+ Error cause
  | wrapError msg _ => msg
  | ResponseError _ msg => msg
  end.

Definition errors_New (msg : string) : error := errorString msg.

(** [fmt.Errorf] with a format that has no [%w] verb. *)
Definition fmt_Errorf (format : string) (args : list string) : error :=
  errorString (fmt_Sprintf format args).

(** [fmt.Errorf] with a format whose last verb is [%w], applied to [err]. *)
Definition fmt_Errorf_w (format : string) (args : list string) (err : error) : error :=
  wrapError (fmt_Sprintf format (args ++ [Error err])) err.

(** [errors.Wrap] and [errors.Wrapf] of github.com/pkg/errors, on a non-nil
    error. *)
Definition errors_Wrap (err : error) (message : string) : error :=
  withMessage err message.

Definition errors_Wrapf (err : error) (format : string) (args : list string) : error :=
  withMessage err (fmt_Sprintf format args).

Implicit Type s : S3Storage W.

Definition presignedURL s (key : string) : Go W (string * option error) :=
  '(presignResult, err) ←
    backend (PresignGetObjectCall (bucket s) key)
      (PresignGetObject (presignClient s) (bucket s) key (signedURLExpiry s));
  match presignResult with
  | None => panic
  | Some r => mret (URL r, err)
  end.

Definition objectExists s (key : string) : Go W (bool * option error) :=
  herr ←
    backend (HeadObjectCall (bucket s) key)
      (HeadObject (client s) (bucket s) key);
  match herr with
  | Some err =>
      match errors_As_ResponseError err with
      | Some code =>
          if code =? StatusNotFound then mret (false, None)
          else mret (false, Some err)
      | None => mret (false, Some err)
      end
  | None => mret (true, None)
  end.

Definition download s (path : string) : Go W (string * option error) :=
  '(buf, derr) ←
    backend (DownloadCall (bucket s) path)
      (Download (downloader s) (bucket s) path);
  match derr with
  | Some err => mret ("", Some (errors_Wrapf err "failed to download: %s" [path]))
  | None => mret (buf, None)
  end.

(** GetModule retrieves information about a module from the S3 storage. *)
Definition GetModule s (namespace name provider version : string)
  : Go W (core.Mod.t * option error) :=
  let key :=
    modulePath (bucketPrefix s) namespace name provider version
      (moduleArchiveFormat s) in
  '(exists_, err) ← objectExists s key;
  match err with
  | Some e => mret (core.Mod.zero, Some e)
  | None =>
      if negb exists_ then mret (core.Mod.zero, Some (sentinelError ErrModuleNotFound))
      else
        '(presigned, err) ← presignedURL s key;
        match err with
        | Some e => mret (core.Mod.zero, Some e)
        | None =>
            mret (core.Mod.Build namespace name provider version presigned, None)
        end
  end.

(** The inner loop of ListModuleVersions, over the objects of one page. *)
Fixpoint ListModuleVersions_contents s (contents : list string)
    (modules : list core.Mod.t)
  : Go W (Flow (list core.Mod.t * option error) (list core.Mod.t)) :=
  match contents with
  | [] => mret (Next modules)
  | key :: rest =>
      match moduleFromObject key (moduleArchiveFormat s) with
      | Err _ => ListModuleVersions_contents s rest modules
      | Ok m =>
          '(url, err) ←
            presignedURL s
              (modulePath (bucketPrefix s) (core.Mod.Namespace m) (core.Mod.Name m)
                 (core.Mod.Provider m) (core.Mod.Version m) (moduleArchiveFormat s));
          match err with
          | Some e => mret (Return ([], Some e))
          | None =>
              ListModuleVersions_contents s rest
                (modules ++ [core.Mod.setDownloadURL m url])
          end
      end
  end.

(** The outer loop of ListModuleVersions, over the pages of the paginator. *)
Fixpoint ListModuleVersions_pages s (prefix : string) (pages : list page)
    (modules : list core.Mod.t) : Go W (list core.Mod.t * option error) :=
  match pages with
  | [] => mret (modules, None)
  | resp :: more =>
      _ ← backend (NextPageCall (bucket s) prefix) (fun w => (tt, w));
      match resp with
      | inr err =>
          mret ([], Some (errors_Wrap (sentinelError ErrModuleListFailed) (Error err)))
      | inl contents =>
          flow ← ListModuleVersions_contents s contents modules;
          match flow with
          | Return r => mret r
          | Next modules' => ListModuleVersions_pages s prefix more modules'
          end
      end
  end.

Definition ListModuleVersions s (namespace name provider : string)
  : Go W (list core.Mod.t * option error) :=
  fun st =>
    let prefix := modulePathPrefix (bucketPrefix s) namespace name provider in
    ListModuleVersions_pages s prefix
      (ListObjectsV2 (client s) (bucket s) prefix (world st)) [] st.

(** UploadModule uploads a module to the S3 storage. *)
Definition UploadModule s (namespace name provider version body : string)
  : Go W (core.Mod.t * option error) :=
  if decide (namespace = "") then
    mret (core.Mod.zero, Some (errors_New "namespace not defined"))
  else if decide (name = "") then
    mret (core.Mod.zero, Some (errors_New "name not defined"))
  else if decide (provider = "") then
    mret (core.Mod.zero, Some (errors_New "provider not defined"))
  else if decide (version = "") then
    mret (core.Mod.zero, Some (errors_New "version not defined"))
  else
    let key :=
      modulePath (bucketPrefix s) namespace name provider version
        DefaultModuleArchiveFormat in
    '(_, err) ← GetModule s namespace name provider version;
    match err with
    | None =>
        mret (core.Mod.zero,
              Some (errors_Wrap (sentinelError ErrModuleAlreadyExists) key))
    | Some _ =>
        uerr ←
          backend (UploadCall (bucket s) key body)
            (Upload (uploader s) (bucket s) key body);
        match uerr with
        | Some err =>
            mret (core.Mod.zero,
                  Some (errors_Wrapf (sentinelError ErrModuleUploadFailed) (Error err) []))
        | None => GetModule s namespace name provider version
        end
    end.

(** [s.client.CopyObject] as both migrations issue it for the object [key]. *)
Definition copyObject s (key targetKey : string) : Go W (option error) :=
  let copySource := url_PathEscape (path_Join [bucket s; key]) in
  backend (CopyObjectCall (bucket s) copySource targetKey)
    (CopyObject (client s) (bucket s) copySource targetKey).

(** The inner loop of MigrateModules.  A pointer passed to the logger is
    rendered as the string it points to. *)
Fixpoint MigrateModules_contents s (dryRun : bool) (contents : list string)
  : Go W (Flow (option error) unit) :=
  match contents with
  | [] => mret (Next tt)
  | key :: rest =>
      if negb (isUnmigratedModule (bucketPrefix s) key) then
        _ ← Log ["message"; "skipping..."; "key"; key];
        MigrateModules_contents s dryRun rest
      else
        let targetKey :=
          migrationTargetPath (bucketPrefix s) (moduleArchiveFormat s) key in
        if dryRun then
          _ ← Log ["message"; "skipping due to dry-run"; "source"; key;
                   "target"; targetKey];
          MigrateModules_contents s dryRun rest
        else
          cerr ← copyObject s key targetKey;
          match cerr with
          | Some err => mret (Return (Some err))
          | None =>
              _ ← Log ["message"; "copied module"; "source"; key;
                       "target"; targetKey];
              MigrateModules_contents s dryRun rest
          end
  end.

Fixpoint MigrateModules_pages s (dryRun : bool) (prefix : string)
    (pages : list page) : Go W (option error) :=
  match pages with
  | [] => mret None
  | resp :: more =>
      _ ← backend (NextPageCall (bucket s) prefix) (fun w => (tt, w));
      match resp with
      | inr err => mret (Some (fmt_Errorf_w "failed to page: %w" [] err))
      | inl contents =>
          flow ← MigrateModules_contents s dryRun contents;
          match flow with
          | Return r => mret r
          | Next _ => MigrateModules_pages s dryRun prefix more
          end
      end
  end.

(** MigrateModules is only a temporary method needed for the migration from
    0.7.0 to 0.8.0 and above. *)
Definition MigrateModules s (dryRun : bool) : Go W (option error) :=
  fun st =>
    let prefix := path_Join [bucketPrefix s; internalModuleType] in
    MigrateModules_pages s dryRun prefix
      (ListObjectsV2 (client s) (bucket s) prefix (world st)) st.

(** The inner loop of MigrateProviders. *)
Fixpoint MigrateProviders_contents s (dryRun : bool) (contents : list string)
  : Go W (Flow (option error) unit) :=
  match contents with
  | [] => mret (Next tt)
  | key :: rest =>
      match providerMigrationTargetPath (bucketPrefix s) key with
      | Err err => mret (Return (Some err))
      | Ok directory =>
          let targetKey := path_Join [directory; path_Base key] in
          if dryRun then
            _ ← Log ["message"; "skipping due to dry-run"; "source"; key;
                     "target"; targetKey];
            MigrateProviders_contents s dryRun rest
          else
            cerr ← copyObject s key targetKey;
            match cerr with
            | Some err => mret (Return (Some err))
            | None =>
                _ ← Log ["message"; "copied module"; "source"; key;
                         "target"; targetKey];
                MigrateProviders_contents s dryRun rest
            end
      end
  end.

Fixpoint MigrateProviders_pages s (dryRun : bool) (prefix : string)
    (pages : list page) : Go W (option error) :=
  match pages with
  | [] => mret None
  | resp :: more =>
      _ ← backend (NextPageCall (bucket s) prefix) (fun w => (tt, w));
      match resp with
      | inr err => mret (Some (fmt_Errorf_w "failed to page: %w" [] err))
      | inl contents =>
          flow ← MigrateProviders_contents s dryRun contents;
          match flow with
          | Return r => mret r
          | Next _ => MigrateProviders_pages s dryRun prefix more
          end
      end
  end.

(** MigrateProviders is a temporary method needed for the migration from
    0.7.0 to 0.8.0 and above. *)
Definition MigrateProviders s (dryRun : bool) : Go W (option error) :=
  fun st =>
    let prefix := path_Join [bucketPrefix s; internalProviderType] in
    MigrateProviders_pages s dryRun prefix
      (ListObjectsV2 (client s) (bucket s) prefix (world st)) st.

(** SigningKeys downloads the JSON placed in the namespace in S3 and
    unmarshals it. *)
Definition SigningKeys s (namespace : string)
  : Go W (option SigningKeysT * option error) :=
  if decide (namespace = "") then
    mret (None, Some (fmt_Errorf "namespace argument is empty" []))
  else
    '(signingKeysRaw, err) ← download s (signingKeysPath (bucketPrefix s) namespace);
    match err with
    | Some e =>
        mret (None,
              Some (fmt_Errorf_w
                      "failed to download signing_keys.json for namespace %s: %w"
                      [namespace] e))
    | None => mret (unmarshalSigningKeys signingKeysRaw)
    end.

(** GetProvider retrieves information about a provider from the S3 storage. *)
Definition GetProvider s (namespace name version os arch : string)
  : Go W (core.Provider.t SigningKeysT * option error) :=
  match internalProviderPath (bucketPrefix s) namespace name version os arch with
  | Err e => mret (core.Provider.zero, Some e)
  | Ok (archivePath, shasumPath, shasumSigPath) =>
      '(zipURL, err) ← presignedURL s archivePath;
      match err with
      | Some e => mret (core.Provider.zero, Some e)
      | None =>
      '(shasumsURL, err) ← presignedURL s shasumPath;
      match err with
      | Some e => mret (core.Provider.zero, Some (errors_Wrap e shasumPath))
      | None =>
      '(signatureURL, err) ← presignedURL s shasumSigPath;
      match err with
      | Some e => mret (core.Provider.zero, Some e)
      | None =>
      '(shasumBytes, err) ← download s shasumPath;
      match err with
      | Some e => mret (core.Provider.zero, Some e)
      | None =>
      match readSHASums shasumBytes (path_Base archivePath) with
      | Err e => mret (core.Provider.zero, Some e)
      | Ok shasum =>
      '(signingKeys, err) ← SigningKeys s namespace;
      match err with
      | Some e => mret (core.Provider.zero, Some e)
      | None =>
      match signingKeys with
      | None => panic
      | Some keys =>
          mret (core.Provider.Build namespace name version os arch shasum
                  (path_Base archivePath) zipURL shasumsURL signatureURL
                  (Some keys),
                None)
      end end end end end end end
  end.

(** The inner loop of ListProviderVersions. *)
Fixpoint ListProviderVersions_contents (contents : list string)
    (collection : Collection) : Collection :=
  match contents with
  | [] => collection
  | key :: rest =>
      match NewProviderFromArchive key with
      | Err _ => ListProviderVersions_contents rest collection
      | Ok provider =>
          ListProviderVersions_contents rest (Collection_Add provider collection)
      end
  end.

Fixpoint ListProviderVersions_pages s (prefix : string) (pages : list page)
    (collection : Collection) : Go W (result Collection) :=
  match pages with
  | [] => mret (Ok collection)
  | resp :: more =>
      _ ← backend (NextPageCall (bucket s) prefix) (fun w => (tt, w));
      match resp with
      | inr err =>
          mret (Err (errors_Wrap (sentinelError ErrProviderListFailed) (Error err)))
      | inl contents =>
          ListProviderVersions_pages s prefix more
            (ListProviderVersions_contents contents collection)
      end
  end.

Definition ListProviderVersions s (namespace name : string)
  : Go W (list ProviderVersion * option error) :=
  match providerStoragePrefix (bucketPrefix s) internalProviderType "" namespace name with
  | Err e => mret ([], Some e)
  | Ok prefix =>
      fun st =>
        let listPrefix := fmt_Sprintf "%s/" [prefix] in
        (listed ←
           ListProviderVersions_pages s listPrefix
             (ListObjectsV2 (client s) (bucket s) listPrefix (world st))
             NewCollection;
         match listed with
         | Err e => mret ([], Some e)
         | Ok collection =>
             let result := Collection_List collection in
             if (length result =? 0)%nat then
               mret ([], Some (fmt_Errorf "no provider versions found for %s/%s"
                                 [namespace; name]))
             else mret (result, None)
         end) st
  end.

Definition UploadProviderReleaseFiles s (namespace name filename file : string)
  : Go W (option error) :=
  if decide (namespace = "") then
    mret (Some (fmt_Errorf "namespace argument is empty" []))
  else if decide (name = "") then
    mret (Some (fmt_Errorf "name argument is empty" []))
  else if decide (filename = "") then
    mret (Some (fmt_Errorf "name argument is empty" []))
  else
    match providerStoragePrefix (bucketPrefix s) internalProviderType "" namespace name with
    | Err e => mret (Some e)
    | Ok prefix =>
        let key := filepath_Join [prefix; filename] in
        '(exists_, err) ← objectExists s key;
        match err with
        | Some e => mret (Some e)
        | None =>
            if (exists_ : bool) then mret (Some (sentinelError ErrProviderAlreadyExists))
            else
              uerr ←
                backend (UploadCall (bucket s) key file)
                  (Upload (uploader s) (bucket s) key file);
              match uerr with
              | Some e => mret (Some (fmt_Errorf_w "failed to upload provider: %w" [] e))
              | None => mret None
              end
        end
    end.

End Methods.

(** WithS3ArchiveFormat configures the module archive format (zip, tar,
    tgz, etc.) *)
Definition WithS3ArchiveFormat {W : Type} (archiveFormat : string)
    (s : S3Storage W) : S3Storage W :=
  Build_S3Storage W (client s) (presignClient s) (downloader s) (uploader s)
    (bucket s) (bucketPrefix s) (bucketRegion s) (bucketEndpoint s)
    archiveFormat (forcePathStyle s) (signedURLExpiry s).

(** ** The standard library functions, for running the methods *)

Fixpoint split_on (sep : ascii) (s : string) : list string :=
  match s with
  | EmptyString => [EmptyString]
  | String c rest =>
      if Ascii.eqb c sep then EmptyString :: split_on sep rest
      else
        match split_on sep rest with
        | [] => [String c EmptyString]
        | seg :: segs => String c seg :: segs
        end
  end.

Fixpoint join_with (sep : string) (segs : list string) : string :=
  match segs with
  | [] => ""
  | [seg] => seg
  | seg :: more => seg +:+ sep +:+ join_with sep more
  end.

Definition has_prefix (s pre : string) : bool := String.prefix pre s.

Definition has_suffix (s suf : string) : bool :=
  (String.length suf <=? String.length s)%nat
  && String.eqb (String.substring (String.length s - String.length suf)
                   (String.length suf) s) suf.

Definition trim_prefix (s pre : string) : string :=
  if has_prefix s pre
  then String.substring (String.length pre) (String.length s - String.length pre) s
  else s.

Definition trim_suffix (s suf : string) : string :=
  if has_suffix s suf
  then String.substring 0 (String.length s - String.length suf) s
  else s.

Definition nonempty (s : string) : bool := negb (String.eqb s "").

(** The elements of a cleaned path, by the rules of [path.Clean]: empty and
    dot elements go, a dot-dot element removes the element before it, and is
    dropped at the root. *)
Fixpoint clean_elems (rooted : bool) (elems stack : list string) : list string :=
  match elems with
  | [] => rev stack
  | e :: more =>
      if String.eqb e "" || String.eqb e "." then clean_elems rooted more stack
      else if String.eqb e ".." then
        match stack with
        | top :: below =>
            if String.eqb top ".." then clean_elems rooted more (e :: stack)
            else clean_elems rooted more below
        | [] =>
            if rooted then clean_elems rooted more stack
            else clean_elems rooted more (e :: stack)
        end
      else clean_elems rooted more (e :: stack)
  end.

(** path.Clean *)
Definition go_path_Clean (p : string) : string :=
  if String.eqb p "" then "."
  else
    let rooted := has_prefix p "/" in
    let body := join_with "/" (clean_elems rooted (split_on "/" p) []) in
    if rooted then "/" +:+ body
    else if String.eqb body "" then "." else body.

(** path.Join *)
Definition go_path_Join (elem : list string) : string :=
  match filter (fun e => e <> "") elem with
  | [] => ""
  | kept => go_path_Clean (join_with "/" kept)
  end.

(** path.Base *)
Definition go_path_Base (p : string) : string :=
  if String.eqb p "" then "."
  else
    match filter (fun e => e <> "") (split_on "/" p) with
    | [] => "/"
    | e :: more => List.last more e
    end.

Definition hex_digit (n : N) : ascii :=
  match n with
  | 0%N => "0" | 1%N => "1" | 2%N => "2" | 3%N => "3" | 4%N => "4"
  | 5%N => "5" | 6%N => "6" | 7%N => "7" | 8%N => "8" | 9%N => "9"
  | 10%N => "A" | 11%N => "B" | 12%N => "C" | 13%N => "D" | 14%N => "E"
  | _ => "F"
  end%char.

(** [shouldEscape(c, encodePathSegment)] of net/url *)
Definition shouldEscape (c : ascii) : bool :=
  let n := N_of_ascii c in
  if ((97 <=? n) && (n <=? 122) || (65 <=? n) && (n <=? 90)
      || (48 <=? n) && (n <=? 57))%N then false
  else if existsb (Ascii.eqb c) ["-"; "_"; "."; "~"]%char then false
  else if existsb (Ascii.eqb c) ["$"; "&"; "+"; ":"; "="; "@"]%char then false
  else true.

(** url.PathEscape *)
Fixpoint go_url_PathEscape (s : string) : string :=
  match s with
  | EmptyString => EmptyString
  | String c rest =>
      if shouldEscape c then
        String "%" (String (hex_digit (N_of_ascii c / 16))
                      (String (hex_digit (N_of_ascii c mod 16))
                         (go_url_PathEscape rest)))
      else String c (go_url_PathEscape rest)
  end.

(** fmt.Sprintf on string operands, for the verbs this file writes
    (s, v, w): each takes the next operand; a doubled percent sign is a
    percent sign; a verb without operand is reported the way fmt does. *)
Fixpoint go_fmt_Sprintf (format : string) (args : list string) : string :=
  match format with
  | EmptyString => EmptyString
  | String "%" EmptyString => "%!(NOVERB)"
  | String "%" (String verb rest) =>
      if Ascii.eqb verb "%" then String "%" (go_fmt_Sprintf rest args)
      else
        match args with
        | a :: more => a +:+ go_fmt_Sprintf rest more
        | [] => "%!" +:+ String verb "(MISSING)" +:+ go_fmt_Sprintf rest []
        end
  | String c rest => String c (go_fmt_Sprintf rest args)
  end.

Definition stdlib : GoLib :=
  {| fmt_Sprintf := go_fmt_Sprintf;
     path_Join := go_path_Join;
     path_Base := go_path_Base;
     filepath_Join := go_path_Join;
     url_PathEscape := go_url_PathEscape |}.

(** ** The helpers of the package, for running the methods *)

(** Modelled from the spec: the messages of the package-level errors, which
    are declared outside this file; the spec names the error kinds only, so
    each value is rendered by the condition it stands for. *)
Definition spec_sentinelText (v : sentinel) : string :=
  match v with
  | ErrModuleNotFound => "module not found"
  | ErrModuleListFailed => "module list failed"
  | ErrModuleAlreadyExists => "module already exists"
  | ErrModuleUploadFailed => "module upload failed"
  | ErrProviderListFailed => "provider list failed"
  | ErrProviderAlreadyExists => "provider already exists"
  end.

(** Modelled from the spec: modulePathPrefix, missing from this file; the
    part of the module key layout before the version. *)
Definition spec_modulePathPrefix (prefix namespace name provider : string) : string :=
  go_path_Join [prefix; "modules"; namespace; name; provider].

(** Modelled from the spec: modulePath, missing from this file; the layout
    [<prefix>/modules/<namespace>/<name>/<provider>/<version>/<name>.<archiveFormat>]
    with an optional prefix. *)
Definition spec_modulePath
    (prefix namespace name provider version archiveFormat : string) : string :=
  go_path_Join [prefix; "modules"; namespace; name; provider; version;
                name +:+ "." +:+ archiveFormat].

(** Modelled from the spec: moduleFromObject, missing from this file; the
    reverse direction of the key scheme, splitting the key on its segment
    boundaries and validating segment count and non-emptiness. *)
Definition spec_moduleFromObject (key archiveFormat : string) : result core.Mod.t :=
  match rev (split_on "/" key) with
  | file :: version :: provider :: name :: namespace :: kind :: _ =>
      if String.eqb kind "modules"
         && forallb nonempty [namespace; name; provider; version]
         && String.eqb file (name +:+ "." +:+ archiveFormat)
      then Ok (core.Mod.Build namespace name provider version "")
      else Err (errorString ("not a module object: " +:+ key))
  | _ => Err (errorString ("not a module object: " +:+ key))
  end.

(** Modelled from the spec: isUnmigratedModule, missing from this file;
    legacy keys differ from current ones in their top-level segment, so a
    listed key is in current form when it lies under [<prefix>/modules/]. *)
Definition spec_isUnmigratedModule (prefix key : string) : bool :=
  negb (has_prefix key (go_path_Join [prefix; "modules"] +:+ "/")).

(** Modelled from the spec: migrationTargetPath, missing from this file; the
    key of the same coordinates under the current layout. *)
Definition spec_migrationTargetPath (prefix archiveFormat key : string) : string :=
  match rev (split_on "/" key) with
  | _ :: version :: provider :: name :: namespace :: _ =>
      spec_modulePath prefix namespace name provider version archiveFormat
  | _ => go_path_Join [prefix; "modules"; go_path_Base key]
  end.

(** Modelled from the spec: providerStoragePrefix, missing from this file;
    [<prefix>/providers/<namespace>/<name>], the directory of the release
    files of a provider. *)
Definition spec_providerStoragePrefix
    (prefix providerType hostname namespace name : string) : result string :=
  Ok (go_path_Join [prefix; providerType; hostname; namespace; name]).

(** Modelled from the spec: providerMigrationTargetPath, missing from this
    file; the directory of the current layout for the provider the legacy
    key belongs to, an error for a key with too few segments. *)
Definition spec_providerMigrationTargetPath (prefix key : string) : result string :=
  match rev (split_on "/" key) with
  | file :: name :: namespace :: _ :: _ =>
      if forallb nonempty [file; name; namespace]
      then spec_providerStoragePrefix prefix "providers" "" namespace name
      else Err (errorString ("not a provider object: " +:+ key))
  | _ => Err (errorString ("not a provider object: " +:+ key))
  end.

(** Modelled from the spec: internalProviderPath, missing from this file;
    the archive [terraform-provider-<name>_<version>_<os>_<arch>.zip] and the
    sibling SHA256SUMS and SHA256SUMS.sig files of the version. *)
Definition spec_internalProviderPath
    (prefix namespace name version os arch : string)
  : result (string * string * string) :=
  let dir := go_path_Join [prefix; "providers"; namespace; name] in
  let base := "terraform-provider-" +:+ name +:+ "_" +:+ version in
  Ok (go_path_Join [dir; base +:+ "_" +:+ os +:+ "_" +:+ arch +:+ ".zip"],
      go_path_Join [dir; base +:+ "_SHA256SUMS"],
      go_path_Join [dir; base +:+ "_SHA256SUMS.sig"]).

(** Modelled from the spec: signingKeysPath, missing from this file; one
    key-set object per namespace. *)
Definition spec_signingKeysPath (prefix namespace : string) : string :=
  go_path_Join [prefix; "providers"; namespace; "signing-keys.json"].

(** Modelled from the spec: unmarshalSigningKeys, missing from this file.
    The JSON decoding is not modelled: a document that opens an object
    decodes to the key set holding its text, anything else is a decode
    error. *)
Definition spec_unmarshalSigningKeys (raw : string)
  : option (list string) * option error :=
  if has_prefix raw "{" then (Some [raw], None)
  else (None, Some (errorString "signing keys: decode error")).

Definition cut (sep s : string) : option (string * string) :=
  match String.index 0 sep s with
  | Some i =>
      Some (String.substring 0 i s,
            String.substring (i + String.length sep)
              (String.length s - (i + String.length sep)) s)
  | None => None
  end.

Fixpoint readSHASums_lines (lines : list string) (filename : string) : result string :=
  match lines with
  | [] => Err (errorString ("checksum not found: " +:+ filename))
  | line :: more =>
      if String.eqb line "" then readSHASums_lines more filename
      else
        match cut "  " line with
        | None => Err (errorString ("checksum manifest: bad line: " +:+ line))
        | Some (digest, name) =>
            if String.eqb name filename then Ok digest
            else readSHASums_lines more filename
        end
  end.

(** Modelled from the spec: readSHASums, missing from this file; the digest
    of the line [<digest>  <filename>] for the exact filename. *)
Definition spec_readSHASums (manifest filename : string) : result string :=
  readSHASums_lines (split_on "010" manifest) filename.

(** Modelled from the spec: core.NewProviderFromArchive, missing from this
    file; the reverse direction for providers, from the key path and the
    archive name [terraform-provider-<name>_<version>_<os>_<arch>.zip]. *)
Definition spec_NewProviderFromArchive (key : string)
  : result (core.Provider.t (list string)) :=
  match rev (split_on "/" key) with
  | file :: _ :: namespace :: _ =>
      match split_on "_" (trim_suffix file ".zip") with
      | [binary; version; os; arch] =>
          if has_suffix file ".zip" && has_prefix binary "terraform-provider-"
             && forallb nonempty
                  [namespace; trim_prefix binary "terraform-provider-"; version; os; arch]
          then
            Ok (core.Provider.Build namespace
                  (trim_prefix binary "terraform-provider-") version os arch
                  "" file "" "" "" None)
          else Err (errorString ("not a provider archive: " +:+ key))
      | _ => Err (errorString ("not a provider archive: " +:+ key))
      end
  | _ => Err (errorString ("not a provider archive: " +:+ key))
  end.

(** core.Platform and core.ProviderVersion *)
Record Platform : Type := { platform_os : string; platform_arch : string }.

Record SpecProviderVersion : Type := {
  pv_version : string;
  pv_platforms : list Platform
}.

Fixpoint parse_number (digits : string) (acc : N) : option N :=
  match digits with
  | EmptyString => Some acc
  | String c rest =>
      let n := N_of_ascii c in
      if ((48 <=? n) && (n <=? 57))%N then parse_number rest (acc * 10 + (n - 48))%N
      else None
  end.

Definition version_components (v : string) : option (list N) :=
  mapM (fun part => if nonempty part then parse_number part 0%N else None)
    (split_on "." v).

Fixpoint components_leb (a b : list N) : bool :=
  match a, b with
  | [], _ => true
  | _ :: _, [] => false
  | x :: a', y :: b' => (x <? y)%N || ((x =? y)%N && components_leb a' b')
  end.

(** Component-wise numeric order; malformed versions come after all valid
    ones. *)
Definition version_leb (a b : string) : bool :=
  match version_components a, version_components b with
  | Some ka, Some kb => components_leb ka kb
  | Some _, None => true
  | None, Some _ => false
  | None, None => String.leb a b
  end.

Definition platform_leb (p q : Platform) : bool :=
  String.ltb (platform_os p) (platform_os q)
  || (String.eqb (platform_os p) (platform_os q)
      && String.leb (platform_arch p) (platform_arch q)).

Definition platform_eqb (p q : Platform) : bool :=
  String.eqb (platform_os p) (platform_os q)
  && String.eqb (platform_arch p) (platform_arch q).

Fixpoint add_platform (p : Platform) (ps : list Platform) : list Platform :=
  match ps with
  | [] => [p]
  | q :: more =>
      if platform_eqb p q then ps
      else if platform_leb p q then p :: ps
      else q :: add_platform p more
  end.

Fixpoint add_version (v : string) (p : Platform) (c : list SpecProviderVersion)
  : list SpecProviderVersion :=
  match c with
  | [] => [{| pv_version := v; pv_platforms := [p] |}]
  | pv :: more =>
      if String.eqb v (pv_version pv) then
        {| pv_version := v; pv_platforms := add_platform p (pv_platforms pv) |} :: more
      else if version_leb v (pv_version pv) then
        {| pv_version := v; pv_platforms := [p] |} :: c
      else pv :: add_version v p more
  end.

(** Modelled from the spec: the provider version collection (NewCollection,
    Add, List), missing from this file; versions in ascending order, each
    with its platforms in ascending order and without duplicates. *)
Definition spec_Collection_Add (provider : core.Provider.t (list string))
    (c : list SpecProviderVersion) : list SpecProviderVersion :=
  add_version (core.Provider.Version provider)
    {| platform_os := core.Provider.OS provider;
       platform_arch := core.Provider.Arch provider |} c.

(** Modelled from the spec: the constants and helpers of the package that
    are declared outside this file, with tar.gz as default archive format
    and "modules" and "providers" as the segments of the two entity kinds. *)
Definition registry : Pkg :=
  {| sentinelText := spec_sentinelText;
     DefaultModuleArchiveFormat := "tar.gz";
     internalModuleType := "modules";
     internalProviderType := "providers";
     modulePath := spec_modulePath;
     modulePathPrefix := spec_modulePathPrefix;
     moduleFromObject := spec_moduleFromObject;
     isUnmigratedModule := spec_isUnmigratedModule;
     migrationTargetPath := spec_migrationTargetPath;
     providerMigrationTargetPath := spec_providerMigrationTargetPath;
     internalProviderPath := spec_internalProviderPath;
     providerStoragePrefix := spec_providerStoragePrefix;
     signingKeysPath := spec_signingKeysPath;
     SigningKeysT := list string;
     unmarshalSigningKeys := spec_unmarshalSigningKeys;
     readSHASums := spec_readSHASums;
     NewProviderFromArchive := spec_NewProviderFromArchive;
     ProviderVersion := SpecProviderVersion;
     Collection := list SpecProviderVersion;
     NewCollection := [];
     Collection_Add := spec_Collection_Add;
     Collection_List := fun c => c |}.


(** ** Two backends *)

(** An in-memory bucket: the stored objects by key, and a script of faults.
    Every call but a listing takes the next entry of the script and fails
    with its error if it has one; an empty script means that no call fails. *)
Record MemS3 : Type := {
  objects : gmap string string;
  faults : list (option error)
}.

Definition next_fault (w : MemS3) : option error * MemS3 :=
  match faults w with
  | [] => (None, w)
  | f :: more => (f, {| objects := objects w; faults := more |})
  end.

Definition mem_put (key body : string) (w : MemS3) : MemS3 :=
  {| objects := <[key := body]> (objects w); faults := faults w |}.

(** The keys of the bucket in the order S3 lists them. *)
Definition mem_keys (w : MemS3) : list string :=
  merge_sort (fun a b : string => String.leb a b) (map fst (map_to_list (objects w))).

Definition mem_HeadObject (bucket key : string) (w : MemS3) : option error * MemS3 :=
  let '(fault, w') := next_fault w in
  match fault with
  | Some err => (Some err, w')
  | None =>
      match objects w' !! key with
      | Some _ => (None, w')
      | None => (Some (ResponseError 404 "NotFound"), w')
      end
  end.

(** The listing is served in one page. *)
Definition mem_ListObjectsV2 (bucket prefix : string) (w : MemS3) : list page :=
  [inl (filter (fun key => has_prefix key prefix = true) (mem_keys w))].

(** The copy source names its object as the escaped path of bucket and key;
    the object stays where it is. *)
Definition mem_CopyObject {lib : GoLib} (bucket copySource key : string) (w : MemS3)
  : option error * MemS3 :=
  let '(fault, w') := next_fault w in
  match fault with
  | Some err => (Some err, w')
  | None =>
      match
        List.find
          (fun k => String.eqb (url_PathEscape (path_Join [bucket; k])) copySource)
          (mem_keys w')
      with
      | Some source =>
          match objects w' !! source with
          | Some body => (None, mem_put key body w')
          | None => (Some (ResponseError 404 "NoSuchKey"), w')
          end
      | None => (Some (ResponseError 404 "NoSuchKey"), w')
      end
  end.

Definition mem_Upload (bucket key body : string) (w : MemS3) : option error * MemS3 :=
  let '(fault, w') := next_fault w in
  match fault with
  | Some err => (Some err, w')
  | None => (None, mem_put key body w')
  end.

Definition mem_Download (bucket key : string) (w : MemS3)
  : (string * option error) * MemS3 :=
  let '(fault, w') := next_fault w in
  match fault with
  | Some err => (("", Some err), w')
  | None =>
      match objects w' !! key with
      | Some body => ((body, None), w')
      | None => (("", Some (ResponseError 404 "NoSuchKey")), w')
      end
  end.

(** A failing presign call returns a nil result with its error, as the SDK
    does. *)
Definition mem_PresignGetObject (bucket key : string) (expiry : Z) (w : MemS3)
  : (option PresignedHTTPRequest * option error) * MemS3 :=
  let '(fault, w') := next_fault w in
  match fault with
  | Some err => ((None, Some err), w')
  | None =>
      ((Some {| URL := "https://" +:+ bucket +:+ ".s3.amazonaws.com/" +:+ key |},
        None), w')
  end.

Definition mem_storage {lib : GoLib} (bucket prefix archiveFormat : string)
  : S3Storage MemS3 :=
  {| client :=
       {| HeadObject := mem_HeadObject;
          ListObjectsV2 := mem_ListObjectsV2;
          CopyObject := mem_CopyObject |};
     presignClient := {| PresignGetObject := mem_PresignGetObject |};
     downloader := {| Download := mem_Download |};
     uploader := {| Upload := mem_Upload |};
     bucket := bucket;
     bucketPrefix := prefix;
     bucketRegion := "eu-central-1";
     bucketEndpoint := "";
     moduleArchiveFormat := archiveFormat;
     forcePathStyle := false;
     signedURLExpiry := 30 |}.

(** A backend without state that answers by key, as the mocks of the
    interfaces do in tests. *)
Record Script : Type := {
  on_head : string -> option error;
  on_list : string -> list page;
  on_copy : string -> string -> option error;
  on_upload : string -> option error;
  on_download : string -> string * option error;
  on_presign : string -> option PresignedHTTPRequest * option error
}.

Definition scripted_storage (sc : Script) (bucket prefix archiveFormat : string)
  : S3Storage unit :=
  {| client :=
       {| HeadObject := fun _ key w => (on_head sc key, w);
          ListObjectsV2 := fun _ prefix _ => on_list sc prefix;
          CopyObject := fun _ source key w => (on_copy sc source key, w) |};
     presignClient :=
       {| PresignGetObject := fun _ key _ w => (on_presign sc key, w) |};
     downloader := {| Download := fun _ key w => (on_download sc key, w) |};
     uploader := {| Upload := fun _ key _ w => (on_upload sc key, w) |};
     bucket := bucket;
     bucketPrefix := prefix;
     bucketRegion := "eu-central-1";
     bucketEndpoint := "";
     moduleArchiveFormat := archiveFormat;
     forcePathStyle := false;
     signedURLExpiry := 30 |}.

(** The state a call starts from: nothing called, nothing logged. *)
Definition start {W : Type} (w : W) : State W := mkState w [] [].

(** ** Sample storages, buckets and mocks *)

(** A registry bucket without prefix, serving tar.gz archives (the default
    format) or zip archives. *)
Definition targz_registry : S3Storage MemS3 :=
  mem_storage (lib := stdlib) "registry" "" "tar.gz".

Definition zip_registry : S3Storage MemS3 :=
  WithS3ArchiveFormat "zip" (mem_storage (lib := stdlib) "registry" "" "").

Definition empty_bucket : MemS3 := {| objects := ∅; faults := [] |}.

Definition consul_targz : string := "modules/hashicorp/consul/aws/1.0.0/consul.tar.gz".

Definition consul_zip : string := "modules/hashicorp/consul/aws/1.0.0/consul.zip".

(** A bucket that holds the consul module, and the same bucket behind a
    backend whose next call fails with a 503. *)
Definition consul_bucket : MemS3 :=
  {| objects := {[ consul_targz := "OLD" ]}; faults := [] |}.

Definition throttled_consul_bucket : MemS3 :=
  {| objects := {[ consul_targz := "OLD" ]};
     faults := [Some (ResponseError 503 "SlowDown")] |}.

(** A bucket that holds one module under a legacy top-level segment. *)
Definition legacy_key : string := "modules.v0/hashicorp/consul/aws/1.0.0/consul.tar.gz".

Definition legacy_bucket : MemS3 :=
  {| objects := {[ legacy_key := "BODY" ]}; faults := [] |}.

(** A mock that knows no object: every HeadObject and Download is a 404,
    listings are empty, presigning works. *)
Definition nothing_there : Script :=
  {| on_head := fun _ => Some (ResponseError 404 "NotFound");
     on_list := fun _ => [inl []];
     on_copy := fun _ _ => Some (ResponseError 404 "NoSuchKey");
     on_upload := fun _ => None;
     on_download := fun _ => ("", Some (ResponseError 404 "NoSuchKey"));
     on_presign := fun key => (Some {| URL := "https://signed/" +:+ key |}, None) |}.

(** A mock whose credentials are refused by HeadObject. *)
Definition access_denied : Script :=
  {| on_head := fun _ => Some (ResponseError 403 "AccessDenied");
     on_list := on_list nothing_there;
     on_copy := on_copy nothing_there;
     on_upload := on_upload nothing_there;
     on_download := on_download nothing_there;
     on_presign := on_presign nothing_there |}.

(** A mock that finds every object, lists a module archive between two
    foreign keys, and whose presign client fails the way the SDK does: a nil
    result next to the error. *)
Definition presign_fails : Script :=
  {| on_head := fun _ => None;
     on_list := fun _ => [inl ["modules/README.md"; consul_targz; "modules/notes.txt"]];
     on_copy := fun _ _ => None;
     on_upload := fun _ => None;
     on_download := fun _ => ("", None);
     on_presign := fun _ => (None, Some (errorString "failed to sign request")) |}.

(** A mock whose listing holds a foreign key on its first page and fails on
    the second. *)
Definition second_page_fails : Script :=
  {| on_head := on_head nothing_there;
     on_list := fun _ => [inl ["README.md"]; inr (errorString "connection reset");
                          inl [consul_targz]];
     on_copy := on_copy nothing_there;
     on_upload := on_upload nothing_there;
     on_download := on_download nothing_there;
     on_presign := on_presign nothing_there |}.

(** A mock whose presign client returns a URL and an error at once. *)
Definition presign_warns : Script :=
  {| on_head := fun _ => None;
     on_list := on_list nothing_there;
     on_copy := on_copy nothing_there;
     on_upload := on_upload nothing_there;
     on_download := on_download nothing_there;
     on_presign := fun _ =>
       (Some {| URL := "https://signed/stale" |}, Some (errorString "clock skew")) |}.

(** A mock whose listings hold keys of other things only. *)
Definition only_foreign_keys : Script :=
  {| on_head := on_head nothing_there;
     on_list := fun _ => [inl ["modules/README.md"; "providers/LICENSE"]; inl []];
     on_copy := on_copy nothing_there;
     on_upload := on_upload nothing_there;
     on_download := on_download nothing_there;
     on_presign := on_presign nothing_there |}.

Definition mock (sc : Script) : S3Storage unit :=
  scripted_storage sc "registry" "" "tar.gz".

(** ** Vocabulary of the statements *)

(** The state after one more call to the backend. *)
Definition after_call {W : Type} (st : State W) (c : Call) (w : W) : State W :=
  mkState w (calls st ++ [c]) (logged st).

(** The state a run ends in, panic or not. *)
Definition final {W A : Type} (o : Outcome W A) : State W :=
  match o with
  | Done _ st => st
  | Panic st => st
  end.

(** What a run returns, if it does not panic. *)
Definition returned {W A : Type} (o : Outcome W A) : option A :=
  match o with
  | Done a _ => Some a
  | Panic _ => None
  end.

Definition is_copy (c : Call) : bool :=
  match c with CopyObjectCall _ _ _ => true | _ => false end.

Definition is_upload (c : Call) : bool :=
  match c with UploadCall _ _ _ => true | _ => false end.

Definition is_next_page (c : Call) : bool :=
  match c with NextPageCall _ _ => true | _ => false end.

(** The keys a listing hands to the loop body. *)
Definition page_keys (p : page) : list string :=
  match p with
  | inl contents => contents
  | inr _ => []
  end.

Definition listed_keys (pages : list page) : list string :=
  concat (map page_keys pages).

Definition page_ok (p : page) : bool :=
  match p with inl _ => true | inr _ => false end.

(** An error that no package-level error value is in the chain of: only its
    message tells what it is about. *)
Definition untyped (err : error) : Prop :=
  forall v : sentinel, errors_Is err v = false.

(** The objects of [w] are still there in [w']. *)
Definition keeps_objects (w w' : MemS3) : Prop :=
  forall key, is_Some (objects w !! key) -> is_Some (objects w' !! key).

(** Whether the reverse parsers accept a key. *)
Definition is_module_key {pkg : Pkg} (archiveFormat key : string) : bool :=
  match moduleFromObject key archiveFormat with
  | Ok _ => true
  | Err _ => false
  end.

Definition is_provider_key {pkg : Pkg} (key : string) : bool :=
  match NewProviderFromArchive key with
  | Ok _ => true
  | Err _ => false
  end.

(** A page that was fetched and holds no key that [accepted] accepts. *)
Definition page_without (accepted : string -> bool) (p : page) : Prop :=
  match p with
  | inl contents => Forall (fun key => accepted key = false) contents
  | inr _ => False
  end.

(** The collection ListProviderVersions has after the given pages. *)
Definition collected {pkg : Pkg} (pages : list page) : Collection :=
  fold_left (fun c p => ListProviderVersions_contents (page_keys p) c) pages
    NewCollection.

Section Reports.
Context {W : Type} {lib : GoLib} {pkg : Pkg}.
Implicit Type s : S3Storage W.

(** The copy a live MigrateModules issues for a key it migrates. *)
Definition module_copy s (key : string) : Call :=
  CopyObjectCall (bucket s) (url_PathEscape (path_Join [bucket s; key]))
    (migrationTargetPath (bucketPrefix s) (moduleArchiveFormat s) key).

(** What MigrateModules logs for a listed key in a dry run. *)
Definition module_dry_run_line s (key : string) : list string :=
  if isUnmigratedModule (bucketPrefix s) key
  then ["message"; "skipping due to dry-run"; "source"; key; "target";
        migrationTargetPath (bucketPrefix s) (moduleArchiveFormat s) key]
  else ["message"; "skipping..."; "key"; key].

(** The target MigrateProviders computes for a key, if it computes one. *)
Definition provider_target s (key : string) : option string :=
  match providerMigrationTargetPath (bucketPrefix s) key with
  | Ok directory => Some (path_Join [directory; path_Base key])
  | Err _ => None
  end.


Definition provider_dry_run_line s (key : string) : option (list string) :=
  (fun target =>
     ["message"; "skipping due to dry-run"; "source"; key; "target"; target])
    <$> provider_target s key.

End Reports.

(** A bucket with the consul module for two providers whose names share a
    prefix. *)
Definition two_providers_bucket : MemS3 :=
  {| objects :=
       {[ consul_targz := "AWS";
          "modules/hashicorp/consul/aws2/1.0.0/consul.tar.gz" := "AWS2" ]};
     faults := [] |}.

(** A bucket with the checksums and the signing keys of a provider release,
    and without its archive. *)
Definition random_sums : string :=
  "providers/hashicorp/random/terraform-provider-random_2.0.0_SHA256SUMS".

Definition release_bucket : MemS3 :=
  {| objects :=
       {[ random_sums :=
            "aaa111  terraform-provider-random_2.0.0_linux_amd64.zip" +:+ String "010"
              "bbb222  terraform-provider-random_2.0.0_darwin_arm64.zip";
          "providers/hashicorp/signing-keys.json" := "{ gpg_public_keys: [] }" ]};
     faults := [] |}.

(** A bucket with the archives of two versions of a provider, the later
    one for two platforms. *)
Definition archives_bucket : MemS3 :=
  {| objects :=
       {[ "providers/hashicorp/random/terraform-provider-random_1.2.0_linux_amd64.zip" := "A";
          "providers/hashicorp/random/terraform-provider-random_1.0.0_linux_amd64.zip" := "B";
          "providers/hashicorp/random/terraform-provider-random_1.2.0_darwin_arm64.zip" := "C";
          "providers/hashicorp/random/terraform-provider-random_1.2.0_SHA256SUMS" := "D" ]};
     faults := [] |}.

(** A mock that lists two legacy module keys and refuses every copy. *)
Definition copy_denied : Script :=
  {| on_head := on_head nothing_there;
     on_list := fun _ => [inl [legacy_key; "modules.v0/hashicorp/vault/aws/2.0.0/vault.tar.gz"]];
     on_copy := fun _ _ => Some (ResponseError 403 "AccessDenied");
     on_upload := on_upload nothing_there;
     on_download := on_download nothing_there;
     on_presign := on_presign nothing_there |}.

(** ** cmd/root.go: the environment variable of a flag *)

Definition envPrefix : string := "BORING_REGISTRY".

(** [strings.ReplaceAll(s, old, new)] for an [old] and a [new] of one byte. *)
Fixpoint strings_ReplaceAll_byte (s : string) (old new : ascii) : string :=
  match s with
  | EmptyString => EmptyString
  | String c rest =>
      String (if Ascii.eqb c old then new else c) (strings_ReplaceAll_byte rest old new)
  end.

Definition is_ascii_byte (c : ascii) : bool := (N_of_ascii c <? 128)%N.

Definition is_lower_byte (c : ascii) : bool :=
  ((97 <=? N_of_ascii c) && (N_of_ascii c <=? 122))%N.

Definition upper_byte (c : ascii) : ascii :=
  if is_lower_byte c then ascii_of_N (N_of_ascii c - 32) else c.

Fixpoint isASCII (s : string) : bool :=
  match s with
  | EmptyString => true
  | String c rest => is_ascii_byte c && isASCII rest
  end.

Fixpoint upper_bytes (s : string) : string :=
  match s with
  | EmptyString => EmptyString
  | String c rest => String (upper_byte c) (upper_bytes rest)
  end.

(** [strings.ToUpper]: a string of ASCII bytes has its lower case letters
    replaced byte by byte; any other string goes through the Unicode mapping,
    which is left to [unicode_ToUpper]. *)
Definition strings_ToUpper (unicode_ToUpper : string -> string) (s : string) : string :=
  if isASCII s then upper_bytes s else unicode_ToUpper s.

(** The [envVarSuffix] that bindFlags computes for the flag named [name]. *)
Definition envVarSuffix (unicode_ToUpper : string -> string) (name : string) : string :=
  strings_ToUpper unicode_ToUpper (strings_ReplaceAll_byte name "-" "_").

(** The variable that bindFlags binds to the flag named [name]. *)
Definition envVarName {lib : GoLib} (unicode_ToUpper : string -> string) (name : string)
  : string :=
  fmt_Sprintf "%s_%s" [envPrefix; envVarSuffix unicode_ToUpper name].

(** ** Vocabulary of the further statements *)

(** A call that changes the bucket. *)
Definition is_write (c : Call) : bool := is_upload c || is_copy c.

(** The calls of [st'] are those of [st] followed by calls that all
    satisfy [allowed]. *)
Definition extends_by (allowed : Call -> bool) {W : Type} (st st' : State W) : Prop :=
  exists cs, calls st' = calls st ++ cs /\ forallb allowed cs = true.

(** A computation that only makes calls that satisfy [allowed], whatever
    state it starts from and however it ends. *)
Definition calls_only (allowed : Call -> bool) {W A : Type} (m : Go W A) : Prop :=
  forall st, extends_by allowed st (final (m st)).

(** A module without its download link. *)
Definition clear_url (m : core.Mod.t) : core.Mod.t := core.Mod.setDownloadURL m "".

(** The modules the reverse parser reads from the keys, in their order. *)
Definition parsed_modules {pkg : Pkg} (archiveFormat : string) (keys : list string)
  : list core.Mod.t :=
  flat_map
    (fun key =>
       match moduleFromObject key archiveFormat with
       | Ok m => [m]
       | Err _ => []
       end) keys.

Definition is_head (c : Call) : bool :=
  match c with HeadObjectCall _ _ => true | _ => false end.

Definition is_presign (c : Call) : bool :=
  match c with PresignGetObjectCall _ _ => true | _ => false end.

Definition is_download (c : Call) : bool :=
  match c with DownloadCall _ _ => true | _ => false end.

(** ** How far a loop over a listing gets *)

(** The pages a paginator loop gets through: those before the first page
    that fails. *)
Fixpoint fetched_pages (pages : list page) : list page :=
  match pages with
  | inl contents :: more => inl contents :: fetched_pages more
  | _ => []
  end.

Definition fetched_keys (pages : list page) : list string :=
  listed_keys (fetched_pages pages).

(** The error of the first page that fails. *)
Fixpoint first_page_error (pages : list page) : option error :=
  match pages with
  | [] => None
  | inl _ :: more => first_page_error more
  | inr err :: _ => Some err
  end.

(** The keys before the first one that [accepted] rejects. *)
Fixpoint keys_before (accepted : string -> bool) (keys : list string) : list string :=
  match keys with
  | [] => []
  | key :: rest => if accepted key then key :: keys_before accepted rest else []
  end.

(** The first key that [accepted] rejects. *)
Definition first_rejected (accepted : string -> bool) (keys : list string)
  : option string :=
  List.find (fun key => negb (accepted key)) keys.

(** The providers NewProviderFromArchive reads from the keys, in their
    order, and the collection they make when added one after the other. *)
Definition parsed_providers {pkg : Pkg} (keys : list string)
  : list (core.Provider.t SigningKeysT) :=
  flat_map
    (fun key =>
       match NewProviderFromArchive key with
       | Ok provider => [provider]
       | Err _ => []
       end) keys.

Definition collection_of {pkg : Pkg} (providers : list (core.Provider.t SigningKeysT))
  : Collection :=
  fold_left (fun collection provider => Collection_Add provider collection) providers
    NewCollection.

Section Progress.
Context {W : Type} {lib : GoLib} {pkg : Pkg}.
Implicit Type s : S3Storage W.

(** The error a migration returns for a page that fails. *)
Definition page_error (perr : error) : error :=
  fmt_Errorf_w "failed to page: %w" [] perr.

(** What a live MigrateModules logs for a listed key once it is past it. *)
Definition module_live_line s (key : string) : list string :=
  if isUnmigratedModule (bucketPrefix s) key
  then ["message"; "copied module"; "source"; key; "target";
        migrationTargetPath (bucketPrefix s) (moduleArchiveFormat s) key]
  else ["message"; "skipping..."; "key"; key].

Definition module_line s (dryRun : bool) (key : string) : list string :=
  if dryRun then module_dry_run_line s key else module_live_line s key.

(** What a live MigrateProviders logs for a listed key once it is past it. *)
Definition provider_live_line s (key : string) : option (list string) :=
  (fun target => ["message"; "copied module"; "source"; key; "target"; target])
    <$> provider_target s key.

Definition provider_line s (dryRun : bool) (key : string) : option (list string) :=
  if dryRun then provider_dry_run_line s key else provider_live_line s key.

(** Whether providerMigrationTargetPath gives a directory for a key, and its
    error when it gives none. *)
Definition has_target s (key : string) : bool :=
  match providerMigrationTargetPath (bucketPrefix s) key with
  | Ok _ => true
  | Err _ => false
  end.

Definition target_error s (key : string) : option error :=
  match providerMigrationTargetPath (bucketPrefix s) key with
  | Ok _ => None
  | Err err => Some err
  end.

End Progress.

(** A bucket with a file at the top of the provider tree, listed before the
    one archive the bucket holds. *)
Definition random_archive : string :=
  "providers/hashicorp/random/terraform-provider-random_1.0.0_linux_amd64.zip".

Definition readme_bucket : MemS3 :=
  {| objects := {[ "providers/README" := "R"; random_archive := "A" ]};
     faults := [] |}.

(** A mock that lists two legacy module keys and refuses the copy of the
    second one. *)
Definition vault_legacy_key : string :=
  "modules.v0/hashicorp/vault/aws/2.0.0/vault.tar.gz".

Definition second_copy_denied : Script :=
  {| on_head := on_head nothing_there;
     on_list := fun _ => [inl [legacy_key; vault_legacy_key]];
     on_copy := fun _ target =>
       if String.eqb target "modules/hashicorp/vault/aws/2.0.0/vault.tar.gz"
       then Some (ResponseError 403 "AccessDenied")
       else None;
     on_upload := on_upload nothing_there;
     on_download := on_download nothing_there;
     on_presign := on_presign nothing_there |}.

(** * Properties *)

Ltac go_unfold :=
  unfold mbind, Go_bind, mret, Go_ret, backend, Log, panic, after_call in *.

Section Properties.
Context {W : Type} {lib : GoLib} {pkg : Pkg}.
Implicit Type s : S3Storage W.
Implicit Type st : State W.

Lemma objectExists_run s key st :
  objectExists s key st =
  let '(herr, w') := HeadObject (client s) (bucket s) key (world st) in
  Done
    (match herr with
     | None => (true, None)
     | Some err =>
         if bool_decide (errors_As_ResponseError err = Some StatusNotFound)
         then (false, None) else (false, Some err)
     end)
    (after_call st (HeadObjectCall (bucket s) key) w').
Proof.
  unfold objectExists. go_unfold.
  destruct (HeadObject _ _ _ _) as [[err|] w']; [|reflexivity].
  destruct (errors_As_ResponseError err) as [code|] eqn:Hcode.
  - destruct (Z.eqb_spec code StatusNotFound) as [->|Hne].
    + rewrite bool_decide_eq_true_2; reflexivity.
    + rewrite bool_decide_eq_false_2; [reflexivity | congruence].
  - rewrite bool_decide_eq_false_2; [reflexivity | congruence].
Qed.

(** C7: the existence check answers [false] without error exactly when the
    chain of the HeadObject error holds a response error of status 404; a
    HeadObject that succeeds gives [true], and every other error is returned
    as it is, with [false]. *)
Theorem objectExists_not_found_only s key st herr w' :
  HeadObject (client s) (bucket s) key (world st) = (herr, w') ->
  exists r,
    objectExists s key st
    = Done r (after_call st (HeadObjectCall (bucket s) key) w')
    /\ (herr = None -> r = (true, None))
    /\ (forall err, herr = Some err ->
          errors_As_ResponseError err = Some StatusNotFound -> r = (false, None))
    /\ (forall err, herr = Some err ->
          errors_As_ResponseError err <> Some StatusNotFound ->
          r = (false, Some err))
    /\ (r = (false, None) ->
          exists err, herr = Some err
                      /\ errors_As_ResponseError err = Some StatusNotFound).
Proof.
  intros Hhead. rewrite objectExists_run, Hhead. eexists. split; [reflexivity|].
  destruct herr as [err|].
  - destruct (decide (errors_As_ResponseError err = Some StatusNotFound)) as [Hnf|Hnf].
    + rewrite bool_decide_eq_true_2 by exact Hnf.
      split; [discriminate|]. split; [reflexivity|].
      split; [intros err' [= <-] Hne; contradiction|].
      intros _. exists err. split; [reflexivity | exact Hnf].
    + rewrite bool_decide_eq_false_2 by exact Hnf.
      split; [discriminate|].
      split; [intros err' [= <-] Hnf'; contradiction|].
      split; [intros err' [= <-] _; reflexivity | discriminate].
  - split; [reflexivity|].
    split; [discriminate|]. split; discriminate.
Qed.

Lemma presignedURL_run s key st :
  presignedURL s key st =
  let '((res, err), w') :=
    PresignGetObject (presignClient s) (bucket s) key (signedURLExpiry s) (world st) in
  match res with
  | None => Panic (after_call st (PresignGetObjectCall (bucket s) key) w')
  | Some r =>
      Done (URL r, err) (after_call st (PresignGetObjectCall (bucket s) key) w')
  end.
Proof.
  unfold presignedURL. go_unfold.
  destruct (PresignGetObject _ _ _ _ _) as [[[r|] err] w']; reflexivity.
Qed.

(** GetModule when HeadObject fails: a 404 becomes ErrModuleNotFound, any
    other error is returned as it is. *)
Lemma GetModule_head_failed s namespace name provider version st err w1 :
  HeadObject (client s) (bucket s)
    (modulePath (bucketPrefix s) namespace name provider version (moduleArchiveFormat s))
    (world st) = (Some err, w1) ->
  GetModule s namespace name provider version st
  = Done (core.Mod.zero,
          Some (if bool_decide (errors_As_ResponseError err = Some StatusNotFound)
                then sentinelError ErrModuleNotFound else err))
      (after_call st
         (HeadObjectCall (bucket s)
            (modulePath (bucketPrefix s) namespace name provider version
               (moduleArchiveFormat s))) w1).
Proof.
  intros Hhead. unfold GetModule.
  unfold mbind at 1. unfold Go_bind. rewrite objectExists_run, Hhead.
  case_bool_decide; reflexivity.
Qed.

(** GetModule when HeadObject succeeds: all depends on the presign call. *)
Lemma GetModule_head_ok s namespace name provider version st w1 res perr w2 :
  let key :=
    modulePath (bucketPrefix s) namespace name provider version (moduleArchiveFormat s) in
  HeadObject (client s) (bucket s) key (world st) = (None, w1) ->
  PresignGetObject (presignClient s) (bucket s) key (signedURLExpiry s) w1
  = ((res, perr), w2) ->
  GetModule s namespace name provider version st
  = let st2 :=
      after_call (after_call st (HeadObjectCall (bucket s) key) w1)
        (PresignGetObjectCall (bucket s) key) w2 in
    match res with
    | None => Panic st2
    | Some r =>
        match perr with
        | Some e => Done (core.Mod.zero, Some e) st2
        | None =>
            Done (core.Mod.Build namespace name provider version (URL r), None) st2
        end
    end.
Proof.
  intros key Hhead Hpresign. unfold GetModule. fold key.
  unfold mbind at 1. unfold Go_bind. rewrite objectExists_run, Hhead. cbn.
  unfold mbind at 1. unfold Go_bind. rewrite presignedURL_run. cbn.
  rewrite Hpresign. destruct res as [r|]; [|reflexivity].
  destruct perr; reflexivity.
Qed.

(** The calls of a run of GetModule come after those made before it. *)
Lemma GetModule_calls s namespace name provider version st :
  calls st `prefix_of` calls (final (GetModule s namespace name provider version st)).
Proof.
  destruct (HeadObject (client s) (bucket s)
              (modulePath (bucketPrefix s) namespace name provider version
                 (moduleArchiveFormat s)) (world st)) as [[err|] w1] eqn:Hhead.
  - rewrite (GetModule_head_failed _ _ _ _ _ _ _ _ Hhead). cbn.
    by apply prefix_app_r.
  - destruct (PresignGetObject (presignClient s) (bucket s)
                (modulePath (bucketPrefix s) namespace name provider version
                   (moduleArchiveFormat s)) (signedURLExpiry s) w1)
      as [[res perr] w2] eqn:Hpresign.
    rewrite (GetModule_head_ok _ _ _ _ _ _ _ _ _ _ Hhead Hpresign).
    assert (Hpre : forall c1 c2 : Call, calls st `prefix_of` (calls st ++ [c1]) ++ [c2]).
    { intros c1 c2. by do 2 apply prefix_app_r. }
    destruct res as [r|]; [destruct perr|]; cbn; apply Hpre.
Qed.

(** Keys that the reverse parser rejects leave no trace in the loop over a
    page of ListModuleVersions. *)
Lemma ListModuleVersions_contents_skip s skipped rest modules :
  Forall (fun key => is_module_key (moduleArchiveFormat s) key = false) skipped ->
  ListModuleVersions_contents s (skipped ++ rest) modules
  = ListModuleVersions_contents s rest modules.
Proof.
  induction 1 as [|key skipped Hkey _ IH]; [reflexivity|].
  cbn. unfold is_module_key in Hkey.
  destruct (moduleFromObject key (moduleArchiveFormat s)); [discriminate|exact IH].
Qed.

(** C9: the presign helper reads the URL of the result before it looks at
    the error, so a nil result is a panic whatever the error is, and an error
    reaches the caller only next to a non-nil result; GetModule,
    ListModuleVersions (at the first key it presigns, and at any key its
    loop has reached) and GetProvider (at each of its three presign calls)
    panic when the presign call returns a nil result with an error. *)
Theorem presign_nil_result_panics s :
  (forall key st perr w',
      PresignGetObject (presignClient s) (bucket s) key (signedURLExpiry s) (world st)
      = ((None, perr), w') ->
      presignedURL s key st
      = Panic (after_call st (PresignGetObjectCall (bucket s) key) w'))
  /\ (forall key st url e st',
        presignedURL s key st = Done (url, Some e) st' ->
        exists r w',
          PresignGetObject (presignClient s) (bucket s) key (signedURLExpiry s) (world st)
          = ((Some r, Some e), w')
          /\ URL r = url)
  /\ (forall namespace name provider version st w1 e w2,
        let key :=
          modulePath (bucketPrefix s) namespace name provider version
            (moduleArchiveFormat s) in
        HeadObject (client s) (bucket s) key (world st) = (None, w1) ->
        PresignGetObject (presignClient s) (bucket s) key (signedURLExpiry s) w1
        = ((None, Some e), w2) ->
        exists st', GetModule s namespace name provider version st = Panic st')
  /\ (forall namespace name provider st skipped key rest more m e w',
        let prefix := modulePathPrefix (bucketPrefix s) namespace name provider in
        ListObjectsV2 (client s) (bucket s) prefix (world st)
        = inl (skipped ++ key :: rest) :: more ->
        Forall (fun k => is_module_key (moduleArchiveFormat s) k = false) skipped ->
        moduleFromObject key (moduleArchiveFormat s) = Ok m ->
        PresignGetObject (presignClient s) (bucket s)
          (modulePath (bucketPrefix s) (core.Mod.Namespace m) (core.Mod.Name m)
             (core.Mod.Provider m) (core.Mod.Version m) (moduleArchiveFormat s))
          (signedURLExpiry s) (world st)
        = ((None, Some e), w') ->
        exists st', ListModuleVersions s namespace name provider st = Panic st')
  /\ (forall key rest modules st m e w',
        moduleFromObject key (moduleArchiveFormat s) = Ok m ->
        PresignGetObject (presignClient s) (bucket s)
          (modulePath (bucketPrefix s) (core.Mod.Namespace m) (core.Mod.Name m)
             (core.Mod.Provider m) (core.Mod.Version m) (moduleArchiveFormat s))
          (signedURLExpiry s) (world st)
        = ((None, Some e), w') ->
        exists st', ListModuleVersions_contents s (key :: rest) modules st = Panic st')
  /\ (forall namespace name version os arch st archivePath shasumPath shasumSigPath,
        internalProviderPath (bucketPrefix s) namespace name version os arch
        = Ok (archivePath, shasumPath, shasumSigPath) ->
        (forall e w1,
            PresignGetObject (presignClient s) (bucket s) archivePath (signedURLExpiry s)
              (world st)
            = ((None, Some e), w1) ->
            exists st', GetProvider s namespace name version os arch st = Panic st')
        /\ (forall r1 w1 e w2,
              PresignGetObject (presignClient s) (bucket s) archivePath
                (signedURLExpiry s) (world st)
              = ((Some r1, None), w1) ->
              PresignGetObject (presignClient s) (bucket s) shasumPath
                (signedURLExpiry s) w1
              = ((None, Some e), w2) ->
              exists st', GetProvider s namespace name version os arch st = Panic st')
        /\ (forall r1 w1 r2 w2 e w3,
              PresignGetObject (presignClient s) (bucket s) archivePath
                (signedURLExpiry s) (world st)
              = ((Some r1, None), w1) ->
              PresignGetObject (presignClient s) (bucket s) shasumPath
                (signedURLExpiry s) w1
              = ((Some r2, None), w2) ->
              PresignGetObject (presignClient s) (bucket s) shasumSigPath
                (signedURLExpiry s) w2
              = ((None, Some e), w3) ->
              exists st', GetProvider s namespace name version os arch st = Panic st')).
Proof.
  split; [|split; [|split; [|split; [|split]]]].
  - intros key st perr w' Hp. rewrite presignedURL_run, Hp. reflexivity.
  - intros key st url e st' Hrun. rewrite presignedURL_run in Hrun.
    destruct (PresignGetObject _ _ _ _ _) as [[[r|] err] w']; [|discriminate].
    injection Hrun as <- -> _. exists r, w'. split; reflexivity.
  - intros namespace name provider version st w1 e w2 key Hhead Hp.
    rewrite (GetModule_head_ok _ _ _ _ _ _ _ _ _ _ Hhead Hp). eauto.
  - intros namespace name provider st skipped key rest more m e w' prefix
      Hlist Hskipped Hm Hp.
    unfold ListModuleVersions. fold prefix. rewrite Hlist. cbn.
    unfold mbind at 1. unfold Go_bind. cbn.
    unfold mbind at 1. unfold Go_bind.
    rewrite (ListModuleVersions_contents_skip _ _ _ _ Hskipped). cbn. rewrite Hm.
    unfold mbind at 1. unfold Go_bind. rewrite presignedURL_run. cbn.
    rewrite Hp. eauto.
  - intros key rest modules st m e w' Hm Hp. cbn. rewrite Hm.
    unfold mbind at 1. unfold Go_bind. rewrite presignedURL_run, Hp. eauto.
  - intros namespace name version os arch st archivePath shasumPath shasumSigPath Hpath.
    split; [|split].
    + intros e w1 Hp1. unfold GetProvider. rewrite Hpath.
      unfold mbind at 1. unfold Go_bind. rewrite presignedURL_run, Hp1. eauto.
    + intros r1 w1 e w2 Hp1 Hp2. unfold GetProvider. rewrite Hpath.
      unfold mbind at 1. unfold Go_bind. rewrite presignedURL_run, Hp1.
      unfold mbind at 1. unfold Go_bind. rewrite presignedURL_run. cbn.
      rewrite Hp2. eauto.
    + intros r1 w1 r2 w2 e w3 Hp1 Hp2 Hp3. unfold GetProvider. rewrite Hpath.
      unfold mbind at 1. unfold Go_bind. rewrite presignedURL_run, Hp1.
      unfold mbind at 1. unfold Go_bind. rewrite presignedURL_run. cbn.
      rewrite Hp2.
      unfold mbind at 1. unfold Go_bind. rewrite presignedURL_run. cbn.
      rewrite Hp3. eauto.
Qed.

(** C10: once the four coordinates are validated, an error of the
    pre-existence GetModule call, whatever its kind, is dropped: UploadModule
    goes on as it does when the module is absent, by uploading to the key of
    the default archive format from the state that call left, and what it
    returns is decided by that upload and the GetModule after it. *)
Theorem UploadModule_drops_check_error s namespace name provider version body st m e st1 :
  namespace <> "" -> name <> "" -> provider <> "" -> version <> "" ->
  GetModule s namespace name provider version st = Done (m, Some e) st1 ->
  let key :=
    modulePath (bucketPrefix s) namespace name provider version
      DefaultModuleArchiveFormat in
  let '(uerr, w2) := Upload (uploader s) (bucket s) key body (world st1) in
  let st2 := after_call st1 (UploadCall (bucket s) key body) w2 in
  UploadModule s namespace name provider version body st
  = match uerr with
    | Some err =>
        Done (core.Mod.zero,
              Some (errors_Wrapf (sentinelError ErrModuleUploadFailed) (Error err) []))
          st2
    | None => GetModule s namespace name provider version st2
    end
  /\ (calls st1 ++ [UploadCall (bucket s) key body])
       `prefix_of`
       calls (final (UploadModule s namespace name provider version body st)).
Proof.
  intros Hns Hname Hprov Hver Hcheck key.
  destruct (Upload (uploader s) (bucket s) key body (world st1)) as [uerr w2] eqn:Hup.
  assert (Hrun :
    UploadModule s namespace name provider version body st
    = match uerr with
      | Some err =>
          Done (core.Mod.zero,
                Some (errors_Wrapf (sentinelError ErrModuleUploadFailed) (Error err) []))
            (after_call st1 (UploadCall (bucket s) key body) w2)
      | None =>
          GetModule s namespace name provider version
            (after_call st1 (UploadCall (bucket s) key body) w2)
      end).
  { unfold UploadModule. repeat (case_decide; [congruence|]).
    fold key. unfold mbind at 1. unfold Go_bind. rewrite Hcheck. cbn.
    unfold mbind at 1. unfold Go_bind. unfold backend at 1. rewrite Hup.
    destruct uerr; reflexivity. }
  split; [exact Hrun|]. rewrite Hrun.
  destruct uerr as [err|]; cbn.
  - reflexivity.
  - etrans; [|apply GetModule_calls]. reflexivity.
Qed.

(** X15: when the pre-existence check finds the module (HeadObject succeeds
    on the key GetModule reads, built with the configured archive format, and
    the presign call for it succeeds), UploadModule fails with
    ErrModuleAlreadyExists wrapped with the upload key, after these two calls
    and no other: nothing is uploaded. *)
Theorem UploadModule_found_is_rejected s namespace name provider version body st w1 r w2 :
  namespace <> "" -> name <> "" -> provider <> "" -> version <> "" ->
  let key :=
    modulePath (bucketPrefix s) namespace name provider version (moduleArchiveFormat s) in
  HeadObject (client s) (bucket s) key (world st) = (None, w1) ->
  PresignGetObject (presignClient s) (bucket s) key (signedURLExpiry s) w1
  = ((Some r, None), w2) ->
  exists err st',
    UploadModule s namespace name provider version body st
    = Done (core.Mod.zero, Some err) st'
    /\ err = errors_Wrap (sentinelError ErrModuleAlreadyExists)
               (modulePath (bucketPrefix s) namespace name provider version
                  DefaultModuleArchiveFormat)
    /\ errors_Is err ErrModuleAlreadyExists = true
    /\ world st' = w2
    /\ calls st'
       = calls st ++ [HeadObjectCall (bucket s) key; PresignGetObjectCall (bucket s) key]
    /\ List.filter is_upload (calls st') = List.filter is_upload (calls st).
Proof.
  intros Hns Hname Hprov Hver key Hhead Hpresign.
  eexists _, _. split.
  - unfold UploadModule. repeat (case_decide; [congruence|]).
    unfold mbind at 1. unfold Go_bind.
    rewrite (GetModule_head_ok _ _ _ _ _ _ _ _ _ _ Hhead Hpresign). reflexivity.
  - split; [reflexivity|]. split; [reflexivity|]. split; [reflexivity|].
    cbn. rewrite <- app_assoc. split; [reflexivity|].
    rewrite List.filter_app. cbn. apply app_nil_r.
Qed.

Lemma ListProviderVersions_pages_ok s prefix pages collection st :
  forallb page_ok pages = true ->
  ListProviderVersions_pages s prefix pages collection st
  = Done
      (Ok (fold_left (fun c p => ListProviderVersions_contents (page_keys p) c)
             pages collection))
      (mkState (world st)
         (calls st ++ replicate (length pages) (NextPageCall (bucket s) prefix))
         (logged st)).
Proof.
  revert collection st. induction pages as [|resp more IH]; intros collection st Hok.
  - cbn. rewrite app_nil_r. destruct st; reflexivity.
  - cbn in Hok. apply andb_true_iff in Hok as [Hresp Hmore].
    destruct resp as [contents|err]; [|discriminate].
    cbn. unfold mbind at 1. unfold Go_bind. cbn. rewrite (IH _ _ Hmore). cbn.
    rewrite <- app_assoc. reflexivity.
Qed.

(** C4, as the code has it: the NotFound of GetModule and the AlreadyExists
    of UploadModule and UploadProviderReleaseFiles are package-level error
    values that [errors.Is] recognises; the error of ListProviderVersions for
    an empty result is a formatted message with no such value in it, and
    SigningKeys for an object that cannot be downloaded returns the error of
    the backend under two messages, so it is recognised by what the backend
    error is and by nothing else. *)
Theorem typed_and_untyped_outcomes s :
  (forall namespace name provider version st err w1,
      HeadObject (client s) (bucket s)
        (modulePath (bucketPrefix s) namespace name provider version
           (moduleArchiveFormat s)) (world st) = (Some err, w1) ->
      errors_As_ResponseError err = Some StatusNotFound ->
      exists st',
        GetModule s namespace name provider version st
        = Done (core.Mod.zero, Some (sentinelError ErrModuleNotFound)) st')
  /\ (forall namespace name provider version body st m st1,
        namespace <> "" -> name <> "" -> provider <> "" -> version <> "" ->
        GetModule s namespace name provider version st = Done (m, None) st1 ->
        exists err,
          UploadModule s namespace name provider version body st
          = Done (core.Mod.zero, Some err) st1
          /\ errors_Is err ErrModuleAlreadyExists = true)
  /\ (forall namespace name filename file st prefix w1,
        namespace <> "" -> name <> "" -> filename <> "" ->
        providerStoragePrefix (bucketPrefix s) internalProviderType "" namespace name
        = Ok prefix ->
        HeadObject (client s) (bucket s) (filepath_Join [prefix; filename]) (world st)
        = (None, w1) ->
        exists st',
          UploadProviderReleaseFiles s namespace name filename file st
          = Done (Some (sentinelError ErrProviderAlreadyExists)) st')
  /\ (forall namespace name st prefix,
        providerStoragePrefix (bucketPrefix s) internalProviderType "" namespace name
        = Ok prefix ->
        let pages :=
          ListObjectsV2 (client s) (bucket s) (fmt_Sprintf "%s/" [prefix]) (world st) in
        forallb page_ok pages = true ->
        Collection_List (collected pages) = [] ->
        exists err st',
          ListProviderVersions s namespace name st = Done ([], Some err) st'
          /\ err = errorString
                     (fmt_Sprintf "no provider versions found for %s/%s" [namespace; name])
          /\ untyped err
          /\ errors_As_ResponseError err = None)
  /\ (forall namespace st buf derr w1,
        namespace <> "" ->
        Download (downloader s) (bucket s) (signingKeysPath (bucketPrefix s) namespace)
          (world st) = ((buf, Some derr), w1) ->
        exists err st',
          SigningKeys s namespace st = Done (None, Some err) st'
          /\ errors_As_ResponseError err = errors_As_ResponseError derr
          /\ forall v, errors_Is err v = errors_Is derr v).
Proof.
  split; [|split; [|split; [|split]]].
  - intros namespace name provider version st err w1 Hhead Hnf.
    rewrite (GetModule_head_failed _ _ _ _ _ _ _ _ Hhead).
    rewrite bool_decide_eq_true_2 by exact Hnf. eauto.
  - intros namespace name provider version body st m st1 Hns Hname Hprov Hver Hget.
    eexists. split.
    + unfold UploadModule. repeat (case_decide; [congruence|]).
      unfold mbind at 1. unfold Go_bind. rewrite Hget. reflexivity.
    + reflexivity.
  - intros namespace name filename file st prefix w1 Hns Hname Hfile Hprefix Hhead.
    unfold UploadProviderReleaseFiles. repeat (case_decide; [congruence|]).
    rewrite Hprefix. unfold mbind at 1. unfold Go_bind.
    rewrite objectExists_run, Hhead. cbn. eauto.
  - intros namespace name st prefix Hprefix pages Hok Hempty.
    eexists _, _. split.
    + unfold ListProviderVersions. rewrite Hprefix.
      unfold mbind at 1. unfold Go_bind. fold pages.
      rewrite (ListProviderVersions_pages_ok _ _ _ _ _ Hok).
      fold (collected pages). rewrite Hempty. reflexivity.
    + split; [reflexivity|]. split; [intros v; reflexivity | reflexivity].
  - intros namespace st buf derr w1 Hns Hdown.
    eexists _, _. split.
    + unfold SigningKeys. case_decide; [congruence|].
      unfold mbind at 1. unfold Go_bind. unfold download.
      unfold mbind at 1. unfold Go_bind. unfold backend at 1. rewrite Hdown.
      reflexivity.
    + split; [reflexivity | intros v; reflexivity].
Qed.

Lemma ListModuleVersions_pages_none s prefix pages modules st :
  Forall (page_without (is_module_key (moduleArchiveFormat s))) pages ->
  ListModuleVersions_pages s prefix pages modules st
  = Done (modules, None)
      (mkState (world st)
         (calls st ++ replicate (length pages) (NextPageCall (bucket s) prefix))
         (logged st)).
Proof.
  intros Hpages. revert st.
  induction Hpages as [|resp more Hresp _ IH]; intros st.
  - cbn. rewrite app_nil_r. destruct st; reflexivity.
  - destruct resp as [contents|err]; [|destruct Hresp].
    cbn. unfold mbind at 1. unfold Go_bind. cbn.
    unfold mbind at 1. unfold Go_bind.
    rewrite <- (app_nil_r contents).
    rewrite (ListModuleVersions_contents_skip _ _ _ _ Hresp). cbn.
    rewrite IH. cbn. rewrite <- app_assoc. reflexivity.
Qed.

Lemma ListProviderVersions_contents_none contents collection :
  Forall (fun key => is_provider_key key = false) contents ->
  ListProviderVersions_contents contents collection = collection.
Proof.
  induction 1 as [|key contents Hkey _ IH]; [reflexivity|].
  cbn. unfold is_provider_key in Hkey.
  destruct (NewProviderFromArchive key); [discriminate | exact IH].
Qed.

Lemma collected_none pages collection :
  Forall (page_without is_provider_key) pages ->
  fold_left (fun c p => ListProviderVersions_contents (page_keys p) c) pages collection
  = collection.
Proof.
  induction 1 as [|resp more Hresp _ IH]; [reflexivity|].
  cbn. destruct resp as [contents|err]; [|destruct Hresp].
  cbn. rewrite (ListProviderVersions_contents_none _ _ Hresp). exact IH.
Qed.

Lemma page_without_ok accepted pages :
  Forall (page_without accepted) pages -> forallb page_ok pages = true.
Proof.
  induction 1 as [|resp more Hresp _ IH]; [reflexivity|].
  destruct resp; [exact IH | destruct Hresp].
Qed.

(** C5: when the listing brings no key that the reverse parser accepts (no
    key at all, in particular), ListModuleVersions returns an empty list
    and no error, and ListProviderVersions returns the error that no
    provider versions were found; ListProviderVersions never returns an
    empty list without an error. *)
Theorem empty_listing_asymmetry s :
  (forall namespace name provider st,
      Forall (page_without (is_module_key (moduleArchiveFormat s)))
        (ListObjectsV2 (client s) (bucket s)
           (modulePathPrefix (bucketPrefix s) namespace name provider) (world st)) ->
      exists st', ListModuleVersions s namespace name provider st = Done ([], None) st')
  /\ (forall namespace name st prefix,
        Collection_List NewCollection = [] ->
        providerStoragePrefix (bucketPrefix s) internalProviderType "" namespace name
        = Ok prefix ->
        Forall (page_without is_provider_key)
          (ListObjectsV2 (client s) (bucket s) (fmt_Sprintf "%s/" [prefix]) (world st)) ->
        exists st',
          ListProviderVersions s namespace name st
          = Done ([],
                  Some (fmt_Errorf "no provider versions found for %s/%s"
                          [namespace; name])) st')
  /\ (forall namespace name st versions st',
        ListProviderVersions s namespace name st = Done (versions, None) st' ->
        versions <> []).
Proof.
  split; [|split].
  - intros namespace name provider st Hpages.
    unfold ListModuleVersions.
    rewrite (ListModuleVersions_pages_none _ _ _ _ _ Hpages). eauto.
  - intros namespace name st prefix Hnew Hprefix Hpages.
    unfold ListProviderVersions. rewrite Hprefix.
    unfold mbind at 1. unfold Go_bind.
    rewrite (ListProviderVersions_pages_ok _ _ _ _ _ (page_without_ok _ _ Hpages)).
    rewrite (collected_none _ _ Hpages), Hnew. cbn. eauto.
  - intros namespace name st versions st' Hrun.
    unfold ListProviderVersions in Hrun.
    destruct (providerStoragePrefix _ _ _ _ _) as [prefix|e]; [|discriminate].
    unfold mbind at 1 in Hrun. unfold Go_bind in Hrun.
    destruct (ListProviderVersions_pages _ _ _ _ _) as [[collection|e] st1|st1];
      [|discriminate..].
    destruct (Collection_List collection) as [|pv pvs]; [discriminate|].
    cbn in Hrun. injection Hrun as <- _. discriminate.
Qed.

Lemma ListModuleVersions_contents_skip_one s before key rest modules st :
  is_module_key (moduleArchiveFormat s) key = false ->
  ListModuleVersions_contents s (before ++ key :: rest) modules st
  = ListModuleVersions_contents s (before ++ rest) modules st.
Proof.
  intros Hkey. revert modules st.
  induction before as [|k before IH]; intros modules st.
  - exact (f_equal (fun f => f st)
             (ListModuleVersions_contents_skip s [key] rest modules
                (Forall_cons_2 _ _ _ Hkey (Forall_nil_2 _)))).
  - cbn. destruct (moduleFromObject k (moduleArchiveFormat s)) as [m|e]; [|apply IH].
    unfold mbind, Go_bind.
    destruct (presignedURL s _ st) as [[url [e|]] st1|st1]; [reflexivity| |reflexivity].
    apply IH.
Qed.

Lemma ListModuleVersions_pages_skip_one s prefix fetched before key rest more modules st :
  is_module_key (moduleArchiveFormat s) key = false ->
  ListModuleVersions_pages s prefix
    (fetched ++ inl (before ++ key :: rest) :: more) modules st
  = ListModuleVersions_pages s prefix
      (fetched ++ inl (before ++ rest) :: more) modules st.
Proof.
  intros Hkey. revert modules st.
  induction fetched as [|resp fetched IH]; intros modules st; cbn.
  - unfold mbind, Go_bind. cbn.
    rewrite (ListModuleVersions_contents_skip_one _ _ _ _ _ _ Hkey). reflexivity.
  - unfold mbind, Go_bind. cbn.
    destruct resp as [contents|err]; [|reflexivity].
    destruct (ListModuleVersions_contents s contents modules _) as [[r|modules'] st1|st1];
      [reflexivity| |reflexivity].
    apply IH.
Qed.

Lemma ListProviderVersions_contents_skip_one before key rest collection :
  is_provider_key key = false ->
  ListProviderVersions_contents (before ++ key :: rest) collection
  = ListProviderVersions_contents (before ++ rest) collection.
Proof.
  intros Hkey. revert collection.
  induction before as [|k before IH]; intros collection; cbn.
  - unfold is_provider_key in Hkey.
    destruct (NewProviderFromArchive key); [discriminate | reflexivity].
  - destruct (NewProviderFromArchive k); apply IH.
Qed.

Lemma ListProviderVersions_pages_skip_one s prefix fetched before key rest more
    collection st :
  is_provider_key key = false ->
  ListProviderVersions_pages s prefix
    (fetched ++ inl (before ++ key :: rest) :: more) collection st
  = ListProviderVersions_pages s prefix
      (fetched ++ inl (before ++ rest) :: more) collection st.
Proof.
  intros Hkey. revert collection st.
  induction fetched as [|resp fetched IH]; intros collection st; cbn.
  - unfold mbind, Go_bind. cbn.
    rewrite (ListProviderVersions_contents_skip_one _ _ _ _ Hkey). reflexivity.
  - unfold mbind, Go_bind. cbn.
    destruct resp as [contents|err]; [apply IH | reflexivity].
Qed.

(** The loop over a page of ListModuleVersions leaves the function only
    with an error and no module. *)
Lemma ListModuleVersions_contents_return s contents modules st r st' :
  ListModuleVersions_contents s contents modules st = Done (Return r) st' ->
  r.1 = [] /\ r.2 <> None.
Proof.
  revert modules st. induction contents as [|key rest IH]; intros modules st; cbn.
  - discriminate.
  - destruct (moduleFromObject key (moduleArchiveFormat s)) as [m|e]; [|apply IH].
    unfold mbind, Go_bind.
    destruct (presignedURL s _ st) as [[url [e|]] st1|st1]; [|apply IH|discriminate].
    cbn. intros [= <- _]. split; [reflexivity | discriminate].
Qed.

Lemma ListModuleVersions_pages_failed s prefix fetched err more modules st :
  match
    ListModuleVersions_pages s prefix (fetched ++ inr err :: more) modules st
  with
  | Done r _ => r.1 = [] /\ r.2 <> None
  | Panic _ => True
  end.
Proof.
  revert modules st. induction fetched as [|resp fetched IH]; intros modules st; cbn.
  - unfold mbind, Go_bind. cbn. split; [reflexivity | discriminate].
  - unfold mbind at 1. unfold Go_bind. cbn.
    destruct resp as [contents|err']; [|cbn; split; [reflexivity | discriminate]].
    unfold mbind at 1. unfold Go_bind.
    destruct (ListModuleVersions_contents s contents modules _)
      as [[r|modules'] st1|st1] eqn:Hcontents; [|apply IH|exact I].
    cbn. exact (ListModuleVersions_contents_return _ _ _ _ _ _ Hcontents).
Qed.

Lemma ListModuleVersions_pages_failed_first s prefix fetched err more modules st :
  Forall (page_without (is_module_key (moduleArchiveFormat s))) fetched ->
  ListModuleVersions_pages s prefix (fetched ++ inr err :: more) modules st
  = Done ([], Some (errors_Wrap (sentinelError ErrModuleListFailed) (Error err)))
      (mkState (world st)
         (calls st ++ replicate (S (length fetched)) (NextPageCall (bucket s) prefix))
         (logged st)).
Proof.
  intros Hfetched. revert st.
  induction Hfetched as [|resp fetched Hresp _ IH]; intros st; [reflexivity|].
  destruct resp as [contents|err']; [|destruct Hresp].
  cbn. unfold mbind at 1. unfold Go_bind. cbn.
  unfold mbind at 1. unfold Go_bind.
  rewrite <- (app_nil_r contents).
  rewrite (ListModuleVersions_contents_skip _ _ _ _ Hresp). cbn.
  rewrite IH. cbn. rewrite <- app_assoc. reflexivity.
Qed.

Lemma ListProviderVersions_pages_failed s prefix fetched err more collection st :
  forallb page_ok fetched = true ->
  ListProviderVersions_pages s prefix (fetched ++ inr err :: more) collection st
  = Done (Err (errors_Wrap (sentinelError ErrProviderListFailed) (Error err)))
      (mkState (world st)
         (calls st ++ replicate (S (length fetched)) (NextPageCall (bucket s) prefix))
         (logged st)).
Proof.
  revert collection st.
  induction fetched as [|resp fetched IH]; intros collection st Hok; [reflexivity|].
  cbn in Hok. apply andb_true_iff in Hok as [Hresp Hfetched].
  destruct resp as [contents|err']; [|discriminate].
  cbn. unfold mbind at 1. unfold Go_bind. cbn.
  rewrite (IH _ _ Hfetched). cbn. rewrite <- app_assoc. reflexivity.
Qed.

(** C6: in both listings a key that the reverse parser rejects changes
    nothing, the loops run as if the key were not listed; a page that cannot
    be fetched ends the call with an error and an empty list, whatever was
    collected from the pages before it. *)
Theorem listing_skips_keys_and_aborts_on_page_failure s :
  (forall prefix fetched before key rest more modules st,
      is_module_key (moduleArchiveFormat s) key = false ->
      ListModuleVersions_pages s prefix
        (fetched ++ inl (before ++ key :: rest) :: more) modules st
      = ListModuleVersions_pages s prefix
          (fetched ++ inl (before ++ rest) :: more) modules st)
  /\ (forall prefix fetched before key rest more collection st,
        is_provider_key key = false ->
        ListProviderVersions_pages s prefix
          (fetched ++ inl (before ++ key :: rest) :: more) collection st
        = ListProviderVersions_pages s prefix
            (fetched ++ inl (before ++ rest) :: more) collection st)
  /\ (forall namespace name provider st fetched err more,
        ListObjectsV2 (client s) (bucket s)
          (modulePathPrefix (bucketPrefix s) namespace name provider) (world st)
        = fetched ++ inr err :: more ->
        match ListModuleVersions s namespace name provider st with
        | Done (modules, e) _ => modules = [] /\ e <> None
        | Panic _ => True
        end
        /\ (Forall (page_without (is_module_key (moduleArchiveFormat s))) fetched ->
            exists st',
              ListModuleVersions s namespace name provider st
              = Done ([], Some (errors_Wrap (sentinelError ErrModuleListFailed)
                                  (Error err))) st'))
  /\ (forall namespace name st prefix fetched err more,
        providerStoragePrefix (bucketPrefix s) internalProviderType "" namespace name
        = Ok prefix ->
        ListObjectsV2 (client s) (bucket s) (fmt_Sprintf "%s/" [prefix]) (world st)
        = fetched ++ inr err :: more ->
        forallb page_ok fetched = true ->
        exists st',
          ListProviderVersions s namespace name st
          = Done ([], Some (errors_Wrap (sentinelError ErrProviderListFailed)
                              (Error err))) st').
Proof.
  split; [|split; [|split]].
  - intros. by apply ListModuleVersions_pages_skip_one.
  - intros. by apply ListProviderVersions_pages_skip_one.
  - intros namespace name provider st fetched err more Hlist. split.
    + unfold ListModuleVersions. rewrite Hlist.
      pose proof (ListModuleVersions_pages_failed s
                    (modulePathPrefix (bucketPrefix s) namespace name provider)
                    fetched err more [] st) as Hfailed.
      destruct (ListModuleVersions_pages _ _ _ _ _) as [[modules e] st1|st1];
        [exact Hfailed | exact I].
    + intros Hfetched. unfold ListModuleVersions. rewrite Hlist.
      rewrite (ListModuleVersions_pages_failed_first _ _ _ _ _ _ _ Hfetched). eauto.
  - intros namespace name st prefix fetched err more Hprefix Hlist Hok.
    unfold ListProviderVersions. rewrite Hprefix.
    unfold mbind at 1. unfold Go_bind. rewrite Hlist.
    rewrite (ListProviderVersions_pages_failed _ _ _ _ _ _ _ Hok). cbn. eauto.
Qed.

Lemma copies_of_next_pages (bkt prefix : string) (n : nat) (cs : list Call) :
  List.filter is_copy (cs ++ replicate n (NextPageCall bkt prefix))
  = List.filter is_copy cs.
Proof.
  rewrite List.filter_app.
  induction n as [|n IH]; cbn; [apply app_nil_r | exact IH].
Qed.

Lemma MigrateModules_contents_dry s contents st :
  MigrateModules_contents s true contents st
  = Done (Next tt)
      (mkState (world st) (calls st)
         (logged st ++ map (module_dry_run_line s) contents)).
Proof.
  revert st. induction contents as [|key rest IH]; intros st; cbn.
  - rewrite app_nil_r. destruct st; reflexivity.
  - unfold module_dry_run_line at 1.
    destruct (isUnmigratedModule (bucketPrefix s) key); cbn;
      unfold mbind, Go_bind; cbn; rewrite IH; cbn;
      rewrite <- app_assoc; reflexivity.
Qed.

Arguments fetched_keys : simpl never.

Lemma fetched_keys_cons (contents : list string) (more : list page) :
  fetched_keys (inl contents :: more) = contents ++ fetched_keys more.
Proof. reflexivity. Qed.

Lemma fetched_all (pages : list page) :
  forallb page_ok pages = true <->
  first_page_error pages = None.
Proof.
  induction pages as [|[contents|err] more IH]; cbn; [done|exact IH|].
  split; discriminate.
Qed.

Lemma fetched_keys_all (pages : list page) :
  first_page_error pages = None -> fetched_keys pages = listed_keys pages.
Proof.
  induction pages as [|[contents|err] more IH]; cbn; [done| |discriminate].
  intros Hmore. rewrite fetched_keys_cons, (IH Hmore). reflexivity.
Qed.

Lemma first_rejected_app (accepted : string -> bool) (keys1 keys2 : list string) :
  first_rejected accepted (keys1 ++ keys2)
  = match first_rejected accepted keys1 with
    | Some key => Some key
    | None => first_rejected accepted keys2
    end.
Proof.
  unfold first_rejected. induction keys1 as [|key rest IH]; cbn; [reflexivity|].
  destruct (accepted key); cbn; [exact IH | reflexivity].
Qed.

Lemma keys_before_app (accepted : string -> bool) (keys1 keys2 : list string) :
  keys_before accepted (keys1 ++ keys2)
  = match first_rejected accepted keys1 with
    | Some _ => keys_before accepted keys1
    | None => keys1 ++ keys_before accepted keys2
    end.
Proof.
  unfold first_rejected. induction keys1 as [|key rest IH]; cbn; [reflexivity|].
  destruct (accepted key); cbn; [|reflexivity].
  rewrite IH. by destruct (List.find _ rest).
Qed.

Lemma keys_before_all (accepted : string -> bool) (keys : list string) :
  first_rejected accepted keys = None -> keys_before accepted keys = keys.
Proof.
  unfold first_rejected. induction keys as [|key rest IH]; cbn; [reflexivity|].
  destruct (accepted key); cbn; [|discriminate]. intros Hrest. by rewrite (IH Hrest).
Qed.

Lemma first_rejected_none s (keys : list string) :
  Forall (fun key => is_Some (provider_target s key)) keys ->
  first_rejected (has_target s) keys = None.
Proof.
  unfold first_rejected. induction 1 as [|key rest Hkey _ IH]; cbn; [reflexivity|].
  unfold has_target. unfold provider_target in Hkey.
  destruct (providerMigrationTargetPath (bucketPrefix s) key); cbn; [exact IH|].
  by destruct Hkey.
Qed.

Lemma MigrateModules_pages_dry s prefix pages st :
  exists n,
    MigrateModules_pages s true prefix pages st
    = Done (page_error <$> first_page_error pages)
        (mkState (world st)
           (calls st ++ replicate n (NextPageCall (bucket s) prefix))
           (logged st ++ map (module_dry_run_line s) (fetched_keys pages))).
Proof.
  revert st. induction pages as [|resp more IH]; intros st; cbn.
  - exists 0%nat. cbn. rewrite !app_nil_r. destruct st; reflexivity.
  - unfold mbind, Go_bind. cbn. destruct resp as [contents|e]; cbn.
    + rewrite MigrateModules_contents_dry. cbn.
      destruct (IH (mkState (world st)
                      (calls st ++ [NextPageCall (bucket s) prefix])
                      (logged st ++ map (module_dry_run_line s) contents)))
        as (n & Hrun).
      exists (S n). rewrite Hrun. cbn.
      rewrite fetched_keys_cons, map_app, <- !app_assoc. reflexivity.
    + exists 1%nat. unfold fetched_keys. cbn. rewrite app_nil_r. reflexivity.
Qed.

Lemma MigrateProviders_contents_dry s contents st :
  exists lines,
    map Some lines
    = map (provider_dry_run_line s) (keys_before (has_target s) contents)
    /\ MigrateProviders_contents s true contents st
       = Done (match first_rejected (has_target s) contents with
               | Some key => Return (target_error s key)
               | None => Next tt
               end)
           (mkState (world st) (calls st) (logged st ++ lines)).
Proof.
  revert st. induction contents as [|key rest IH]; intros st; cbn.
  - exists []. rewrite app_nil_r. split; [reflexivity | by destruct st].
  - unfold first_rejected, has_target, target_error. cbn.
    destruct (providerMigrationTargetPath (bucketPrefix s) key) as [directory|e] eqn:Hdir;
      cbn.
    + unfold mbind, Go_bind. cbn.
      destruct (IH (mkState (world st) (calls st)
                      (logged st
                       ++ [["message"; "skipping due to dry-run"; "source"; key;
                            "target"; path_Join [directory; path_Base key]]])))
        as (lines & Hlines & Hrun).
      exists (["message"; "skipping due to dry-run"; "source"; key;
               "target"; path_Join [directory; path_Base key]] :: lines).
      split.
      * cbn. unfold provider_dry_run_line at 1, provider_target at 1.
        rewrite Hdir. cbn. by rewrite Hlines.
      * rewrite Hrun. cbn. by rewrite <- app_assoc.
    + exists []. rewrite Hdir, app_nil_r. split; [reflexivity | by destruct st].
Qed.

Lemma MigrateProviders_pages_dry s prefix pages st :
  exists n lines,
    map Some lines
    = map (provider_dry_run_line s) (keys_before (has_target s) (fetched_keys pages))
    /\ MigrateProviders_pages s true prefix pages st
       = Done (match first_rejected (has_target s) (fetched_keys pages) with
               | Some key => target_error s key
               | None => page_error <$> first_page_error pages
               end)
           (mkState (world st)
              (calls st ++ replicate n (NextPageCall (bucket s) prefix))
              (logged st ++ lines)).
Proof.
  revert st. induction pages as [|resp more IH]; intros st; cbn.
  - exists 0%nat, []. cbn. rewrite !app_nil_r. split; [reflexivity | by destruct st].
  - unfold mbind, Go_bind. cbn. destruct resp as [contents|e]; cbn.
    + destruct (MigrateProviders_contents_dry s contents
                  (mkState (world st)
                     (calls st ++ [NextPageCall (bucket s) prefix]) (logged st)))
        as (lines1 & Hlines1 & Hrun1).
      rewrite Hrun1, fetched_keys_cons, first_rejected_app, keys_before_app.
      destruct (first_rejected (has_target s) contents) as [key|] eqn:Hfirst; cbn.
      * exists 1%nat, lines1. split; [exact Hlines1 | reflexivity].
      * destruct (IH (mkState (world st)
                        (calls st ++ [NextPageCall (bucket s) prefix])
                        (logged st ++ lines1)))
          as (n & lines & Hlines & Hrun).
        exists (S n), (lines1 ++ lines). rewrite Hrun. cbn.
        rewrite <- !app_assoc. split; [|reflexivity].
        rewrite !map_app, Hlines. f_equal.
        rewrite Hlines1. by rewrite (keys_before_all _ _ Hfirst).
    + exists 1%nat, []. unfold fetched_keys. cbn. rewrite app_nil_r.
      split; reflexivity.
Qed.

(** C8: a dry run of either migration never panics, calls the backend for
    listing pages only, so it issues no copy and leaves the backend as it
    was, and logs one line, in listing order, for each listed key it gets to.
    MigrateModules gets to the keys of the pages before the first page that
    fails and returns the error of that page, if there is one: the dry-run
    line with source and target for a key to migrate, the line of a skipped
    key for the others.  MigrateProviders gets to the keys, among those,
    before the first one without a target path, and returns the error of
    that key's target path, or else the error of the page.  So a dry run has
    reported every listed key when it returns no error, which it does when
    every page is fetched (and, for providers, every key has a target), and
    it has not reported the keys after the one or the page it stopped at. *)
Theorem dry_run_copies_nothing_and_reports s st :
  (let prefix := path_Join [bucketPrefix s; internalModuleType] in
   let listing := ListObjectsV2 (client s) (bucket s) prefix (world st) in
   exists st',
     MigrateModules s true st = Done (page_error <$> first_page_error listing) st'
     /\ world st' = world st
     /\ (exists n, calls st' = calls st ++ replicate n (NextPageCall (bucket s) prefix))
     /\ List.filter is_copy (calls st') = List.filter is_copy (calls st)
     /\ logged st' = logged st ++ map (module_dry_run_line s) (fetched_keys listing)
     /\ (first_page_error listing = None ->
         logged st' = logged st ++ map (module_dry_run_line s) (listed_keys listing))
     /\ (forallb page_ok listing = true -> first_page_error listing = None))
  /\ (let prefix := path_Join [bucketPrefix s; internalProviderType] in
      let listing := ListObjectsV2 (client s) (bucket s) prefix (world st) in
      let err :=
        match first_rejected (has_target s) (fetched_keys listing) with
        | Some key => target_error s key
        | None => page_error <$> first_page_error listing
        end in
      exists st' lines,
        MigrateProviders s true st = Done err st'
        /\ world st' = world st
        /\ (exists n, calls st' = calls st ++ replicate n (NextPageCall (bucket s) prefix))
        /\ List.filter is_copy (calls st') = List.filter is_copy (calls st)
        /\ logged st' = logged st ++ lines
        /\ map Some lines
           = map (provider_dry_run_line s)
               (keys_before (has_target s) (fetched_keys listing))
        /\ (err = None ->
            map Some lines = map (provider_dry_run_line s) (listed_keys listing))
        /\ (forallb page_ok listing = true ->
            Forall (fun key => is_Some (provider_target s key)) (listed_keys listing) ->
            err = None)).
Proof.
  split.
  - cbv zeta. unfold MigrateModules.
    destruct (MigrateModules_pages_dry s
                (path_Join [bucketPrefix s; internalModuleType])
                (ListObjectsV2 (client s) (bucket s)
                   (path_Join [bucketPrefix s; internalModuleType]) (world st)) st)
      as (n & Hrun).
    eexists. split; [exact Hrun|]. cbn.
    split; [reflexivity|]. split; [by exists n|].
    split; [apply copies_of_next_pages|]. split; [reflexivity|].
    split; [|apply fetched_all].
    intros Hnone. by rewrite (fetched_keys_all _ Hnone).
  - cbv zeta. unfold MigrateProviders.
    destruct (MigrateProviders_pages_dry s
                (path_Join [bucketPrefix s; internalProviderType])
                (ListObjectsV2 (client s) (bucket s)
                   (path_Join [bucketPrefix s; internalProviderType]) (world st)) st)
      as (n & lines & Hlines & Hrun).
    set (listing := ListObjectsV2 (client s) (bucket s)
                      (path_Join [bucketPrefix s; internalProviderType]) (world st)) in *.
    eexists _, lines. split; [exact Hrun|]. cbn.
    split; [reflexivity|]. split; [by exists n|].
    split; [apply copies_of_next_pages|]. split; [reflexivity|].
    split; [exact Hlines|]. split.
    + intros Herr. rewrite Hlines.
      destruct (first_rejected (has_target s) (fetched_keys listing)) as [key|] eqn:Hfirst.
      * exfalso. unfold first_rejected in Hfirst.
        apply find_some in Hfirst as [_ Hkey].
        unfold has_target in Hkey. unfold target_error in Herr.
        by destruct (providerMigrationTargetPath (bucketPrefix s) key).
      * rewrite (keys_before_all _ _ Hfirst).
        destruct (first_page_error listing) as [perr|] eqn:Hpage; [discriminate|].
        by rewrite (fetched_keys_all _ Hpage).
    + intros Hpages Htargets. apply fetched_all in Hpages.
      rewrite (fetched_keys_all _ Hpages), (first_rejected_none _ _ Htargets), Hpages.
      reflexivity.
Qed.

(** The copies of a live MigrateModules over the given keys, if none fails. *)
Lemma module_copies_app s (keys1 keys2 : list string) :
  map (module_copy s) (List.filter (isUnmigratedModule (bucketPrefix s)) (keys1 ++ keys2))
  = map (module_copy s) (List.filter (isUnmigratedModule (bucketPrefix s)) keys1)
    ++ map (module_copy s) (List.filter (isUnmigratedModule (bucketPrefix s)) keys2).
Proof. by rewrite List.filter_app, map_app. Qed.

Lemma MigrateModules_contents_live s contents st :
  exists flow st' copies,
    MigrateModules_contents s false contents st = Done flow st'
    /\ List.filter is_copy (calls st') = List.filter is_copy (calls st) ++ copies
    /\ copies `prefix_of`
         map (module_copy s)
           (List.filter (isUnmigratedModule (bucketPrefix s)) contents)
    /\ (flow = Next tt ->
        copies
        = map (module_copy s)
            (List.filter (isUnmigratedModule (bucketPrefix s)) contents))
    /\ flow <> Return None.
Proof.
  revert st. induction contents as [|key rest IH]; intros st; cbn.
  - exists (Next tt), st, []. rewrite app_nil_r.
    split; [reflexivity|]. split; [reflexivity|]. split; [reflexivity|].
    split; [reflexivity | discriminate].
  - destruct (isUnmigratedModule (bucketPrefix s) key); cbn.
    + unfold mbind, Go_bind, copyObject, backend. cbn.
      destruct (CopyObject (client s) (bucket s) _ _ (world st)) as [[e|] w'] eqn:Hcopy.
      * eexists (Return (Some e)), _, [module_copy s key].
        split; [reflexivity|]. cbn.
        split; [by rewrite List.filter_app|].
        split; [by apply prefix_cons, prefix_nil|]. split; discriminate.
      * cbn.
        match goal with
        | |- context [MigrateModules_contents s false rest ?st1] =>
            destruct (IH st1) as (flow & st' & copies & Hrun & Hcalls & Hpre & Hnext & Hflow)
        end.
        exists flow, st', (module_copy s key :: copies).
        split; [exact Hrun|]. rewrite Hcalls. cbn.
        split; [by rewrite List.filter_app, <- app_assoc|].
        split; [by apply prefix_cons|].
        split; [|exact Hflow]. intros Hn. by rewrite (Hnext Hn).
    + unfold mbind, Go_bind. cbn.
      match goal with
      | |- context [MigrateModules_contents s false rest ?st1] =>
          destruct (IH st1) as (flow & st' & copies & Hrun & Hcalls & Hpre & Hnext & Hflow)
      end.
      exists flow, st', copies. split; [exact Hrun|]. by rewrite Hcalls.
Qed.

Lemma MigrateModules_pages_live s prefix pages st :
  exists err st' copies,
    MigrateModules_pages s false prefix pages st = Done err st'
    /\ List.filter is_copy (calls st') = List.filter is_copy (calls st) ++ copies
    /\ copies `prefix_of`
         map (module_copy s)
           (List.filter (isUnmigratedModule (bucketPrefix s)) (listed_keys pages))
    /\ (err = None ->
        copies
        = map (module_copy s)
            (List.filter (isUnmigratedModule (bucketPrefix s)) (listed_keys pages))).
Proof.
  revert st. induction pages as [|resp more IH]; intros st; cbn.
  - exists None, st, []. rewrite app_nil_r. repeat split; reflexivity.
  - unfold mbind, Go_bind. cbn. destruct resp as [contents|e]; cbn.
    + match goal with
      | |- context [MigrateModules_contents s false contents ?st0] =>
          destruct (MigrateModules_contents_live s contents st0)
            as (flow & st1 & copies1 & Hrun1 & Hcalls1 & Hpre1 & Hnext1 & Hflow1)
      end.
      rewrite Hrun1. cbn in Hcalls1. rewrite List.filter_app in Hcalls1.
      cbn in Hcalls1. rewrite app_nil_r in Hcalls1.
      unfold listed_keys. cbn. rewrite module_copies_app.
      destruct flow as [[e|]|[]].
      * exists (Some e), st1, copies1. split; [reflexivity|].
        split; [exact Hcalls1|]. split; [by apply prefix_app_r | discriminate].
      * contradiction.
      * destruct (IH st1) as (err & st' & copies & Hrun & Hcalls & Hpre & Hnone).
        exists err, st', (copies1 ++ copies). split; [exact Hrun|].
        rewrite Hcalls, Hcalls1, <- app_assoc. split; [reflexivity|].
        rewrite (Hnext1 eq_refl). split; [by apply prefix_app|].
        intros Herr. by rewrite (Hnone Herr).
    + eexists _, _, []. split; [reflexivity|]. cbn.
      rewrite List.filter_app. cbn. rewrite !app_nil_r.
      split; [reflexivity|]. split; [apply prefix_nil | discriminate].
Qed.




End Properties.

(** * The in-memory bucket: copies keep their source *)

Section MemoryBucket.
Context {lib : GoLib} {pkg : Pkg}.

Lemma keeps_objects_refl w : keeps_objects w w.
Proof. intros key Hkey. exact Hkey. Qed.

Lemma keeps_objects_trans w1 w2 w3 :
  keeps_objects w1 w2 -> keeps_objects w2 w3 -> keeps_objects w1 w3.
Proof. intros H12 H23 key Hkey. apply H23, H12, Hkey. Qed.

Lemma next_fault_objects w : objects (next_fault w).2 = objects w.
Proof. unfold next_fault. destruct (faults w); reflexivity. Qed.

Lemma mem_put_keeps key body w : keeps_objects w (mem_put key body w).
Proof.
  intros k Hk. cbn. destruct (decide (key = k)) as [->|Hne].
  - rewrite lookup_insert_eq. eauto.
  - by rewrite lookup_insert_ne.
Qed.

Lemma mem_CopyObject_keeps bkt source target w :
  keeps_objects w (mem_CopyObject bkt source target w).2.
Proof.
  unfold mem_CopyObject.
  pose proof (next_fault_objects w) as Hobjects.
  destruct (next_fault w) as [fault w1]. cbn in Hobjects.
  assert (Hkeeps : keeps_objects w w1).
  { intros key Hkey. by rewrite Hobjects. }
  destruct fault as [err|]; [exact Hkeeps|].
  destruct (List.find _ _) as [found|]; [|exact Hkeeps].
  destruct (objects w1 !! found) as [body|]; [|exact Hkeeps].
  cbn. eapply keeps_objects_trans; [exact Hkeeps | apply mem_put_keeps].
Qed.

Lemma mem_keys_spec w key : In key (mem_keys w) <-> is_Some (objects w !! key).
Proof.
  unfold mem_keys. rewrite <- list_elem_of_In, merge_sort_Permutation.
  rewrite list_elem_of_In, in_map_iff. split.
  - intros [[k body] [<- Hin]]. apply list_elem_of_In, elem_of_map_to_list in Hin.
    cbn. eauto.
  - intros [body Hbody]. exists (key, body). split; [reflexivity|].
    by apply list_elem_of_In, elem_of_map_to_list.
Qed.

Lemma mem_listed_keys_spec bkt prefix w key :
  In key (listed_keys (mem_ListObjectsV2 bkt prefix w))
  <-> has_prefix key prefix = true /\ is_Some (objects w !! key).
Proof.
  unfold listed_keys, mem_ListObjectsV2. cbn. rewrite app_nil_r.
  rewrite <- list_elem_of_In, list_elem_of_filter, list_elem_of_In, mem_keys_spec.
  reflexivity.
Qed.

Lemma mem_MigrateModules_contents_keeps bkt prefix archiveFormat dryRun contents st flow st' :
  MigrateModules_contents (mem_storage bkt prefix archiveFormat) dryRun contents st
  = Done flow st' ->
  keeps_objects (world st) (world st').
Proof.
  revert st. induction contents as [|key rest IH]; intros st; cbn.
  - intros [= _ <-]. apply keeps_objects_refl.
  - destruct (isUnmigratedModule prefix key); cbn.
    + destruct dryRun.
      * unfold mbind, Go_bind. cbn. intros Hrun. exact (IH _ Hrun).
      * unfold mbind, Go_bind, copyObject, backend. cbn.
        pose proof (mem_CopyObject_keeps bkt
                      (url_PathEscape (path_Join [bkt; key]))
                      (migrationTargetPath prefix archiveFormat key) (world st))
          as Hcopy.
        destruct (mem_CopyObject _ _ _ _) as [[err|] w1]; cbn in Hcopy |- *.
        -- intros [= _ <-]. exact Hcopy.
        -- intros Hrun. eapply keeps_objects_trans; [exact Hcopy|].
           exact (IH _ Hrun).
    + unfold mbind, Go_bind. cbn. intros Hrun. exact (IH _ Hrun).
Qed.

Lemma mem_MigrateModules_pages_keeps bkt prefix archiveFormat dryRun listPrefix pages st err st' :
  MigrateModules_pages (mem_storage bkt prefix archiveFormat) dryRun listPrefix pages st
  = Done err st' ->
  keeps_objects (world st) (world st').
Proof.
  revert st. induction pages as [|resp more IH]; intros st; cbn.
  - intros [= _ <-]. apply keeps_objects_refl.
  - unfold mbind, Go_bind. cbn. destruct resp as [contents|e]; cbn.
    + destruct (MigrateModules_contents _ dryRun contents _)
        as [[r|[]] st1|st1] eqn:Hcontents; [| |discriminate].
      * intros [= _ <-].
        exact (mem_MigrateModules_contents_keeps _ _ _ _ _ _ _ _ Hcontents).
      * intros Hrun. eapply keeps_objects_trans; [|exact (IH _ Hrun)].
        exact (mem_MigrateModules_contents_keeps _ _ _ _ _ _ _ _ Hcontents).
    + intros [= _ <-]. apply keeps_objects_refl.
Qed.

(** X14: whatever isUnmigratedModule and migrationTargetPath are: on the
    in-memory bucket, when a live MigrateModules has returned without error,
    a second live run that returns without error issues again every copy the
    first one issued. *)
Lemma mem_second_run_repeats_copies bkt prefix archiveFormat w st1 st2 :
  let s := mem_storage bkt prefix archiveFormat in
  MigrateModules s false (start w) = Done None st1 ->
  MigrateModules s false (start (world st1)) = Done None st2 ->
  forall c,
    In c (List.filter is_copy (calls st1)) -> In c (List.filter is_copy (calls st2)).
Proof.
  intros s Hfirst Hsecond c.
  pose proof (mem_MigrateModules_pages_keeps _ _ _ _ _ _ _ _ _ Hfirst) as Hkeeps.
  destruct (MigrateModules_pages_live s (path_Join [prefix; internalModuleType])
              (mem_ListObjectsV2 bkt (path_Join [prefix; internalModuleType]) w)
              (start w)) as (err1 & st1' & copies1 & Hrun1 & Hcalls1 & _ & Hall1).
  destruct (MigrateModules_pages_live s (path_Join [prefix; internalModuleType])
              (mem_ListObjectsV2 bkt (path_Join [prefix; internalModuleType]) (world st1))
              (start (world st1))) as (err2 & st2' & copies2 & Hrun2 & Hcalls2 & _ & Hall2).
  unfold MigrateModules in Hfirst, Hsecond. cbn in Hfirst, Hsecond.
  cbn in Hrun1, Hrun2.
  rewrite Hfirst in Hrun1. injection Hrun1 as <- <-.
  rewrite Hsecond in Hrun2. injection Hrun2 as <- <-.
  rewrite Hcalls1, Hcalls2, (Hall1 eq_refl), (Hall2 eq_refl).
  unfold start. cbn [calls List.filter app].
  rewrite !in_map_iff. intros [key [<- Hkey]]. exists key. split; [reflexivity|].
  apply filter_In in Hkey as [Hlisted Hunmigrated]. apply filter_In.
  split; [|exact Hunmigrated].
  apply (proj1 (mem_listed_keys_spec _ _ _ _)) in Hlisted as [Hprefix Hstored].
  apply (proj2 (mem_listed_keys_spec _ _ _ _)).
  split; [exact Hprefix|]. by apply Hkeeps.
Qed.

(** X13: with the configured archive format equal to the default one, and a
    backend that does not fail, the round trip holds for all coordinates:
    UploadModule of a module that is not there stores the body and returns
    the module, GetModule returns the same module, and a second UploadModule
    is rejected with ErrModuleAlreadyExists. *)
Lemma mem_round_trip_default_format bkt prefix objs namespace name provider version body :
  let s := mem_storage bkt prefix DefaultModuleArchiveFormat in
  let key := modulePath prefix namespace name provider version DefaultModuleArchiveFormat in
  let w := {| objects := objs; faults := [] |} in
  let w' := {| objects := <[key := body]> objs; faults := [] |} in
  let m :=
    core.Mod.Build namespace name provider version
      ("https://" +:+ bkt +:+ ".s3.amazonaws.com/" +:+ key) in
  namespace <> "" -> name <> "" -> provider <> "" -> version <> "" ->
  objs !! key = None ->
  (exists cs, UploadModule s namespace name provider version body (start w)
              = Done (m, None) (mkState w' cs []))
  /\ (exists cs, GetModule s namespace name provider version (start w')
                 = Done (m, None) (mkState w' cs []))
  /\ (exists cs, UploadModule s namespace name provider version body (start w')
                 = Done (core.Mod.zero,
                         Some (errors_Wrap (sentinelError ErrModuleAlreadyExists) key))
                     (mkState w' cs [])).
Proof.
  intros s key w w' m Hns Hname Hprov Hver Hfree.
  assert (Hfound : forall cs,
    GetModule s namespace name provider version (mkState w' cs [])
    = Done (m, None)
        (mkState w' ((cs ++ [HeadObjectCall bkt key]) ++ [PresignGetObjectCall bkt key]) [])).
  { intros cs.
    rewrite (GetModule_head_ok s namespace name provider version (mkState w' cs [])
               w' (Some {| URL := "https://" +:+ bkt +:+ ".s3.amazonaws.com/" +:+ key |})
               None w').
    - reflexivity.
    - cbn. unfold mem_HeadObject. cbn. fold key. by rewrite lookup_insert_eq.
    - reflexivity. }
  split; [|split].
  - eexists. unfold UploadModule. repeat (case_decide; [congruence|]).
    unfold mbind at 1. unfold Go_bind.
    rewrite (GetModule_head_failed s namespace name provider version (start w)
               (ResponseError 404 "NotFound") w).
    + cbn. unfold mbind at 1. unfold Go_bind. unfold backend at 1. cbn.
      fold key. unfold mem_put. cbn. apply Hfound.
    + cbn. unfold mem_HeadObject. cbn. fold key. by rewrite Hfree.
  - eexists. apply Hfound.
  - eexists. unfold UploadModule. repeat (case_decide; [congruence|]).
    unfold mbind at 1. unfold Go_bind. unfold start. rewrite Hfound. reflexivity.
Qed.

(** With a configured archive format whose key differs from the key of the
    default format, on a backend that does not fail: UploadModule of a module
    that is not there stores the body under the key of the default format and
    returns ErrModuleNotFound, for all coordinates. *)
Lemma mem_upload_other_format_not_found bkt prefix archiveFormat objs
    namespace name provider version body :
  let s := mem_storage bkt prefix archiveFormat in
  let read_key := modulePath prefix namespace name provider version archiveFormat in
  let write_key :=
    modulePath prefix namespace name provider version DefaultModuleArchiveFormat in
  let w := {| objects := objs; faults := [] |} in
  let w' := {| objects := <[write_key := body]> objs; faults := [] |} in
  namespace <> "" -> name <> "" -> provider <> "" -> version <> "" ->
  read_key <> write_key ->
  objs !! read_key = None ->
  UploadModule s namespace name provider version body (start w)
  = Done (core.Mod.zero, Some (sentinelError ErrModuleNotFound))
      (mkState w'
         [HeadObjectCall bkt read_key; UploadCall bkt write_key body;
          HeadObjectCall bkt read_key] []).
Proof.
  intros s read_key write_key w w' Hns Hname Hprov Hver Hkeys Hfree.
  unfold UploadModule. repeat (case_decide; [congruence|]).
  unfold mbind at 1. unfold Go_bind.
  rewrite (GetModule_head_failed s namespace name provider version (start w)
             (ResponseError 404 "NotFound") w).
  - cbn. unfold mbind at 1. unfold Go_bind. unfold backend at 1. cbn.
    fold write_key. unfold mem_put. cbn.
    rewrite (GetModule_head_failed s namespace name provider version _
               (ResponseError 404 "NotFound") w').
    + reflexivity.
    + cbn. unfold mem_HeadObject. cbn. fold read_key.
      by rewrite lookup_insert_ne, Hfree.
  - cbn. unfold mem_HeadObject. cbn. fold read_key. by rewrite Hfree.
Qed.

End MemoryBucket.

(** * Further properties of the methods *)

Section FurtherProperties.
Context {W : Type} {lib : GoLib} {pkg : Pkg}.
Implicit Type s : S3Storage W.
Implicit Type st : State W.

(** X1: an empty argument is refused before the backend is called:
    UploadModule with an empty namespace, name, provider or version,
    UploadProviderReleaseFiles with an empty namespace, name or filename (the
    message for an empty filename is the one for an empty name) and
    SigningKeys with an empty namespace return a plain error and leave the
    state, calls included, as it was. *)
Theorem empty_argument_is_refused_before_any_call s st :
  (forall namespace name provider version body,
      namespace = "" \/ name = "" \/ provider = "" \/ version = "" ->
      exists msg,
        UploadModule s namespace name provider version body st
        = Done (core.Mod.zero, Some (errorString msg)) st)
  /\ (forall namespace name filename file,
        namespace = "" \/ name = "" \/ filename = "" ->
        UploadProviderReleaseFiles s namespace name filename file st
        = Done (Some (fmt_Errorf
                        (if decide (namespace = "") then "namespace argument is empty"
                         else "name argument is empty") [])) st)
  /\ SigningKeys s "" st
     = Done (None, Some (fmt_Errorf "namespace argument is empty" [])) st.
Proof.
  split; [|split].
  - intros namespace name provider version body Hempty. unfold UploadModule.
    repeat case_decide; try (eexists; reflexivity).
    destruct Hempty as [?|[?|[?|?]]]; contradiction.
  - intros namespace name filename file Hempty. unfold UploadProviderReleaseFiles.
    repeat case_decide; try reflexivity.
    destruct Hempty as [?|[?|?]]; contradiction.
  - reflexivity.
Qed.

Lemma extends_by_refl (allowed : Call -> bool) st : extends_by allowed st st.
Proof. exists []. by rewrite app_nil_r. Qed.

Lemma extends_by_trans (allowed : Call -> bool) st1 st2 st3 :
  extends_by allowed st1 st2 -> extends_by allowed st2 st3 -> extends_by allowed st1 st3.
Proof.
  intros (cs1 & H1 & Ha1) (cs2 & H2 & Ha2). exists (cs1 ++ cs2).
  rewrite H2, H1, <- app_assoc. split; [reflexivity|].
  rewrite forallb_app, Ha1, Ha2. reflexivity.
Qed.

Lemma extends_by_weaken (allowed allowed' : Call -> bool) st st' :
  (forall c, allowed c = true -> allowed' c = true) ->
  extends_by allowed st st' -> extends_by allowed' st st'.
Proof.
  intros Hsub (cs & Hcalls & Hall). exists cs. split; [exact Hcalls|].
  apply forallb_forall. intros c Hc. apply Hsub.
  by apply (proj1 (forallb_forall _ _) Hall).
Qed.

Lemma calls_only_ret (allowed : Call -> bool) {A : Type} (a : A) :
  calls_only allowed (mret a : Go W A).
Proof. intros st. apply extends_by_refl. Qed.

Lemma calls_only_panic (allowed : Call -> bool) {A : Type} :
  calls_only allowed (panic : Go W A).
Proof. intros st. apply extends_by_refl. Qed.

Lemma calls_only_Log (allowed : Call -> bool) keyvals :
  calls_only allowed (Log keyvals : Go W unit).
Proof. intros st. exists []. cbn. by rewrite app_nil_r. Qed.

Lemma calls_only_backend (allowed : Call -> bool) {A : Type} c (f : W -> A * W) :
  allowed c = true -> calls_only allowed (backend c f).
Proof.
  intros Hc st. unfold backend. destruct (f (world st)) as [a w]. cbn.
  exists [c]. split; [reflexivity|]. cbn. by rewrite Hc.
Qed.

Lemma calls_only_bind (allowed : Call -> bool) {A B : Type} (m : Go W A) (f : A -> Go W B) :
  calls_only allowed m -> (forall a, calls_only allowed (f a)) ->
  calls_only allowed (m ≫= f).
Proof.
  intros Hm Hf st. specialize (Hm st). unfold mbind, Go_bind.
  destruct (m st) as [a st1|st1]; cbn in Hm |- *; [|exact Hm].
  eapply extends_by_trans; [exact Hm | apply Hf].
Qed.

Lemma calls_only_weaken (allowed allowed' : Call -> bool) {A : Type} (m : Go W A) :
  (forall c, allowed c = true -> allowed' c = true) ->
  calls_only allowed m -> calls_only allowed' m.
Proof. intros Hsub Hm st. eapply extends_by_weaken; [exact Hsub | apply Hm]. Qed.

Ltac calls_only_step :=
  first
    [ apply calls_only_ret
    | apply calls_only_panic
    | apply calls_only_Log
    | apply calls_only_backend; reflexivity
    | apply calls_only_bind; [|let a := fresh "a" in intros a; try destruct a as [? ?]]
    | match goal with
      | |- calls_only _ (match ?x with _ => _ end) => destruct x
      | |- calls_only _ (if ?b then _ else _) => destruct b
      end ].

Lemma calls_only_objectExists s key :
  calls_only is_head (objectExists s key).
Proof. unfold objectExists. repeat calls_only_step. Qed.

Lemma calls_only_presignedURL s key :
  calls_only is_presign (presignedURL s key).
Proof. unfold presignedURL. repeat calls_only_step. Qed.

Lemma calls_only_download s path :
  calls_only is_download (download s path).
Proof. unfold download. repeat calls_only_step. Qed.

Lemma calls_only_GetModule s namespace name provider version :
  calls_only (fun c => is_head c || is_presign c)
    (GetModule s namespace name provider version).
Proof.
  unfold GetModule.
  apply calls_only_bind.
  { eapply calls_only_weaken; [|apply calls_only_objectExists].
    intros c Hc. by rewrite Hc. }
  intros [exists_ err]. destruct err; [calls_only_step|].
  destruct (negb exists_); [calls_only_step|].
  apply calls_only_bind.
  { eapply calls_only_weaken; [|apply calls_only_presignedURL].
    intros c Hc. rewrite Hc. apply orb_true_r. }
  intros [presigned err]. destruct err; calls_only_step.
Qed.

Lemma calls_only_ListModuleVersions_contents s contents modules :
  calls_only is_presign (ListModuleVersions_contents s contents modules).
Proof.
  revert modules. induction contents as [|key rest IH]; intros modules; cbn.
  - calls_only_step.
  - destruct (moduleFromObject key (moduleArchiveFormat s)) as [m|e]; [|apply IH].
    apply calls_only_bind; [apply calls_only_presignedURL|].
    intros [url err]. destruct err; [calls_only_step | apply IH].
Qed.

Lemma calls_only_ListModuleVersions_pages s prefix pages modules :
  calls_only (fun c => is_next_page c || is_presign c)
    (ListModuleVersions_pages s prefix pages modules).
Proof.
  revert modules. induction pages as [|resp more IH]; intros modules; cbn.
  - calls_only_step.
  - apply calls_only_bind; [calls_only_step|]. intros _.
    destruct resp as [contents|err]; [|calls_only_step].
    apply calls_only_bind.
    { eapply calls_only_weaken; [|apply calls_only_ListModuleVersions_contents].
      intros c Hc. rewrite Hc. apply orb_true_r. }
    intros [r|modules']; [calls_only_step | apply IH].
Qed.

Lemma calls_only_UploadModule s namespace name provider version body :
  calls_only (fun c => is_head c || is_presign c || is_upload c)
    (UploadModule s namespace name provider version body).
Proof.
  assert (Hget : calls_only (fun c => is_head c || is_presign c || is_upload c)
                   (GetModule s namespace name provider version)).
  { eapply calls_only_weaken; [|apply calls_only_GetModule].
    intros c Hc. by rewrite Hc. }
  unfold UploadModule. repeat (case_decide; [calls_only_step|]).
  apply calls_only_bind; [exact Hget|]. intros [m err].
  destruct err; [|calls_only_step].
  apply calls_only_bind; [calls_only_step|]. intros uerr.
  destruct uerr; [calls_only_step | exact Hget].
Qed.

Lemma calls_only_MigrateModules_contents s dryRun contents :
  calls_only (fun c => negb dryRun && is_copy c) (MigrateModules_contents s dryRun contents).
Proof.
  induction contents as [|key rest IH]; cbn; [calls_only_step|].
  destruct (negb (isUnmigratedModule (bucketPrefix s) key)).
  - apply calls_only_bind; [calls_only_step | intros _; exact IH].
  - destruct dryRun.
    + apply calls_only_bind; [calls_only_step | intros _; exact IH].
    + apply calls_only_bind; [unfold copyObject; calls_only_step|].
      intros cerr. destruct cerr; [calls_only_step|].
      apply calls_only_bind; [calls_only_step | intros _; exact IH].
Qed.

Lemma calls_only_MigrateModules_pages s dryRun prefix pages :
  calls_only (fun c => is_next_page c || negb dryRun && is_copy c)
    (MigrateModules_pages s dryRun prefix pages).
Proof.
  induction pages as [|resp more IH]; cbn; [calls_only_step|].
  apply calls_only_bind; [calls_only_step|]. intros _.
  destruct resp as [contents|err]; [|calls_only_step].
  apply calls_only_bind.
  { eapply calls_only_weaken; [|apply calls_only_MigrateModules_contents].
    intros c Hc. cbn beta. rewrite Hc. apply orb_true_r. }
  intros [r|next]; [calls_only_step | exact IH].
Qed.

Lemma calls_only_MigrateProviders_contents s dryRun contents :
  calls_only (fun c => negb dryRun && is_copy c) (MigrateProviders_contents s dryRun contents).
Proof.
  induction contents as [|key rest IH]; cbn; [calls_only_step|].
  destruct (providerMigrationTargetPath (bucketPrefix s) key) as [directory|e];
    [|calls_only_step].
  destruct dryRun.
  - apply calls_only_bind; [calls_only_step | intros _; exact IH].
  - apply calls_only_bind; [unfold copyObject; calls_only_step|].
    intros cerr. destruct cerr; [calls_only_step|].
    apply calls_only_bind; [calls_only_step | intros _; exact IH].
Qed.

Lemma calls_only_MigrateProviders_pages s dryRun prefix pages :
  calls_only (fun c => is_next_page c || negb dryRun && is_copy c)
    (MigrateProviders_pages s dryRun prefix pages).
Proof.
  induction pages as [|resp more IH]; cbn; [calls_only_step|].
  apply calls_only_bind; [calls_only_step|]. intros _.
  destruct resp as [contents|err]; [|calls_only_step].
  apply calls_only_bind.
  { eapply calls_only_weaken; [|apply calls_only_MigrateProviders_contents].
    intros c Hc. cbn beta. rewrite Hc. apply orb_true_r. }
  intros [r|next]; [calls_only_step | exact IH].
Qed.

Lemma calls_only_SigningKeys s namespace :
  calls_only is_download (SigningKeys s namespace).
Proof.
  unfold SigningKeys. case_decide; [calls_only_step|].
  apply calls_only_bind; [apply calls_only_download|].
  intros [raw err]. destruct err; calls_only_step.
Qed.

Lemma calls_only_GetProvider s namespace name version os arch :
  calls_only (fun c => is_presign c || is_download c)
    (GetProvider s namespace name version os arch).
Proof.
  assert (Hpresign : forall key,
    calls_only (fun c => is_presign c || is_download c) (presignedURL s key)).
  { intros key. eapply calls_only_weaken; [|apply calls_only_presignedURL].
    intros c Hc. by rewrite Hc. }
  unfold GetProvider.
  destruct (internalProviderPath _ _ _ _ _ _) as [[[archivePath shasumPath] shasumSigPath]|e];
    [|calls_only_step].
  apply calls_only_bind; [apply Hpresign|]. intros [zipURL err].
  destruct err; [calls_only_step|].
  apply calls_only_bind; [apply Hpresign|]. intros [shasumsURL err].
  destruct err; [calls_only_step|].
  apply calls_only_bind; [apply Hpresign|]. intros [signatureURL err].
  destruct err; [calls_only_step|].
  apply calls_only_bind.
  { eapply calls_only_weaken; [|apply calls_only_download].
    intros c Hc. rewrite Hc. apply orb_true_r. }
  intros [shasumBytes err]. destruct err; [calls_only_step|].
  destruct (readSHASums _ _); [|calls_only_step].
  apply calls_only_bind.
  { eapply calls_only_weaken; [|apply calls_only_SigningKeys].
    intros c Hc. rewrite Hc. apply orb_true_r. }
  intros [signingKeys err]. destruct err; [calls_only_step|].
  destruct signingKeys; calls_only_step.
Qed.

Lemma calls_only_ListProviderVersions_pages s prefix pages collection :
  calls_only is_next_page (ListProviderVersions_pages s prefix pages collection).
Proof.
  revert collection. induction pages as [|resp more IH]; intros collection; cbn.
  - calls_only_step.
  - apply calls_only_bind; [calls_only_step|]. intros _.
    destruct resp as [contents|err]; [apply IH | calls_only_step].
Qed.

Lemma calls_only_UploadProviderReleaseFiles s namespace name filename file :
  calls_only (fun c => is_head c || is_upload c)
    (UploadProviderReleaseFiles s namespace name filename file).
Proof.
  unfold UploadProviderReleaseFiles. repeat (case_decide; [calls_only_step|]).
  destruct (providerStoragePrefix _ _ _ _ _) as [prefix|e]; [|calls_only_step].
  apply calls_only_bind.
  { eapply calls_only_weaken; [|apply calls_only_objectExists].
    intros c Hc. by rewrite Hc. }
  intros [exists_ err]. destruct err; [calls_only_step|].
  destruct exists_; [calls_only_step|].
  apply calls_only_bind; [calls_only_step|].
  intros uerr. destruct uerr; calls_only_step.
Qed.

(** X2: what each method asks of the backend, however it ends (result,
    error or panic): GetModule only heads and presigns; ListModuleVersions
    only fetches pages and presigns; ListProviderVersions only fetches pages;
    GetProvider only presigns and downloads; SigningKeys only downloads;
    the two uploads head (and, for modules, presign) and upload; a live
    migration only fetches pages and copies.  No reading method uploads or
    copies, and no method but a migration copies. *)
Theorem methods_call_only_what_they_need s st :
  (forall namespace name provider version,
      extends_by (fun c => is_head c || is_presign c) st
        (final (GetModule s namespace name provider version st)))
  /\ (forall namespace name provider,
        extends_by (fun c => is_next_page c || is_presign c) st
          (final (ListModuleVersions s namespace name provider st)))
  /\ (forall namespace name,
        extends_by is_next_page st (final (ListProviderVersions s namespace name st)))
  /\ (forall namespace name version os arch,
        extends_by (fun c => is_presign c || is_download c) st
          (final (GetProvider s namespace name version os arch st)))
  /\ (forall namespace,
        extends_by is_download st (final (SigningKeys s namespace st)))
  /\ (forall namespace name provider version body,
        extends_by (fun c => is_head c || is_presign c || is_upload c) st
          (final (UploadModule s namespace name provider version body st)))
  /\ (forall namespace name filename file,
        extends_by (fun c => is_head c || is_upload c) st
          (final (UploadProviderReleaseFiles s namespace name filename file st)))
  /\ (forall dryRun,
        extends_by (fun c => is_next_page c || negb dryRun && is_copy c) st
          (final (MigrateModules s dryRun st))
        /\ extends_by (fun c => is_next_page c || negb dryRun && is_copy c) st
             (final (MigrateProviders s dryRun st))).
Proof.
  repeat split.
  - intros. apply calls_only_GetModule.
  - intros. unfold ListModuleVersions. apply calls_only_ListModuleVersions_pages.
  - intros namespace name. unfold ListProviderVersions.
    destruct (providerStoragePrefix _ _ _ _ _) as [prefix|e]; [|apply extends_by_refl].
    pose proof (calls_only_ListProviderVersions_pages s (fmt_Sprintf "%s/" [prefix])
                  (ListObjectsV2 (client s) (bucket s) (fmt_Sprintf "%s/" [prefix]) (world st))
                  NewCollection st) as Hpages.
    unfold mbind, Go_bind.
    destruct (ListProviderVersions_pages _ _ _ _ _) as [[collection|e] st1|st1];
      cbn in Hpages |- *; [|exact Hpages..].
    destruct (length (Collection_List collection) =? 0)%nat; exact Hpages.
  - intros. apply calls_only_GetProvider.
  - intros. apply calls_only_SigningKeys.
  - intros. apply calls_only_UploadModule.
  - intros. apply calls_only_UploadProviderReleaseFiles.
  - unfold MigrateModules. apply calls_only_MigrateModules_pages.
  - unfold MigrateProviders. apply calls_only_MigrateProviders_pages.
Qed.

Lemma GetModule_result s namespace name provider version st m err st' :
  GetModule s namespace name provider version st = Done (m, err) st' ->
  (err = None
   /\ m = core.Mod.Build namespace name provider version (core.Mod.DownloadURL m))
  \/ (err <> None /\ m = core.Mod.zero).
Proof.
  unfold GetModule, objectExists, presignedURL. go_unfold.
  repeat case_match; intros; simplify_eq; cbn; auto.
Qed.

Lemma UploadModule_result s namespace name provider version body st m err st' :
  UploadModule s namespace name provider version body st = Done (m, err) st' ->
  (err = None
   /\ m = core.Mod.Build namespace name provider version (core.Mod.DownloadURL m))
  \/ (err <> None /\ m = core.Mod.zero).
Proof.
  unfold UploadModule.
  repeat (case_decide; [intros [= <- <- _]; right; split; [discriminate|reflexivity]|]).
  unfold mbind at 1. unfold Go_bind.
  destruct (GetModule s namespace name provider version st) as [[m0 [e|]] st1|st1];
    [| |discriminate].
  - unfold mbind at 1. unfold Go_bind, backend.
    destruct (Upload _ _ _ _ _) as [[ue|] w2].
    + intros [= <- <- _]. right. split; [discriminate|reflexivity].
    + apply GetModule_result.
  - intros [= <- <- _]. right. split; [discriminate|reflexivity].
Qed.

Lemma ListModuleVersions_pages_error s prefix pages modules st ms e st' :
  ListModuleVersions_pages s prefix pages modules st = Done (ms, Some e) st' ->
  ms = [].
Proof.
  revert modules st. induction pages as [|resp more IH]; intros modules st; cbn.
  - discriminate.
  - unfold mbind, Go_bind. cbn. destruct resp as [contents|err]; cbn.
    + destruct (ListModuleVersions_contents s contents modules _)
        as [[r|modules'] st1|st1] eqn:Hcontents; [| |discriminate].
      * intros [= -> _].
        by destruct (ListModuleVersions_contents_return _ _ _ _ _ _ Hcontents).
      * apply IH.
    + by intros [= <- _ _].
Qed.

Lemma GetProvider_result s namespace name version os arch st p err st' :
  GetProvider s namespace name version os arch st = Done (p, err) st' ->
  (err = None
   /\ core.Provider.Namespace p = namespace /\ core.Provider.Name p = name
   /\ core.Provider.Version p = version /\ core.Provider.OS p = os
   /\ core.Provider.Arch p = arch
   /\ exists archivePath shasumPath shasumSigPath,
        internalProviderPath (bucketPrefix s) namespace name version os arch
        = Ok (archivePath, shasumPath, shasumSigPath)
        /\ core.Provider.Filename p = path_Base archivePath)
  \/ (err <> None /\ p = core.Provider.zero).
Proof.
  unfold GetProvider, SigningKeys, download, presignedURL. go_unfold.
  repeat case_match; intros; simplify_eq; cbn; eauto 12.
Qed.

(** X3: an error never comes with a partial result: when GetModule,
    UploadModule or GetProvider return an error the entity they return is the
    zero value, and when ListModuleVersions or ListProviderVersions return an
    error their list is empty, whatever had been collected before. *)
Theorem an_error_comes_with_the_zero_value s st e st' :
  (forall namespace name provider version m,
      GetModule s namespace name provider version st = Done (m, Some e) st' ->
      m = core.Mod.zero)
  /\ (forall namespace name provider version body m,
        UploadModule s namespace name provider version body st = Done (m, Some e) st' ->
        m = core.Mod.zero)
  /\ (forall namespace name version os arch p,
        GetProvider s namespace name version os arch st = Done (p, Some e) st' ->
        p = core.Provider.zero)
  /\ (forall namespace name provider modules,
        ListModuleVersions s namespace name provider st = Done (modules, Some e) st' ->
        modules = [])
  /\ (forall namespace name versions,
        ListProviderVersions s namespace name st = Done (versions, Some e) st' ->
        versions = []).
Proof.
  split; [|split; [|split; [|split]]].
  - intros namespace name provider version m Hrun.
    destruct (GetModule_result _ _ _ _ _ _ _ _ _ Hrun) as [[[=] _]|[_ ->]]. reflexivity.
  - intros namespace name provider version body m Hrun.
    destruct (UploadModule_result _ _ _ _ _ _ _ _ _ _ Hrun) as [[[=] _]|[_ ->]].
    reflexivity.
  - intros namespace name version os arch p Hrun.
    destruct (GetProvider_result _ _ _ _ _ _ _ _ _ _ Hrun) as [[[=] _]|[_ ->]].
    reflexivity.
  - intros namespace name provider modules Hrun.
    exact (ListModuleVersions_pages_error _ _ _ _ _ _ _ _ Hrun).
  - intros namespace name versions. unfold ListProviderVersions.
    destruct (providerStoragePrefix _ _ _ _ _) as [prefix|e0]; [|by intros [= <- _ _]].
    unfold mbind, Go_bind.
    destruct (ListProviderVersions_pages _ _ _ _ _) as [[collection|e0] st1|st1];
      [| |discriminate].
    + destruct (length (Collection_List collection) =? 0)%nat; [by intros [= <- _ _]|].
      discriminate.
    + by intros [= <- _ _].
Qed.

(** X4: what comes back without error is about what was asked for: the
    module of GetModule and of UploadModule has the namespace, name, provider
    and version of the call, and the provider of GetProvider has the
    namespace, name, version, os and arch of the call and, as filename, the
    base name of the archive path. *)
Theorem a_result_has_the_requested_coordinates s st st' :
  (forall namespace name provider version m,
      GetModule s namespace name provider version st = Done (m, None) st' ->
      m = core.Mod.Build namespace name provider version (core.Mod.DownloadURL m))
  /\ (forall namespace name provider version body m,
        UploadModule s namespace name provider version body st = Done (m, None) st' ->
        m = core.Mod.Build namespace name provider version (core.Mod.DownloadURL m))
  /\ (forall namespace name version os arch p,
        GetProvider s namespace name version os arch st = Done (p, None) st' ->
        core.Provider.Namespace p = namespace /\ core.Provider.Name p = name
        /\ core.Provider.Version p = version /\ core.Provider.OS p = os
        /\ core.Provider.Arch p = arch
        /\ exists archivePath shasumPath shasumSigPath,
             internalProviderPath (bucketPrefix s) namespace name version os arch
             = Ok (archivePath, shasumPath, shasumSigPath)
             /\ core.Provider.Filename p = path_Base archivePath).
Proof.
  split; [|split].
  - intros namespace name provider version m Hrun.
    destruct (GetModule_result _ _ _ _ _ _ _ _ _ Hrun) as [[_ Hm]|[Herr _]];
      [exact Hm | by destruct Herr].
  - intros namespace name provider version body m Hrun.
    destruct (UploadModule_result _ _ _ _ _ _ _ _ _ _ Hrun) as [[_ Hm]|[Herr _]];
      [exact Hm | by destruct Herr].
  - intros namespace name version os arch p Hrun.
    destruct (GetProvider_result _ _ _ _ _ _ _ _ _ _ Hrun) as [[_ Hp]|[Herr _]];
      [exact Hp | by destruct Herr].
Qed.

(** X5: with valid arguments UploadProviderReleaseFiles heads the key of
    the file once and uploads only when that HeadObject failed with a 404:
    an object that is there gives ErrProviderAlreadyExists, any other
    HeadObject error is returned as it is, and in both cases nothing is
    uploaded (UploadModule, in contrast, uploads after every error of its
    check).  After a 404 there is one upload of the file to that key, and an
    upload error comes back wrapped under a message. *)
Theorem UploadProviderReleaseFiles_uploads_only_when_absent
    s namespace name filename file st prefix herr w1 :
  namespace <> "" -> name <> "" -> filename <> "" ->
  providerStoragePrefix (bucketPrefix s) internalProviderType "" namespace name
  = Ok prefix ->
  let key := filepath_Join [prefix; filename] in
  HeadObject (client s) (bucket s) key (world st) = (herr, w1) ->
  let run := UploadProviderReleaseFiles s namespace name filename file st in
  let absent :=
    match herr with
    | Some err => bool_decide (errors_As_ResponseError err = Some StatusNotFound)
    | None => false
    end in
  calls (final run)
  = calls st
    ++ HeadObjectCall (bucket s) key
       :: (if absent then [UploadCall (bucket s) key file] else [])
  /\ (herr = None ->
      returned run = Some (Some (sentinelError ErrProviderAlreadyExists))
      /\ world (final run) = w1)
  /\ (forall err, herr = Some err -> absent = false ->
        returned run = Some (Some err) /\ world (final run) = w1)
  /\ (absent = true ->
      forall uerr w2,
        Upload (uploader s) (bucket s) key file w1 = (uerr, w2) ->
        world (final run) = w2
        /\ returned run
           = Some (match uerr with
                   | None => None
                   | Some e => Some (fmt_Errorf_w "failed to upload provider: %w" [] e)
                   end)).
Proof.
  intros Hns Hname Hfile Hprefix key Hhead run absent.
  assert (Hrun :
    run
    = let st1 := after_call st (HeadObjectCall (bucket s) key) w1 in
      match herr with
      | None => Done (Some (sentinelError ErrProviderAlreadyExists)) st1
      | Some err =>
          if absent then
            let '(uerr, w2) := Upload (uploader s) (bucket s) key file w1 in
            Done (match uerr with
                  | None => None
                  | Some e => Some (fmt_Errorf_w "failed to upload provider: %w" [] e)
                  end)
              (after_call st1 (UploadCall (bucket s) key file) w2)
          else Done (Some err) st1
      end).
  { unfold run, UploadProviderReleaseFiles. repeat (case_decide; [congruence|]).
    rewrite Hprefix. fold key. unfold mbind at 1. unfold Go_bind.
    rewrite objectExists_run, Hhead. unfold absent.
    destruct herr as [err|]; [|reflexivity].
    case_bool_decide; [|reflexivity].
    cbn. unfold mbind, Go_bind, backend. cbn.
    destruct (Upload _ _ _ _ _) as [[e|] w2]; reflexivity. }
  rewrite Hrun. clear Hrun. destruct herr as [err|].
  - destruct absent eqn:Habsent.
    + destruct (Upload (uploader s) (bucket s) key file w1) as [uerr w2] eqn:Hupload.
      cbn. rewrite <- app_assoc. split; [reflexivity|].
      split; [discriminate|]. split; [intros ? _ [=]|].
      intros _ uerr' w2' [= <- <-]. split; reflexivity.
    + cbn. split; [reflexivity|]. split; [discriminate|].
      split; [intros err' [= <-] _; split; reflexivity | discriminate].
  - cbn. split; [reflexivity|]. split; [intros _; split; reflexivity|].
    split; [discriminate | discriminate].
Qed.

Lemma parsed_modules_app (archiveFormat : string) (keys1 keys2 : list string) :
  parsed_modules archiveFormat (keys1 ++ keys2)
  = parsed_modules archiveFormat keys1 ++ parsed_modules archiveFormat keys2.
Proof. apply flat_map_app. Qed.

Lemma ListModuleVersions_contents_next s contents modules st modules' st' :
  ListModuleVersions_contents s contents modules st = Done (Next modules') st' ->
  map clear_url modules'
  = map clear_url modules
    ++ map clear_url (parsed_modules (moduleArchiveFormat s) contents).
Proof.
  revert modules st. induction contents as [|key rest IH]; intros modules st; cbn.
  - intros [= <- _]. by rewrite app_nil_r.
  - destruct (moduleFromObject key (moduleArchiveFormat s)) as [m|e]; [|apply IH].
    unfold mbind, Go_bind.
    destruct (presignedURL s _ st) as [[url [e|]] st1|st1]; [discriminate| |discriminate].
    intros Hrun. rewrite (IH _ _ Hrun). rewrite map_app, <- app_assoc. reflexivity.
Qed.

Lemma ListModuleVersions_pages_success s prefix pages modules st modules' st' :
  ListModuleVersions_pages s prefix pages modules st = Done (modules', None) st' ->
  forallb page_ok pages = true
  /\ map clear_url modules'
     = map clear_url modules
       ++ map clear_url (parsed_modules (moduleArchiveFormat s) (listed_keys pages)).
Proof.
  revert modules st. induction pages as [|resp more IH]; intros modules st.
  - cbn. intros [= <- _]. by rewrite app_nil_r.
  - change (listed_keys (resp :: more)) with (page_keys resp ++ listed_keys more).
    rewrite parsed_modules_app, map_app.
    set (here := map clear_url (parsed_modules (moduleArchiveFormat s) (page_keys resp))).
    set (later := map clear_url (parsed_modules (moduleArchiveFormat s) (listed_keys more))).
    cbn. unfold mbind, Go_bind. cbn. destruct resp as [contents|err]; cbn; [|discriminate].
    destruct (ListModuleVersions_contents s contents modules _)
      as [[r|modules1] st1|st1] eqn:Hcontents; [| |discriminate].
    + intros [= -> _].
      by destruct (ListModuleVersions_contents_return _ _ _ _ _ _ Hcontents).
    + intros Hrun. destruct (IH _ _ Hrun) as [Hok Hmodules]. split; [exact Hok|].
      rewrite Hmodules, (ListModuleVersions_contents_next _ _ _ _ _ _ Hcontents).
      subst here later. cbn [page_keys]. by rewrite <- app_assoc.
Qed.

(** X6: when ListModuleVersions returns without error, every page was
    fetched and the list holds, download links apart, exactly what the reverse
    parser reads from the listed keys, in listing order: nothing is dropped,
    added or reordered, and a parsed module is not compared with the
    namespace, name and provider of the call. *)
Theorem ListModuleVersions_returns_every_parsed_key
    s namespace name provider st modules st' :
  ListModuleVersions s namespace name provider st = Done (modules, None) st' ->
  let listing :=
    ListObjectsV2 (client s) (bucket s)
      (modulePathPrefix (bucketPrefix s) namespace name provider) (world st) in
  forallb page_ok listing = true
  /\ map clear_url modules
     = map clear_url (parsed_modules (moduleArchiveFormat s) (listed_keys listing)).
Proof.
  intros Hrun listing. exact (ListModuleVersions_pages_success _ _ _ _ _ _ _ Hrun).
Qed.

Lemma parsed_providers_app (keys1 keys2 : list string) :
  parsed_providers (keys1 ++ keys2) = parsed_providers keys1 ++ parsed_providers keys2.
Proof. apply flat_map_app. Qed.

Lemma ListProviderVersions_contents_parsed (contents : list string)
    (collection : Collection) :
  ListProviderVersions_contents contents collection
  = fold_left (fun c provider => Collection_Add provider c) (parsed_providers contents)
      collection.
Proof.
  revert collection. induction contents as [|key rest IH]; intros collection; cbn;
    [reflexivity|].
  destruct (NewProviderFromArchive key) as [provider|e]; cbn; apply IH.
Qed.

Lemma collected_parsed (pages : list page) :
  collected pages = collection_of (parsed_providers (listed_keys pages)).
Proof.
  unfold collected, collection_of. generalize NewCollection.
  induction pages as [|resp more IH]; intros collection; [reflexivity|].
  change (listed_keys (resp :: more)) with (page_keys resp ++ listed_keys more).
  rewrite parsed_providers_app, fold_left_app. cbn [fold_left]. rewrite IH.
  by rewrite ListProviderVersions_contents_parsed.
Qed.

(** X7: once the storage prefix is computed, ListProviderVersions returns
    without error exactly when every page is fetched and the collection of
    the providers that NewProviderFromArchive reads from the listed keys,
    added in listing order to a new collection, has a non-empty list; what it
    returns is then the list of that collection; the backend state is as
    before. *)
Theorem ListProviderVersions_returns_the_collection s namespace name st prefix :
  providerStoragePrefix (bucketPrefix s) internalProviderType "" namespace name
  = Ok prefix ->
  let listing :=
    ListObjectsV2 (client s) (bucket s) (fmt_Sprintf "%s/" [prefix]) (world st) in
  let collection := collection_of (parsed_providers (listed_keys listing)) in
  (forallb page_ok listing = true ->
   Collection_List collection <> [] ->
   exists st',
     ListProviderVersions s namespace name st
     = Done (Collection_List collection, None) st'
     /\ world st' = world st)
  /\ (forall versions st',
        ListProviderVersions s namespace name st = Done (versions, None) st' ->
        forallb page_ok listing = true
        /\ versions = Collection_List collection
        /\ versions <> []).
Proof.
  intros Hprefix listing collection. unfold collection.
  rewrite <- (collected_parsed listing). clear collection. split.
  - intros Hok Hsome. unfold ListProviderVersions. rewrite Hprefix.
    unfold mbind, Go_bind. fold listing.
    rewrite (ListProviderVersions_pages_ok _ _ _ _ _ Hok). fold (collected listing).
    destruct (Collection_List (collected listing)) as [|pv pvs]; [by destruct Hsome|].
    cbn. eauto.
  - intros versions st'. unfold ListProviderVersions. rewrite Hprefix.
    unfold mbind, Go_bind. fold listing.
    destruct (forallb page_ok listing) eqn:Hok.
    + rewrite (ListProviderVersions_pages_ok _ _ _ _ _ Hok). fold (collected listing).
      destruct (Collection_List (collected listing)) as [|pv pvs]; [discriminate|].
      cbn. intros [= <- _]. split; [reflexivity|]. split; [reflexivity | discriminate].
    + assert (Hfailed : exists fetched err more,
                listing = fetched ++ inr err :: more /\ forallb page_ok fetched = true).
      { clear -Hok. induction listing as [|resp more IH]; [discriminate|].
        destruct resp as [contents|err].
        - destruct (IH Hok) as (fetched & err & more' & -> & Hfetched).
          by exists (inl contents :: fetched), err, more'.
        - by exists [], err, more. }
      destruct Hfailed as (fetched & err & more & -> & Hfetched).
      rewrite (ListProviderVersions_pages_failed _ _ _ _ _ _ _ Hfetched). discriminate.
Qed.

Arguments fetched_keys : simpl never.
Arguments module_line : simpl never.
Arguments module_live_line : simpl never.
Arguments provider_line : simpl never.

Lemma MigrateModules_contents_log s dryRun contents st flow st' :
  MigrateModules_contents s dryRun contents st = Done flow st' ->
  match flow with
  | Next _ =>
      logged st' = logged st ++ map (module_line s dryRun) contents
      /\ (dryRun = false ->
          List.filter is_copy (calls st')
          = List.filter is_copy (calls st)
            ++ map (module_copy s)
                 (List.filter (isUnmigratedModule (bucketPrefix s)) contents))
  | Return r =>
      exists e before key after w1,
        r = Some e /\ dryRun = false
        /\ contents = before ++ key :: after
        /\ isUnmigratedModule (bucketPrefix s) key = true
        /\ CopyObject (client s) (bucket s) (url_PathEscape (path_Join [bucket s; key]))
             (migrationTargetPath (bucketPrefix s) (moduleArchiveFormat s) key) w1
           = (Some e, world st')
        /\ last (calls st') = Some (module_copy s key)
        /\ List.filter is_copy (calls st')
           = List.filter is_copy (calls st)
             ++ map (module_copy s)
                  (List.filter (isUnmigratedModule (bucketPrefix s)) before)
             ++ [module_copy s key]
        /\ logged st' = logged st ++ map (module_live_line s) before
  end.
Proof.
  revert st. induction contents as [|key rest IH]; intros st; cbn.
  - intros [= <- <-]. split; [|intros _]; by rewrite app_nil_r.
  - assert (Hline : forall dry, module_line s dry key
                                = if dry then module_dry_run_line s key
                                  else module_live_line s key) by reflexivity.
    unfold module_dry_run_line, module_live_line in Hline.
    destruct (isUnmigratedModule (bucketPrefix s) key) eqn:Hkey; cbn;
      rewrite ?Hkey in Hline.
    + destruct dryRun.
      * unfold mbind, Go_bind. cbn. intros Hrun. specialize (IH _ Hrun).
        destruct flow as [r|[]].
        -- destruct IH as (e & before & k & after & w1 & _ & [=] & _).
        -- destruct IH as [Hlog _]. cbn in Hlog. split; [|discriminate].
           rewrite Hlog, Hline, <- app_assoc. reflexivity.
      * unfold mbind, Go_bind, copyObject, backend. cbn.
        destruct (CopyObject (client s) (bucket s) _ _ (world st)) as [[e|] w'] eqn:Hcopy.
        -- intros [= <- <-]. exists e, [], key, rest, (world st). cbn.
           split; [reflexivity|]. split; [reflexivity|]. split; [reflexivity|].
           split; [exact Hkey|]. split; [exact Hcopy|].
           split; [apply last_snoc|].
           split; [by rewrite List.filter_app | by rewrite app_nil_r].
        -- cbn. intros Hrun. specialize (IH _ Hrun). destruct flow as [r|[]].
           ++ destruct IH as (e & before & k & after & w1 & -> & _ & -> & Hk & Hfail
                              & Hlast & Hcopies & Hlog).
              exists e, (key :: before), k, after, w1.
              split; [reflexivity|]. split; [reflexivity|]. split; [reflexivity|].
              split; [exact Hk|]. split; [exact Hfail|]. split; [exact Hlast|].
              cbn in Hcopies, Hlog. cbn. rewrite Hkey. cbn. split.
              ** rewrite Hcopies, List.filter_app. cbn. by rewrite <- app_assoc.
              ** rewrite Hlog, <- app_assoc. cbn. unfold module_live_line at 2.
                 by rewrite Hkey.
           ++ destruct IH as [Hlog Hcopies]. cbn in Hlog, Hcopies. split.
              ** rewrite Hlog, Hline, <- app_assoc. reflexivity.
              ** intros _. rewrite (Hcopies eq_refl), List.filter_app. cbn.
                 by rewrite <- app_assoc.
    + unfold mbind, Go_bind. cbn. intros Hrun. specialize (IH _ Hrun).
      destruct flow as [r|[]].
      * destruct IH as (e & before & k & after & w1 & -> & -> & -> & Hk & Hfail
                        & Hlast & Hcopies & Hlog).
        exists e, (key :: before), k, after, w1.
        split; [reflexivity|]. split; [reflexivity|]. split; [reflexivity|].
        split; [exact Hk|]. split; [exact Hfail|]. split; [exact Hlast|].
        cbn in Hcopies, Hlog. cbn. rewrite Hkey. split; [exact Hcopies|].
        rewrite Hlog, <- app_assoc. cbn. unfold module_live_line at 2.
        by rewrite Hkey.
      * destruct IH as [Hlog Hcopies]. cbn in Hlog, Hcopies. split; [|exact Hcopies].
        rewrite Hlog, Hline, <- app_assoc. cbn. by destruct dryRun.
Qed.

Lemma MigrateModules_pages_stops s dryRun prefix pages st e st' :
  MigrateModules_pages s dryRun prefix pages st = Done (Some e) st' ->
  (exists perr,
      first_page_error pages = Some perr
      /\ e = page_error perr
      /\ last (calls st') = Some (NextPageCall (bucket s) prefix)
      /\ logged st' = logged st ++ map (module_line s dryRun) (fetched_keys pages))
  \/ (exists before key after w1,
        dryRun = false
        /\ fetched_keys pages = before ++ key :: after
        /\ isUnmigratedModule (bucketPrefix s) key = true
        /\ CopyObject (client s) (bucket s) (url_PathEscape (path_Join [bucket s; key]))
             (migrationTargetPath (bucketPrefix s) (moduleArchiveFormat s) key) w1
           = (Some e, world st')
        /\ last (calls st') = Some (module_copy s key)
        /\ List.filter is_copy (calls st')
           = List.filter is_copy (calls st)
             ++ map (module_copy s)
                  (List.filter (isUnmigratedModule (bucketPrefix s)) before)
             ++ [module_copy s key]
        /\ logged st' = logged st ++ map (module_live_line s) before).
Proof.
  revert st. induction pages as [|resp more IH]; intros st; cbn; [discriminate|].
  unfold mbind, Go_bind. cbn. destruct resp as [contents|perr]; cbn.
  - destruct (MigrateModules_contents s dryRun contents _)
      as [[r|[]] st1|st1] eqn:Hcontents; [| |discriminate];
      apply MigrateModules_contents_log in Hcontents; cbn in Hcontents.
    + intros [= -> <-]. right.
      destruct Hcontents as (e' & before & key & after & w1 & [= <-] & Hdry & ->
                             & Hkey & Hfail & Hlast & Hcopies & Hlog).
      exists before, key, (after ++ fetched_keys more), w1.
      split; [exact Hdry|].
      split; [by rewrite fetched_keys_cons, <- app_assoc|].
      split; [exact Hkey|]. split; [exact Hfail|]. split; [exact Hlast|].
      split; [|exact Hlog].
      rewrite Hcopies, List.filter_app. cbn. by rewrite app_nil_r.
    + destruct Hcontents as [Hlog1 Hcopies1].
      intros Hrun. destruct (IH _ Hrun) as [Hpage|Hcopy].
      * left. destruct Hpage as (perr & Hfirst & He & Hlast & Hlog).
        exists perr. split; [exact Hfirst|]. split; [exact He|].
        split; [exact Hlast|].
        by rewrite Hlog, Hlog1, fetched_keys_cons, map_app, <- app_assoc.
      * right.
        destruct Hcopy as (before & key & after & w1 & Hdry & Hkeys & Hkey & Hfail
                           & Hlast & Hcopies & Hlog).
        specialize (Hcopies1 Hdry). rewrite List.filter_app in Hcopies1.
        cbn in Hcopies1. rewrite app_nil_r in Hcopies1.
        exists (contents ++ before), key, after, w1.
        split; [exact Hdry|].
        split; [by rewrite fetched_keys_cons, Hkeys, <- app_assoc|].
        split; [exact Hkey|]. split; [exact Hfail|]. split; [exact Hlast|].
        split.
        -- rewrite Hcopies, Hcopies1, module_copies_app.
           by rewrite <- !app_assoc.
        -- rewrite Hlog, Hlog1, Hdry, map_app, <- app_assoc. reflexivity.
  - intros [= <- <-]. left. exists perr. split; [reflexivity|].
    split; [reflexivity|]. split; [apply last_snoc|].
    unfold fetched_keys. cbn. by rewrite app_nil_r.
Qed.

Lemma MigrateProviders_contents_log s dryRun contents st flow st' :
  MigrateProviders_contents s dryRun contents st = Done flow st' ->
  exists lines reached,
    logged st' = logged st ++ lines
    /\ map Some lines = map (provider_line s dryRun) reached
    /\ match flow with
       | Next _ => reached = contents
       | Return r =>
           exists e key after,
             r = Some e /\ contents = reached ++ key :: after
             /\ (providerMigrationTargetPath (bucketPrefix s) key = Err e
                 \/ exists directory w1,
                      dryRun = false
                      /\ providerMigrationTargetPath (bucketPrefix s) key = Ok directory
                      /\ CopyObject (client s) (bucket s)
                           (url_PathEscape (path_Join [bucket s; key]))
                           (path_Join [directory; path_Base key]) w1
                         = (Some e, world st')
                      /\ last (calls st')
                         = Some (CopyObjectCall (bucket s)
                                   (url_PathEscape (path_Join [bucket s; key]))
                                   (path_Join [directory; path_Base key])))
       end.
Proof.
  revert st. induction contents as [|key rest IH]; intros st; cbn.
  - intros [= <- <-]. exists [], []. by rewrite app_nil_r.
  - assert (Hline : forall directory,
               providerMigrationTargetPath (bucketPrefix s) key = Ok directory ->
               provider_line s dryRun key
               = Some ["message";
                       if dryRun then "skipping due to dry-run" else "copied module";
                       "source"; key; "target"; path_Join [directory; path_Base key]]).
    { intros directory Hdir.
      unfold provider_line, provider_dry_run_line, provider_live_line, provider_target.
      rewrite Hdir. by destruct dryRun. }
    assert (Hmore : forall st1 line,
               provider_line s dryRun key = Some line ->
               logged st1 = logged st ++ [line] ->
               MigrateProviders_contents s dryRun rest st1 = Done flow st' ->
               exists lines reached,
                 logged st' = logged st ++ lines
                 /\ map Some lines = map (provider_line s dryRun) reached
                 /\ match flow with
                    | Next _ => reached = key :: rest
                    | Return r =>
                        exists e key0 after,
                          r = Some e /\ key :: rest = reached ++ key0 :: after
                          /\ (providerMigrationTargetPath (bucketPrefix s) key0 = Err e
                              \/ exists directory w1,
                                   dryRun = false
                                   /\ providerMigrationTargetPath (bucketPrefix s) key0
                                      = Ok directory
                                   /\ CopyObject (client s) (bucket s)
                                        (url_PathEscape (path_Join [bucket s; key0]))
                                        (path_Join [directory; path_Base key0]) w1
                                      = (Some e, world st')
                                   /\ last (calls st')
                                      = Some (CopyObjectCall (bucket s)
                                                (url_PathEscape (path_Join [bucket s; key0]))
                                                (path_Join [directory; path_Base key0])))
                    end).
    { intros st1 line Hkey Hst1 Hrun.
      destruct (IH _ Hrun) as (lines & reached & Hlog & Hlines & Hflow).
      exists (line :: lines), (key :: reached).
      split; [by rewrite Hlog, Hst1, <- app_assoc|].
      split; [cbn; by rewrite Hkey, Hlines|].
      destruct flow as [r|[]]; [|by rewrite Hflow].
      destruct Hflow as (e & key0 & after & -> & -> & Hcase).
      exists e, key0, after. split; [reflexivity|]. split; [reflexivity | exact Hcase]. }
    destruct (providerMigrationTargetPath (bucketPrefix s) key) as [directory|e0] eqn:Hdir.
    + specialize (Hline directory eq_refl). destruct dryRun.
      * unfold mbind, Go_bind. cbn. intros Hrun.
        eapply Hmore; [exact Hline | | exact Hrun]; reflexivity.
      * unfold mbind, Go_bind, copyObject, backend. cbn.
        destruct (CopyObject (client s) (bucket s) _ _ (world st)) as [[e|] w'] eqn:Hcopy.
        -- intros [= <- <-]. exists [], []. cbn. rewrite app_nil_r.
           split; [reflexivity|]. split; [reflexivity|].
           exists e, key, rest. split; [reflexivity|]. split; [reflexivity|].
           right. exists directory, (world st).
           split; [reflexivity|]. split; [exact Hdir|]. split; [exact Hcopy|].
           apply last_snoc.
        -- cbn. intros Hrun. eapply Hmore; [exact Hline | | exact Hrun]; reflexivity.
    + intros [= <- <-]. exists [], []. rewrite app_nil_r.
      split; [reflexivity|]. split; [reflexivity|].
      exists e0, key, rest. split; [reflexivity|]. split; [reflexivity|]. by left.
Qed.

Lemma MigrateProviders_pages_stops s dryRun prefix pages st e st' :
  MigrateProviders_pages s dryRun prefix pages st = Done (Some e) st' ->
  exists lines reached,
    logged st' = logged st ++ lines
    /\ map Some lines = map (provider_line s dryRun) reached
    /\ ((exists perr,
            first_page_error pages = Some perr
            /\ reached = fetched_keys pages
            /\ e = page_error perr
            /\ last (calls st') = Some (NextPageCall (bucket s) prefix))
        \/ (exists key after,
              fetched_keys pages = reached ++ key :: after
              /\ (providerMigrationTargetPath (bucketPrefix s) key = Err e
                  \/ exists directory w1,
                       dryRun = false
                       /\ providerMigrationTargetPath (bucketPrefix s) key = Ok directory
                       /\ CopyObject (client s) (bucket s)
                            (url_PathEscape (path_Join [bucket s; key]))
                            (path_Join [directory; path_Base key]) w1
                          = (Some e, world st')
                       /\ last (calls st')
                          = Some (CopyObjectCall (bucket s)
                                    (url_PathEscape (path_Join [bucket s; key]))
                                    (path_Join [directory; path_Base key]))))).
Proof.
  revert st. induction pages as [|resp more IH]; intros st; cbn; [discriminate|].
  unfold mbind, Go_bind. cbn. destruct resp as [contents|perr]; cbn.
  - destruct (MigrateProviders_contents s dryRun contents _)
      as [[r|[]] st1|st1] eqn:Hcontents; [| |discriminate];
      apply MigrateProviders_contents_log in Hcontents;
      destruct Hcontents as (lines1 & reached1 & Hlog1 & Hlines1 & Hflow1);
      cbn in Hlog1.
    + intros [= -> <-].
      destruct Hflow1 as (e' & key & after & [= <-] & -> & Hcase).
      exists lines1, reached1. split; [exact Hlog1|]. split; [exact Hlines1|].
      right. exists key, (after ++ fetched_keys more).
      split; [by rewrite fetched_keys_cons, <- app_assoc | exact Hcase].
    + subst reached1. intros Hrun.
      destruct (IH _ Hrun) as (lines & reached & Hlog & Hlines & Hcase).
      exists (lines1 ++ lines), (contents ++ reached).
      split; [by rewrite Hlog, Hlog1, <- app_assoc|].
      split; [by rewrite !map_app, Hlines1, Hlines|].
      destruct Hcase as [(perr & Hfirst & -> & Hrest)|(key & after & Hkeys & Hcase)].
      * left. exists perr. split; [exact Hfirst|].
        split; [by rewrite fetched_keys_cons | exact Hrest].
      * right. exists key, after.
        split; [by rewrite fetched_keys_cons, Hkeys, <- app_assoc | exact Hcase].
  - intros [= <- <-]. exists [], []. cbn. rewrite app_nil_r.
    split; [reflexivity|]. split; [reflexivity|].
    left. exists perr. split; [reflexivity|]. split; [reflexivity|].
    split; [reflexivity | apply last_snoc].
Qed.

(** X8: a migration that returns an error stopped where the error arose,
    and its log says how far it got: one line for each key of the pages
    fetched so far that lies before the point of failure, in listing order,
    and no line for the key it failed on or for a key after it.  For
    MigrateModules the error is either the error of the first page that
    fails, wrapped under "failed to page" so that errors.Is and errors.As
    still see it, the last call being the fetch of that page and the log
    covering the keys of all pages before it; or it is, unwrapped, the error
    of a CopyObject of a live run for a key to migrate, that copy being the
    last call, after the copies of the keys to migrate before it.
    MigrateProviders stops in the same two ways and, besides, on the error of
    the target path of a key, in a dry run as well. *)
Theorem a_failed_migration_stops_at_the_failure s dryRun st e st' :
  (MigrateModules s dryRun st = Done (Some e) st' ->
   let prefix := path_Join [bucketPrefix s; internalModuleType] in
   let listing := ListObjectsV2 (client s) (bucket s) prefix (world st) in
   (exists perr,
       first_page_error listing = Some perr
       /\ e = fmt_Errorf_w "failed to page: %w" [] perr
       /\ errors_As_ResponseError e = errors_As_ResponseError perr
       /\ (forall v, errors_Is e v = errors_Is perr v)
       /\ last (calls st') = Some (NextPageCall (bucket s) prefix)
       /\ logged st' = logged st ++ map (module_line s dryRun) (fetched_keys listing))
   \/ (exists before key after w1,
         dryRun = false
         /\ fetched_keys listing = before ++ key :: after
         /\ isUnmigratedModule (bucketPrefix s) key = true
         /\ CopyObject (client s) (bucket s) (url_PathEscape (path_Join [bucket s; key]))
              (migrationTargetPath (bucketPrefix s) (moduleArchiveFormat s) key) w1
            = (Some e, world st')
         /\ last (calls st') = Some (module_copy s key)
         /\ List.filter is_copy (calls st')
            = List.filter is_copy (calls st)
              ++ map (module_copy s)
                   (List.filter (isUnmigratedModule (bucketPrefix s)) before)
              ++ [module_copy s key]
         /\ logged st' = logged st ++ map (module_live_line s) before))
  /\ (MigrateProviders s dryRun st = Done (Some e) st' ->
      let prefix := path_Join [bucketPrefix s; internalProviderType] in
      let listing := ListObjectsV2 (client s) (bucket s) prefix (world st) in
      exists lines reached,
        logged st' = logged st ++ lines
        /\ map Some lines = map (provider_line s dryRun) reached
        /\ ((exists perr,
                first_page_error listing = Some perr
                /\ reached = fetched_keys listing
                /\ e = fmt_Errorf_w "failed to page: %w" [] perr
                /\ errors_As_ResponseError e = errors_As_ResponseError perr
                /\ (forall v, errors_Is e v = errors_Is perr v)
                /\ last (calls st') = Some (NextPageCall (bucket s) prefix))
            \/ (exists key after,
                  fetched_keys listing = reached ++ key :: after
                  /\ providerMigrationTargetPath (bucketPrefix s) key = Err e)
            \/ (exists key after directory w1,
                  dryRun = false
                  /\ fetched_keys listing = reached ++ key :: after
                  /\ providerMigrationTargetPath (bucketPrefix s) key = Ok directory
                  /\ CopyObject (client s) (bucket s)
                       (url_PathEscape (path_Join [bucket s; key]))
                       (path_Join [directory; path_Base key]) w1
                     = (Some e, world st')
                  /\ last (calls st')
                     = Some (CopyObjectCall (bucket s)
                               (url_PathEscape (path_Join [bucket s; key]))
                               (path_Join [directory; path_Base key]))))).
Proof.
  split.
  - unfold MigrateModules. cbv zeta. intros Hrun.
    destruct (MigrateModules_pages_stops _ _ _ _ _ _ _ Hrun)
      as [(perr & Hfirst & -> & Hlast & Hlog)|Hcopy]; [|by right].
    left. exists perr. split; [exact Hfirst|]. split; [reflexivity|].
    split; [reflexivity|]. split; [reflexivity|]. split; [exact Hlast | exact Hlog].
  - unfold MigrateProviders. cbv zeta. intros Hrun.
    destruct (MigrateProviders_pages_stops _ _ _ _ _ _ _ Hrun)
      as (lines & reached & Hlog & Hlines & Hcase).
    exists lines, reached. split; [exact Hlog|]. split; [exact Hlines|].
    destruct Hcase as [(perr & Hfirst & Hreached & -> & Hlast)
                      |(key & after & Hkeys & [Htarget|Hcopy])].
    + left. exists perr. split; [exact Hfirst|]. split; [exact Hreached|].
      split; [reflexivity|]. split; [reflexivity|]. split; [reflexivity | exact Hlast].
    + right. left. by exists key, after.
    + right. right. destruct Hcopy as (directory & w1 & Hdry & Hdir & Hfail & Hlast).
      exists key, after, directory, w1. auto.
Qed.

Lemma ListProviderVersions_pages_error s prefix pages collection st e st' :
  ListProviderVersions_pages s prefix pages collection st = Done (Err e) st' ->
  exists perr,
    In (inr perr) pages
    /\ e = errors_Wrap (sentinelError ErrProviderListFailed) (Error perr).
Proof.
  revert collection st. induction pages as [|resp more IH]; intros collection st; cbn.
  - discriminate.
  - unfold mbind, Go_bind. cbn. destruct resp as [contents|perr].
    + intros Hrun. destruct (IH _ _ Hrun) as (perr & Hin & He).
      exists perr. split; [by right | exact He].
    + intros [= <- _]. exists perr. split; [by left | reflexivity].
Qed.

Lemma ListModuleVersions_contents_presign_error s contents modules st r st' :
  ListModuleVersions_contents s contents modules st = Done (Return r) st' ->
  exists e key res st1,
    r = ([], Some e)
    /\ PresignGetObject (presignClient s) (bucket s) key (signedURLExpiry s) (world st1)
       = ((Some res, Some e), world st')
    /\ calls st' = calls st1 ++ [PresignGetObjectCall (bucket s) key].
Proof.
  revert modules st. induction contents as [|key rest IH]; intros modules st; cbn.
  - discriminate.
  - destruct (moduleFromObject key (moduleArchiveFormat s)) as [m|e0]; [|apply IH].
    unfold mbind, Go_bind. rewrite presignedURL_run.
    destruct (PresignGetObject _ _ _ _ _) as [[[res|] perr] w'] eqn:Hpresign;
      [|discriminate].
    destruct perr as [e|]; [|apply IH].
    intros [= <- <-]. eexists e, _, res, st. split; [reflexivity|].
    split; [exact Hpresign | reflexivity].
Qed.

(** X9: the error of a failed page does not survive a listing as a value:
    ListProviderVersions and ListModuleVersions keep its message only, under
    ErrProviderListFailed or ErrModuleListFailed, so errors.As finds no
    response error (no HTTP status) in what they return.  After the storage
    prefix is computed, every error of ListProviderVersions is that one or the
    bare "no provider versions found" message; an error of ListModuleVersions
    is that one or, unchanged, the error that a presign call returned next to
    a result. *)
Theorem listing_errors_hide_the_backend_error s st e st' :
  (forall namespace name prefix versions,
      providerStoragePrefix (bucketPrefix s) internalProviderType "" namespace name
      = Ok prefix ->
      ListProviderVersions s namespace name st = Done (versions, Some e) st' ->
      errors_As_ResponseError e = None
      /\ ((exists perr,
              In (inr perr)
                (ListObjectsV2 (client s) (bucket s) (fmt_Sprintf "%s/" [prefix]) (world st))
              /\ e = errors_Wrap (sentinelError ErrProviderListFailed) (Error perr))
          \/ e = fmt_Errorf "no provider versions found for %s/%s" [namespace; name]))
  /\ (forall namespace name provider modules,
        ListModuleVersions s namespace name provider st = Done (modules, Some e) st' ->
        (exists perr,
            In (inr perr)
              (ListObjectsV2 (client s) (bucket s)
                 (modulePathPrefix (bucketPrefix s) namespace name provider) (world st))
            /\ e = errors_Wrap (sentinelError ErrModuleListFailed) (Error perr)
            /\ errors_As_ResponseError e = None)
        \/ (exists key res st1,
              PresignGetObject (presignClient s) (bucket s) key (signedURLExpiry s)
                (world st1)
              = ((Some res, Some e), world st')
              /\ calls st' = calls st1 ++ [PresignGetObjectCall (bucket s) key])).
Proof.
  split.
  - intros namespace name prefix versions Hprefix. unfold ListProviderVersions.
    rewrite Hprefix. unfold mbind, Go_bind.
    destruct (ListProviderVersions_pages _ _ _ _ _) as [[collection|e0] st1|st1] eqn:Hpages;
      [| |discriminate].
    + destruct (length (Collection_List collection) =? 0)%nat; [|discriminate].
      intros [= _ <- _]. split; [reflexivity|]. by right.
    + intros [= _ <- _].
      destruct (ListProviderVersions_pages_error _ _ _ _ _ _ _ Hpages) as (perr & Hin & ->).
      split; [reflexivity|]. left. by exists perr.
  - intros namespace name provider modules. unfold ListModuleVersions.
    generalize (ListObjectsV2 (client s) (bucket s)
                  (modulePathPrefix (bucketPrefix s) namespace name provider) (world st)).
    generalize (modulePathPrefix (bucketPrefix s) namespace name provider).
    intros prefix pages. generalize (@nil core.Mod.t). revert st.
    induction pages as [|resp more IH]; intros st acc; cbn; [discriminate|].
    unfold mbind, Go_bind. cbn. destruct resp as [contents|perr]; cbn.
    + destruct (ListModuleVersions_contents s contents acc _)
        as [[r|acc'] st1|st1] eqn:Hcontents; [| |discriminate].
      * intros [= -> <-].
        destruct (ListModuleVersions_contents_presign_error _ _ _ _ _ _ Hcontents)
          as (e' & key & res & st0 & [= _ <-] & Hpresign & Hcalls).
        right. by exists key, res, st0.
      * intros Hrun. destruct (IH _ _ Hrun) as [(perr & Hin & Hrest)|Hpresign].
        -- left. exists perr. split; [by right | exact Hrest].
        -- by right.
    + intros [= _ <- _]. left. exists perr. split; [by left|]. split; reflexivity.
Qed.

End FurtherProperties.

(** * Further properties on the in-memory bucket *)

Section FurtherMemoryBucket.
Context {lib : GoLib} {pkg : Pkg}.

(** X10: on a backend that does not fail, a provider release file is
    stored once: UploadProviderReleaseFiles of a file that is not there stores
    it under the storage prefix of the provider and returns no error, and a
    second upload under the same namespace, name and filename, whatever its
    content, is refused with ErrProviderAlreadyExists and leaves the stored
    file as it is. *)
Theorem mem_provider_release_is_stored_once
    bkt prefix archiveFormat objs namespace name filename file other directory :
  let s := mem_storage bkt prefix archiveFormat in
  let key := filepath_Join [directory; filename] in
  let w := {| objects := objs; faults := [] |} in
  let w' := {| objects := <[key := file]> objs; faults := [] |} in
  namespace <> "" -> name <> "" -> filename <> "" ->
  providerStoragePrefix prefix internalProviderType "" namespace name = Ok directory ->
  objs !! key = None ->
  UploadProviderReleaseFiles s namespace name filename file (start w)
  = Done None (mkState w' [HeadObjectCall bkt key; UploadCall bkt key file] [])
  /\ UploadProviderReleaseFiles s namespace name filename other (start w')
     = Done (Some (sentinelError ErrProviderAlreadyExists))
         (mkState w' [HeadObjectCall bkt key] []).
Proof.
  intros s key w w' Hns Hname Hfile Hprefix Hfree. split.
  - unfold UploadProviderReleaseFiles. repeat (case_decide; [congruence|]).
    cbn [bucketPrefix s mem_storage]. rewrite Hprefix. fold key.
    unfold mbind at 1. unfold Go_bind. rewrite objectExists_run.
    cbn. unfold mem_HeadObject. cbn. rewrite Hfree. cbn.
    unfold mbind, Go_bind, backend. cbn. reflexivity.
  - unfold UploadProviderReleaseFiles. repeat (case_decide; [congruence|]).
    cbn [bucketPrefix s mem_storage]. rewrite Hprefix. fold key.
    unfold mbind at 1. unfold Go_bind. rewrite objectExists_run.
    cbn. unfold mem_HeadObject. cbn. rewrite lookup_insert_eq. reflexivity.
Qed.

(** X11: GetProvider does not look for the archive.  On a backend that does
    not fail, when the bucket holds the checksums of the version, with a line
    for the archive name, and the signing keys of the namespace, GetProvider
    returns the provider with that checksum, the three presigned links and the
    keys, after three presign calls and two downloads, whether or not the
    archive is in the bucket. *)
Theorem mem_GetProvider_needs_sums_and_keys_only
    bkt prefix archiveFormat objs namespace name version os arch
    archivePath shasumPath shasumSigPath manifest shasum raw keys :
  let s := mem_storage bkt prefix archiveFormat in
  let w := {| objects := objs; faults := [] |} in
  let link := fun key => "https://" +:+ bkt +:+ ".s3.amazonaws.com/" +:+ key in
  namespace <> "" ->
  internalProviderPath prefix namespace name version os arch
  = Ok (archivePath, shasumPath, shasumSigPath) ->
  objs !! shasumPath = Some manifest ->
  readSHASums manifest (path_Base archivePath) = Ok shasum ->
  objs !! signingKeysPath prefix namespace = Some raw ->
  unmarshalSigningKeys raw = (Some keys, None) ->
  GetProvider s namespace name version os arch (start w)
  = Done (core.Provider.Build namespace name version os arch shasum
            (path_Base archivePath) (link archivePath) (link shasumPath)
            (link shasumSigPath) (Some keys),
          None)
      (mkState w
         [PresignGetObjectCall bkt archivePath; PresignGetObjectCall bkt shasumPath;
          PresignGetObjectCall bkt shasumSigPath; DownloadCall bkt shasumPath;
          DownloadCall bkt (signingKeysPath prefix namespace)] []).
Proof.
  intros s w link Hns Hpath Hsums Hline Hkeys Hdecode.
  unfold GetProvider. cbn [bucketPrefix s mem_storage]. rewrite Hpath.
  unfold SigningKeys, download, presignedURL. go_unfold. cbn.
  rewrite Hsums. cbn. rewrite Hline.
  case_decide; [congruence|]. cbn. rewrite Hkeys. cbn. rewrite Hdecode. reflexivity.
Qed.

End FurtherMemoryBucket.

(** * The environment variable of a flag *)

Lemma env_byte_facts (c : ascii) :
  is_ascii_byte c = true ->
  let u := upper_byte (if Ascii.eqb c "-" then "_"%char else c) in
  is_ascii_byte u = true /\ is_lower_byte u = false /\ Ascii.eqb u "-" = false
  /\ upper_byte u = u.
Proof.
  destruct c as [[] [] [] [] [] [] [] []]; intros Hc; vm_compute in Hc;
    try discriminate; vm_compute; repeat split; reflexivity.
Qed.

Lemma envVarSuffix_ascii (unicode_ToUpper : string -> string) (name : string) :
  isASCII name = true ->
  envVarSuffix unicode_ToUpper name = upper_bytes (strings_ReplaceAll_byte name "-" "_")
  /\ isASCII (upper_bytes (strings_ReplaceAll_byte name "-" "_")) = true.
Proof.
  intros Hname. unfold envVarSuffix, strings_ToUpper.
  assert (Hreplaced : isASCII (strings_ReplaceAll_byte name "-" "_") = true).
  { induction name as [|c rest IH]; [reflexivity|].
    cbn in Hname |- *. apply andb_true_iff in Hname as [Hc Hrest].
    rewrite (IH Hrest), andb_true_r. by destruct (Ascii.eqb c "-"). }
  rewrite Hreplaced. split; [reflexivity|].
  induction name as [|c rest IH]; [reflexivity|].
  cbn in Hname |- *. apply andb_true_iff in Hname as [Hc Hrest].
  cbn in Hreplaced. apply andb_true_iff in Hreplaced as [_ Hreplaced].
  rewrite (IH Hrest Hreplaced), andb_true_r.
  exact (proj1 (env_byte_facts c Hc)).
Qed.

(** X12: for a flag name of ASCII bytes, the suffix of its environment
    variable has the length of the name, holds no dash and no lower case
    letter, and is its own suffix: names that differ only in the case of
    letters or in dashes against underscores are bound to one variable. *)
Theorem envVarSuffix_is_upper_snake_case (unicode_ToUpper : string -> string) (name : string) :
  isASCII name = true ->
  String.length (envVarSuffix unicode_ToUpper name) = String.length name
  /\ (forall c, In c (String.list_ascii_of_string (envVarSuffix unicode_ToUpper name)) ->
        c <> "-"%char /\ is_lower_byte c = false)
  /\ envVarSuffix unicode_ToUpper (envVarSuffix unicode_ToUpper name)
     = envVarSuffix unicode_ToUpper name
  /\ envVarSuffix unicode_ToUpper (strings_ReplaceAll_byte name "-" "_")
     = envVarSuffix unicode_ToUpper name
  /\ envVarSuffix unicode_ToUpper (upper_bytes name) = envVarSuffix unicode_ToUpper name.
Proof.
  intros Hname.
  destruct (envVarSuffix_ascii unicode_ToUpper name Hname) as [Hsuffix Hascii].
  assert (Hagain :
    envVarSuffix unicode_ToUpper (upper_bytes (strings_ReplaceAll_byte name "-" "_"))
    = upper_bytes (strings_ReplaceAll_byte name "-" "_")).
  { rewrite (proj1 (envVarSuffix_ascii unicode_ToUpper _ Hascii)).
    clear Hsuffix Hascii. induction name as [|c rest IH]; [reflexivity|].
    cbn in Hname |- *. apply andb_true_iff in Hname as [Hc Hrest].
    rewrite (IH Hrest).
    destruct (env_byte_facts c Hc) as (_ & _ & Hdash & Hupper).
    cbv zeta in Hdash, Hupper. rewrite Hdash, Hupper. reflexivity. }
  rewrite Hsuffix. split; [|split; [|split; [exact Hagain|split]]].
  - clear. induction name as [|c rest IH]; [reflexivity|]. cbn. by rewrite IH.
  - clear Hsuffix Hascii Hagain. induction name as [|c rest IH]; [intros c []|].
    cbn in Hname. apply andb_true_iff in Hname as [Hc Hrest].
    intros c' [<-|Hin]; [|exact (IH Hrest c' Hin)].
    destruct (env_byte_facts c Hc) as (_ & Hlower & Hdash & _).
    cbv zeta in Hlower, Hdash. split; [|exact Hlower].
    intros Heq. rewrite Heq in Hdash. discriminate.
  - assert (Hreplaced : isASCII (strings_ReplaceAll_byte name "-" "_") = true).
    { clear -Hname. induction name as [|c rest IH]; [reflexivity|].
      cbn in Hname |- *. apply andb_true_iff in Hname as [Hc Hrest].
      rewrite (IH Hrest), andb_true_r. by destruct (Ascii.eqb c "-"). }
    rewrite (proj1 (envVarSuffix_ascii unicode_ToUpper _ Hreplaced)). f_equal.
    clear. induction name as [|c rest IH]; [reflexivity|]. cbn. rewrite IH.
    destruct (Ascii.eqb c "-") eqn:Hc; [reflexivity|]. by rewrite Hc.
  - assert (Hupper : isASCII (upper_bytes name) = true).
    { clear -Hname. induction name as [|c rest IH]; [reflexivity|].
      cbn in Hname |- *. apply andb_true_iff in Hname as [Hc Hrest].
      rewrite (IH Hrest), andb_true_r. clear -Hc.
      destruct c as [[] [] [] [] [] [] [] []]; vm_compute in Hc; try discriminate;
        reflexivity. }
    rewrite (proj1 (envVarSuffix_ascii unicode_ToUpper _ Hupper)).
    clear -Hname. induction name as [|c rest IH]; [reflexivity|].
    cbn in Hname |- *. apply andb_true_iff in Hname as [Hc Hrest].
    rewrite (IH Hrest). f_equal. clear -Hc.
    destruct c as [[] [] [] [] [] [] [] []]; vm_compute in Hc; try discriminate;
      reflexivity.
Qed.

(** * Runs on the in-memory bucket and on the mocks *)

#[local] Existing Instance stdlib.
#[local] Existing Instance registry.

(** C1: on a registry configured for zip archives, UploadModule of a module
    that is not there writes the object under the key of the default format
    (tar.gz) and then looks for it under the zip key: it returns
    ErrModuleNotFound although the upload went through, GetModule with the
    same coordinates returns ErrModuleNotFound as well, and a second
    UploadModule uploads again instead of failing with
    ErrModuleAlreadyExists. *)
Theorem UploadModule_zip_registry_loses_module :
  let run :=
    UploadModule zip_registry "hashicorp" "consul" "aws" "1.0.0" "BODY"
      (start empty_bucket) in
  let again :=
    UploadModule zip_registry "hashicorp" "consul" "aws" "1.0.0" "OTHER"
      (start (world (final run))) in
  returned run = Some (core.Mod.zero, Some (sentinelError ErrModuleNotFound))
  /\ calls (final run)
     = [HeadObjectCall "registry" consul_zip;
        UploadCall "registry" consul_targz "BODY";
        HeadObjectCall "registry" consul_zip]
  /\ objects (world (final run)) !! consul_targz = Some "BODY"
  /\ objects (world (final run)) !! consul_zip = None
  /\ returned
       (GetModule zip_registry "hashicorp" "consul" "aws" "1.0.0"
          (start (world (final run))))
     = Some (core.Mod.zero, Some (sentinelError ErrModuleNotFound))
  /\ returned again = Some (core.Mod.zero, Some (sentinelError ErrModuleNotFound))
  /\ List.filter is_upload (calls (final again))
     = [UploadCall "registry" consul_targz "OTHER"]
  /\ objects (world (final again)) !! consul_targz = Some "OTHER".
Proof. vm_compute. repeat split; reflexivity. Qed.

(** C2, a defect of the code: the bucket holds the consul module, the
    HeadObject of the pre-existence check is answered with a 503, and
    UploadModule, which takes every error of its check for absence, uploads
    over the stored object and returns the module without error, where the
    claim has it fail with ErrModuleAlreadyExists and leave the object as it
    was. *)
Lemma UploadModule_overwrites_after_failed_check :
  let run :=
    UploadModule targz_registry "hashicorp" "consul" "aws" "1.0.0" "NEW"
      (start throttled_consul_bucket) in
  objects throttled_consul_bucket !! consul_targz = Some "OLD"
  /\ returned run
     = Some (core.Mod.Build "hashicorp" "consul" "aws" "1.0.0"
               ("https://registry.s3.amazonaws.com/" +:+ consul_targz),
             None)
  /\ calls (final run)
     = [HeadObjectCall "registry" consul_targz;
        UploadCall "registry" consul_targz "NEW";
        HeadObjectCall "registry" consul_targz;
        PresignGetObjectCall "registry" consul_targz]
  /\ objects (world (final run)) !! consul_targz = Some "NEW".
Proof. vm_compute. repeat split; reflexivity. Qed.

Lemma UploadModule_found_is_rejected_witness :
  ("hashicorp" <> "" /\ "consul" <> "" /\ "aws" <> "" /\ "1.0.0" <> "")
  /\ HeadObject (client targz_registry) (bucket targz_registry) consul_targz
       (world (start consul_bucket)) = (None, consul_bucket)
  /\ PresignGetObject (presignClient targz_registry) (bucket targz_registry)
       consul_targz (signedURLExpiry targz_registry) consul_bucket
     = ((Some {| URL := "https://registry.s3.amazonaws.com/" +:+ consul_targz |},
         None), consul_bucket)
  /\ exists st',
       UploadModule targz_registry "hashicorp" "consul" "aws" "1.0.0" "NEW"
         (start consul_bucket)
       = Done (core.Mod.zero,
               Some (withMessage (sentinelError ErrModuleAlreadyExists) consul_targz))
           st'
       /\ world st' = consul_bucket
       /\ List.filter is_upload (calls st') = [].
Proof.
  assert (Hhead :
    HeadObject (client targz_registry) (bucket targz_registry) consul_targz
      (world (start consul_bucket)) = (None, consul_bucket))
    by (vm_compute; reflexivity).
  assert (Hpresign :
    PresignGetObject (presignClient targz_registry) (bucket targz_registry)
      consul_targz (signedURLExpiry targz_registry) consul_bucket
    = ((Some {| URL := "https://registry.s3.amazonaws.com/" +:+ consul_targz |},
        None), consul_bucket))
    by (vm_compute; reflexivity).
  split; [repeat split; discriminate|].
  split; [exact Hhead|]. split; [exact Hpresign|].
  destruct (UploadModule_found_is_rejected (lib := stdlib) (pkg := registry) targz_registry
              "hashicorp" "consul" "aws" "1.0.0" "NEW" (start consul_bucket)
              consul_bucket _ consul_bucket
              ltac:(discriminate) ltac:(discriminate) ltac:(discriminate)
              ltac:(discriminate) Hhead Hpresign)
    as (err & st' & Hrun & -> & _ & Hworld & _ & Huploads).
  exists st'. split; [exact Hrun|]. split; [exact Hworld | exact Huploads].
Defined.


(** C4 fails as stated: on an empty bucket ListProviderVersions returns an
    error that is a bare message, and SigningKeys returns the 404 of the
    backend under two messages; neither has a package-level error value in
    its chain. *)
Lemma not_found_without_a_type :
  (returned (ListProviderVersions targz_registry "hashicorp" "random" (start empty_bucket))
   = Some ([], Some (errorString "no provider versions found for hashicorp/random"))
   /\ untyped (errorString "no provider versions found for hashicorp/random"))
  /\ exists err,
       returned (SigningKeys targz_registry "hashicorp" (start empty_bucket))
       = Some (None, Some err)
       /\ untyped err
       /\ errors_As_ResponseError err = Some StatusNotFound.
Proof.
  split.
  - split; [vm_compute; reflexivity | intros v; reflexivity].
  - eexists. split; [vm_compute; reflexivity|].
    split; [intros v; reflexivity | reflexivity].
Qed.

Lemma typed_and_untyped_outcomes_witness :
  (HeadObject (client (mock nothing_there)) "registry" consul_targz tt
   = (Some (ResponseError 404 "NotFound"), tt)
   /\ returned (GetModule (mock nothing_there) "hashicorp" "consul" "aws" "1.0.0" (start tt))
      = Some (core.Mod.zero, Some (sentinelError ErrModuleNotFound)))
  /\ (exists m st1,
        GetModule targz_registry "hashicorp" "consul" "aws" "1.0.0" (start consul_bucket)
        = Done (m, None) st1
        /\ exists err,
             UploadModule targz_registry "hashicorp" "consul" "aws" "1.0.0" "NEW"
               (start consul_bucket)
             = Done (core.Mod.zero, Some err) st1
             /\ errors_Is err ErrModuleAlreadyExists = true)
  /\ (HeadObject (client (mock presign_warns)) "registry"
        "providers/hashicorp/random/terraform-provider-random_2.0.0_linux_amd64.zip" tt
      = (None, tt)
      /\ returned
           (UploadProviderReleaseFiles (mock presign_warns) "hashicorp" "random"
              "terraform-provider-random_2.0.0_linux_amd64.zip" "ZIP" (start tt))
         = Some (Some (sentinelError ErrProviderAlreadyExists)))
  /\ (exists err,
        returned (ListProviderVersions (mock only_foreign_keys) "hashicorp" "random" (start tt))
        = Some ([], Some err)
        /\ untyped err)
  /\ (Download (downloader (mock nothing_there)) "registry"
        "providers/hashicorp/signing-keys.json" tt
      = (("", Some (ResponseError 404 "NoSuchKey")), tt)
      /\ exists err,
           returned (SigningKeys (mock nothing_there) "hashicorp" (start tt))
           = Some (None, Some err)
           /\ errors_As_ResponseError err = Some StatusNotFound).
Proof.
  split; [|split; [|split; [|split]]].
  - split; [reflexivity|].
    destruct (proj1 (typed_and_untyped_outcomes (lib := stdlib) (pkg := registry) (mock nothing_there))
                "hashicorp" "consul" "aws" "1.0.0" (start tt)
                (ResponseError 404 "NotFound") tt ltac:(reflexivity) ltac:(reflexivity)) as [st' Hrun].
    by rewrite Hrun.
  - eexists _, _. split; [vm_compute; reflexivity|].
    eapply (proj1 (proj2 (typed_and_untyped_outcomes (lib := stdlib) (pkg := registry) targz_registry))
              "hashicorp" "consul" "aws" "1.0.0" "NEW" (start consul_bucket));
      [discriminate..|vm_compute; reflexivity].
  - split; [reflexivity|].
    destruct (proj1 (proj2 (proj2 (typed_and_untyped_outcomes (lib := stdlib) (pkg := registry) (mock presign_warns))))
                "hashicorp" "random" "terraform-provider-random_2.0.0_linux_amd64.zip"
                "ZIP" (start tt) "providers/hashicorp/random" tt
                ltac:(discriminate) ltac:(discriminate) ltac:(discriminate)
                ltac:(reflexivity) ltac:(reflexivity)) as [st' Hrun].
    by rewrite Hrun.
  - assert (Hprefix :
      providerStoragePrefix (bucketPrefix (mock only_foreign_keys)) internalProviderType
        "" "hashicorp" "random" = Ok "providers/hashicorp/random") by reflexivity.
    destruct (proj1 (proj2 (proj2 (proj2 (typed_and_untyped_outcomes (lib := stdlib) (pkg := registry) (mock only_foreign_keys)))))
                "hashicorp" "random" (start tt) "providers/hashicorp/random" Hprefix
                ltac:(reflexivity) ltac:(reflexivity))
      as (err & st' & Hrun & _ & Huntyped & _).
    exists err. by rewrite Hrun.
  - split; [reflexivity|].
    destruct (proj2 (proj2 (proj2 (proj2 (typed_and_untyped_outcomes (lib := stdlib) (pkg := registry) (mock nothing_there)))))
                "hashicorp" (start tt) "" (ResponseError 404 "NoSuchKey") tt
                ltac:(discriminate) ltac:(reflexivity)) as (err & st' & Hrun & Has & _).
    exists err. by rewrite Hrun.
Defined.

Lemma empty_listing_asymmetry_witness :
  Forall (page_without (is_module_key "tar.gz"))
    (ListObjectsV2 (client (mock only_foreign_keys)) "registry"
       "modules/hashicorp/consul/aws" tt)
  /\ Forall (page_without is_provider_key)
       (ListObjectsV2 (client (mock only_foreign_keys)) "registry"
          "providers/hashicorp/random/" tt)
  /\ returned (ListModuleVersions (mock only_foreign_keys) "hashicorp" "consul" "aws" (start tt))
     = Some ([], None)
  /\ returned (ListProviderVersions (mock only_foreign_keys) "hashicorp" "random" (start tt))
     = Some ([], Some (errorString "no provider versions found for hashicorp/random")).
Proof.
  assert (Hmodules :
    Forall (page_without (is_module_key "tar.gz"))
      (ListObjectsV2 (client (mock only_foreign_keys)) "registry"
         "modules/hashicorp/consul/aws" tt))
    by (repeat constructor).
  assert (Hproviders :
    Forall (page_without is_provider_key)
      (ListObjectsV2 (client (mock only_foreign_keys)) "registry"
         "providers/hashicorp/random/" tt))
    by (repeat constructor).
  split; [exact Hmodules|]. split; [exact Hproviders|]. split.
  - destruct (proj1 (empty_listing_asymmetry (lib := stdlib) (pkg := registry) (mock only_foreign_keys))
                "hashicorp" "consul" "aws" (start tt) Hmodules) as [st' Hrun].
    by rewrite Hrun.
  - destruct (proj1 (proj2 (empty_listing_asymmetry (lib := stdlib) (pkg := registry) (mock only_foreign_keys)))
                "hashicorp" "random" (start tt) "providers/hashicorp/random"
                ltac:(reflexivity) ltac:(reflexivity) Hproviders) as [st' Hrun].
    by rewrite Hrun.
Defined.

Lemma listing_skips_keys_and_aborts_on_page_failure_witness :
  is_module_key "tar.gz" "modules/README.md" = false
  /\ ListModuleVersions_pages targz_registry "modules"
       [inl ["modules/README.md"; consul_targz]] [] (start consul_bucket)
     = ListModuleVersions_pages targz_registry "modules"
         [inl [consul_targz]] [] (start consul_bucket)
  /\ ListObjectsV2 (client (mock second_page_fails)) "registry"
       "modules/hashicorp/consul/aws" tt
     = [inl ["README.md"]] ++ inr (errorString "connection reset") :: [inl [consul_targz]]
  /\ returned (ListModuleVersions (mock second_page_fails) "hashicorp" "consul" "aws" (start tt))
     = Some ([], Some (withMessage (sentinelError ErrModuleListFailed) "connection reset"))
  /\ returned (ListProviderVersions (mock second_page_fails) "hashicorp" "random" (start tt))
     = Some ([], Some (withMessage (sentinelError ErrProviderListFailed) "connection reset")).
Proof.
  split; [reflexivity|]. split; [|split; [reflexivity|split]].
  - exact (proj1 (listing_skips_keys_and_aborts_on_page_failure (lib := stdlib) (pkg := registry) targz_registry)
             "modules" [] [] "modules/README.md" [consul_targz] [] []
             (start consul_bucket) ltac:(reflexivity)).
  - destruct (proj2 (proj1 (proj2 (proj2
                (listing_skips_keys_and_aborts_on_page_failure (lib := stdlib) (pkg := registry) (mock second_page_fails))))
                "hashicorp" "consul" "aws" (start tt)
                [inl ["README.md"]] (errorString "connection reset")
                [inl [consul_targz]] ltac:(reflexivity))
                ltac:(repeat constructor)) as [st' Hrun].
    by rewrite Hrun.
  - destruct (proj2 (proj2 (proj2
                (listing_skips_keys_and_aborts_on_page_failure (lib := stdlib) (pkg := registry) (mock second_page_fails))))
                "hashicorp" "random" (start tt) "providers/hashicorp/random"
                [inl ["README.md"]] (errorString "connection reset")
                [inl [consul_targz]] ltac:(reflexivity) ltac:(reflexivity) ltac:(reflexivity)) as [st' Hrun].
    by rewrite Hrun.
Defined.

Lemma objectExists_not_found_only_witness :
  HeadObject (client (mock access_denied)) (bucket (mock access_denied)) consul_targz
    (world (start tt))
  = (Some (ResponseError 403 "AccessDenied"), tt)
  /\ objectExists (mock access_denied) consul_targz (start tt)
     = Done (false, Some (ResponseError 403 "AccessDenied"))
         (after_call (start tt) (HeadObjectCall "registry" consul_targz) tt)
  /\ objectExists (mock nothing_there) consul_targz (start tt)
     = Done (false, None)
         (after_call (start tt) (HeadObjectCall "registry" consul_targz) tt).
Proof.
  split; [reflexivity|]. split.
  - destruct (objectExists_not_found_only (mock access_denied) consul_targz (start tt)
                (Some (ResponseError 403 "AccessDenied")) tt ltac:(reflexivity))
      as (r & Hrun & _ & _ & Hother & _).
    rewrite Hrun. by rewrite (Hother _ ltac:(reflexivity) ltac:(discriminate)).
  - destruct (objectExists_not_found_only (mock nothing_there) consul_targz (start tt)
                (Some (ResponseError 404 "NotFound")) tt ltac:(reflexivity))
      as (r & Hrun & _ & Hnf & _ & _).
    rewrite Hrun. by rewrite (Hnf _ ltac:(reflexivity) ltac:(reflexivity)).
Defined.

Lemma presign_nil_result_panics_witness :
  PresignGetObject (presignClient (mock presign_fails)) "registry" consul_targz 30 tt
  = ((None, Some (errorString "failed to sign request")), tt)
  /\ returned (presignedURL (mock presign_fails) consul_targz (start tt)) = None
  /\ returned (presignedURL (mock presign_warns) consul_targz (start tt))
     = Some ("https://signed/stale", Some (errorString "clock skew"))
  /\ returned (GetModule (mock presign_fails) "hashicorp" "consul" "aws" "1.0.0" (start tt))
     = None
  /\ returned (ListModuleVersions (mock presign_fails) "hashicorp" "consul" "aws" (start tt))
     = None
  /\ returned (GetProvider (mock presign_fails) "hashicorp" "random" "2.0.0" "linux" "amd64"
                 (start tt))
     = None.
Proof.
  destruct (presign_nil_result_panics (lib := stdlib) (pkg := registry) (mock presign_fails))
    as (Hhelper & _ & Hget & Hlist & _ & Hprovider).
  split; [reflexivity|]. split; [|split; [|split; [|split]]].
  - by rewrite (Hhelper consul_targz (start tt) _ tt ltac:(reflexivity)).
  - destruct (proj1 (proj2 (presign_nil_result_panics (lib := stdlib) (pkg := registry) (mock presign_warns)))
                consul_targz (start tt) "https://signed/stale"
                (errorString "clock skew")
                (after_call (start tt) (PresignGetObjectCall "registry" consul_targz) tt)
                ltac:(reflexivity)) as (r & w' & Hpresign & Hurl).
    reflexivity.
  - destruct (Hget "hashicorp" "consul" "aws" "1.0.0" (start tt) tt
                (errorString "failed to sign request") tt ltac:(reflexivity) ltac:(reflexivity)) as [st' Hrun].
    by rewrite Hrun.
  - destruct (Hlist "hashicorp" "consul" "aws" (start tt)
                ["modules/README.md"] consul_targz ["modules/notes.txt"] []
                (core.Mod.Build "hashicorp" "consul" "aws" "1.0.0" "")
                (errorString "failed to sign request") tt
                ltac:(reflexivity) ltac:(repeat constructor) ltac:(reflexivity) ltac:(reflexivity)) as [st' Hrun].
    by rewrite Hrun.
  - destruct (proj1 (Hprovider "hashicorp" "random" "2.0.0" "linux" "amd64" (start tt)
                       _ _ _ ltac:(reflexivity))
                (errorString "failed to sign request") tt ltac:(reflexivity))
      as [st' Hrun].
    by rewrite Hrun.
Defined.

Lemma UploadModule_drops_check_error_witness :
  ("hashicorp" <> "" /\ "consul" <> "" /\ "aws" <> "" /\ "1.0.0" <> "")
  /\ GetModule (mock access_denied) "hashicorp" "consul" "aws" "1.0.0" (start tt)
     = Done (core.Mod.zero, Some (ResponseError 403 "AccessDenied"))
         (after_call (start tt) (HeadObjectCall "registry" consul_targz) tt)
  /\ [HeadObjectCall "registry" consul_targz; UploadCall "registry" consul_targz "BODY"]
       `prefix_of`
       calls (final (UploadModule (mock access_denied) "hashicorp" "consul" "aws" "1.0.0"
                       "BODY" (start tt))).
Proof.
  split; [repeat split; discriminate|]. split; [reflexivity|].
  exact (proj2 (UploadModule_drops_check_error (lib := stdlib) (pkg := registry) (mock access_denied)
                  "hashicorp" "consul" "aws" "1.0.0" "BODY" (start tt)
                  core.Mod.zero (ResponseError 403 "AccessDenied")
                  (after_call (start tt) (HeadObjectCall "registry" consul_targz) tt)
                  ltac:(discriminate) ltac:(discriminate) ltac:(discriminate)
                  ltac:(discriminate) ltac:(reflexivity))).
Defined.

(** C8 fails as stated: the bucket holds a file at the top of the provider
    tree and, listed after it, one archive that has a target; a dry run of
    MigrateProviders stops at the file with the error of its target path and
    has reported nothing, the archive included.  And a dry run of
    MigrateModules whose second page fails returns the error of that page
    after the line of the one key of the first page. *)
Lemma dry_run_stops_before_listed_keys :
  let run := MigrateProviders targz_registry true (start readme_bucket) in
  let paged := MigrateModules (mock second_page_fails) true (start tt) in
  listed_keys (ListObjectsV2 (client targz_registry) "registry" "providers" readme_bucket)
  = ["providers/README"; random_archive]
  /\ provider_dry_run_line targz_registry random_archive
     = Some ["message"; "skipping due to dry-run"; "source"; random_archive;
             "target"; random_archive]
  /\ returned run = Some (Some (errorString "not a provider object: providers/README"))
  /\ logged (final run) = []
  /\ returned paged = Some (Some (page_error (errorString "connection reset")))
  /\ logged (final paged)
     = [["message"; "skipping due to dry-run"; "source"; "README.md";
         "target"; "modules/README.md"]].
Proof. vm_compute. repeat split; reflexivity. Qed.

Lemma dry_run_copies_nothing_and_reports_witness :
  (exists st',
      MigrateModules targz_registry true (start legacy_bucket) = Done None st'
      /\ world st' = legacy_bucket
      /\ List.filter is_copy (calls st') = []
      /\ logged st'
         = [["message"; "skipping due to dry-run"; "source"; legacy_key;
             "target"; consul_targz]])
  /\ (exists st',
        MigrateProviders targz_registry true (start readme_bucket)
        = Done (Some (errorString "not a provider object: providers/README")) st'
        /\ world st' = readme_bucket
        /\ List.filter is_copy (calls st') = []
        /\ logged st' = []).
Proof.
  split.
  - destruct (proj1 (dry_run_copies_nothing_and_reports (lib := stdlib) (pkg := registry)
                       targz_registry (start legacy_bucket)))
      as (st' & Hrun & Hworld & _ & Hcopies & Hlog & _).
    exists st'. vm_compute in Hrun, Hlog. vm_compute.
    split; [exact Hrun|]. split; [exact Hworld|]. split; [exact Hcopies | exact Hlog].
  - destruct (proj2 (dry_run_copies_nothing_and_reports (lib := stdlib) (pkg := registry)
                       targz_registry (start readme_bucket)))
      as (st' & lines & Hrun & Hworld & _ & Hcopies & Hlog & Hlines & _).
    exists st'. vm_compute in Hrun, Hlines. destruct lines; [|discriminate].
    vm_compute. split; [exact Hrun|]. split; [exact Hworld|].
    split; [exact Hcopies | exact Hlog].
Defined.


(** * Runs for the further properties *)

Lemma an_error_comes_with_the_zero_value_witness :
  GetModule (mock nothing_there) "hashicorp" "consul" "aws" "1.0.0" (start tt)
  = Done (core.Mod.zero, Some (sentinelError ErrModuleNotFound))
      (after_call (start tt) (HeadObjectCall "registry" consul_targz) tt)
  /\ core.Mod.zero = core.Mod.zero.
Proof.
  split; [reflexivity|].
  exact (proj1 (an_error_comes_with_the_zero_value (lib := stdlib) (pkg := registry)
                  (mock nothing_there) (start tt) (sentinelError ErrModuleNotFound)
                  (after_call (start tt) (HeadObjectCall "registry" consul_targz) tt))
           "hashicorp" "consul" "aws" "1.0.0" core.Mod.zero ltac:(reflexivity)).
Defined.

Lemma a_result_has_the_requested_coordinates_witness :
  exists m st',
    GetModule targz_registry "hashicorp" "consul" "aws" "1.0.0" (start consul_bucket)
    = Done (m, None) st'
    /\ m = core.Mod.Build "hashicorp" "consul" "aws" "1.0.0" (core.Mod.DownloadURL m).
Proof.
  eexists _, _. split; [vm_compute; reflexivity|].
  eapply (proj1 (a_result_has_the_requested_coordinates (lib := stdlib) (pkg := registry)
                   targz_registry (start consul_bucket) _)).
  vm_compute. reflexivity.
Defined.

Lemma UploadProviderReleaseFiles_uploads_only_when_absent_witness :
  ("hashicorp" <> "" /\ "random" <> "" /\ "terraform-provider-random_2.0.0_SHA256SUMS" <> "")
  /\ HeadObject (client (mock access_denied)) "registry" random_sums tt
     = (Some (ResponseError 403 "AccessDenied"), tt)
  /\ calls (final (UploadProviderReleaseFiles (mock access_denied) "hashicorp" "random"
                     "terraform-provider-random_2.0.0_SHA256SUMS" "SUMS" (start tt)))
     = [HeadObjectCall "registry" random_sums]
  /\ returned (UploadProviderReleaseFiles (mock access_denied) "hashicorp" "random"
                 "terraform-provider-random_2.0.0_SHA256SUMS" "SUMS" (start tt))
     = Some (Some (ResponseError 403 "AccessDenied")).
Proof.
  split; [repeat split; discriminate|]. split; [reflexivity|].
  destruct (UploadProviderReleaseFiles_uploads_only_when_absent
              (lib := stdlib) (pkg := registry) (mock access_denied)
              "hashicorp" "random" "terraform-provider-random_2.0.0_SHA256SUMS" "SUMS"
              (start tt) "providers/hashicorp/random"
              (Some (ResponseError 403 "AccessDenied")) tt
              ltac:(discriminate) ltac:(discriminate) ltac:(discriminate)
              ltac:(reflexivity) ltac:(reflexivity))
    as (Hcalls & _ & Hother & _).
  split; [exact Hcalls|].
  exact (proj1 (Hother _ ltac:(reflexivity) ltac:(reflexivity))).
Defined.

Lemma ListModuleVersions_returns_every_parsed_key_witness :
  exists modules st',
    ListModuleVersions targz_registry "hashicorp" "consul" "aws" (start two_providers_bucket)
    = Done (modules, None) st'
    /\ map clear_url modules
       = [core.Mod.Build "hashicorp" "consul" "aws" "1.0.0" "";
          core.Mod.Build "hashicorp" "consul" "aws2" "1.0.0" ""].
Proof.
  eexists _, _. split; [vm_compute; reflexivity|].
  etrans.
  - eapply (ListModuleVersions_returns_every_parsed_key (pkg := registry)
              targz_registry "hashicorp" "consul" "aws" (start two_providers_bucket)).
    vm_compute. reflexivity.
  - vm_compute. reflexivity.
Defined.

Lemma ListProviderVersions_returns_the_collection_witness :
  providerStoragePrefix (bucketPrefix targz_registry) internalProviderType "" "hashicorp"
    "random" = Ok "providers/hashicorp/random"
  /\ exists st',
       ListProviderVersions targz_registry "hashicorp" "random" (start archives_bucket)
       = Done ([{| pv_version := "1.0.0";
                   pv_platforms := [{| platform_os := "linux"; platform_arch := "amd64" |}] |};
                {| pv_version := "1.2.0";
                   pv_platforms := [{| platform_os := "darwin"; platform_arch := "arm64" |};
                                    {| platform_os := "linux"; platform_arch := "amd64" |}] |}],
               None) st'.
Proof.
  split; [reflexivity|].
  destruct (proj1 (ListProviderVersions_returns_the_collection
                     (lib := stdlib) (pkg := registry) targz_registry
                     "hashicorp" "random" (start archives_bucket)
                     "providers/hashicorp/random" ltac:(reflexivity))
              ltac:(vm_compute; reflexivity) ltac:(vm_compute; discriminate))
    as (st' & Hrun & _).
  exists st'. rewrite Hrun. f_equal.
Defined.

Lemma a_failed_migration_stops_at_the_failure_witness :
  exists st',
    MigrateModules (mock second_copy_denied) false (start tt)
    = Done (Some (ResponseError 403 "AccessDenied")) st'
    /\ last (calls st') = Some (module_copy (mock second_copy_denied) vault_legacy_key)
    /\ logged st'
       = [["message"; "copied module"; "source"; legacy_key; "target"; consul_targz]].
Proof.
  assert (Hrun : exists st',
             MigrateModules (mock second_copy_denied) false (start tt)
             = Done (Some (ResponseError 403 "AccessDenied")) st')
    by (eexists; vm_compute; reflexivity).
  destruct Hrun as [st' Hrun]. exists st'. split; [exact Hrun|].
  pose proof (proj1 (a_failed_migration_stops_at_the_failure
                       (lib := stdlib) (pkg := registry)
                       (mock second_copy_denied) false (start tt)
                       (ResponseError 403 "AccessDenied") st') Hrun) as Hstop.
  cbv zeta in Hstop.
  destruct Hstop
    as [(perr & _ & [=] & _)
       |(before & key & after & w1 & _ & Hkeys & _ & Hfail & Hlast & _ & Hlog)].
  change (fetched_keys _) with [legacy_key; vault_legacy_key] in Hkeys.
  destruct before as [|key1 [|key2 before]]; cbn in Hkeys.
  - injection Hkeys as <- _. vm_compute in Hfail. discriminate.
  - injection Hkeys as <- <- _. split; [exact Hlast | exact Hlog].
  - injection Hkeys as _ _ Hnone. by destruct before.
Defined.

Lemma listing_errors_hide_the_backend_error_witness :
  exists e st',
    ListProviderVersions (mock second_page_fails) "hashicorp" "random" (start tt)
    = Done ([], Some e) st'
    /\ errors_Is e ErrProviderListFailed = true
    /\ errors_As_ResponseError e = None.
Proof.
  eexists _, _. split; [vm_compute; reflexivity|]. split; [reflexivity|].
  eapply (proj1 (listing_errors_hide_the_backend_error (lib := stdlib) (pkg := registry)
                   (mock second_page_fails) (start tt) _ _)
            "hashicorp" "random" "providers/hashicorp/random" []);
    [reflexivity | vm_compute; reflexivity].
Defined.

Lemma mem_provider_release_is_stored_once_witness :
  ("hashicorp" <> "" /\ "random" <> "" /\ "terraform-provider-random_2.0.0_SHA256SUMS" <> "")
  /\ (∅ : gmap string string) !! random_sums = None
  /\ returned (UploadProviderReleaseFiles targz_registry "hashicorp" "random"
                 "terraform-provider-random_2.0.0_SHA256SUMS" "SUMS" (start empty_bucket))
     = Some None
  /\ returned (UploadProviderReleaseFiles targz_registry "hashicorp" "random"
                 "terraform-provider-random_2.0.0_SHA256SUMS" "OTHER"
                 (start {| objects := <[random_sums := "SUMS"]> ∅; faults := [] |}))
     = Some (Some (sentinelError ErrProviderAlreadyExists)).
Proof.
  split; [repeat split; discriminate|]. split; [reflexivity|].
  destruct (mem_provider_release_is_stored_once (lib := stdlib) (pkg := registry)
              "registry" "" "tar.gz" ∅ "hashicorp" "random"
              "terraform-provider-random_2.0.0_SHA256SUMS" "SUMS" "OTHER"
              "providers/hashicorp/random"
              ltac:(discriminate) ltac:(discriminate) ltac:(discriminate)
              ltac:(reflexivity) ltac:(reflexivity)) as [Hfirst Hsecond].
  split.
  - exact (f_equal returned Hfirst).
  - exact (f_equal returned Hsecond).
Defined.

Lemma mem_GetProvider_needs_sums_and_keys_only_witness :
  objects release_bucket
  !! "providers/hashicorp/random/terraform-provider-random_2.0.0_linux_amd64.zip" = None
  /\ returned (GetProvider targz_registry "hashicorp" "random" "2.0.0" "linux" "amd64"
                 (start release_bucket))
     = Some (core.Provider.Build "hashicorp" "random" "2.0.0" "linux" "amd64" "aaa111"
               "terraform-provider-random_2.0.0_linux_amd64.zip"
               "https://registry.s3.amazonaws.com/providers/hashicorp/random/terraform-provider-random_2.0.0_linux_amd64.zip"
               "https://registry.s3.amazonaws.com/providers/hashicorp/random/terraform-provider-random_2.0.0_SHA256SUMS"
               "https://registry.s3.amazonaws.com/providers/hashicorp/random/terraform-provider-random_2.0.0_SHA256SUMS.sig"
               (Some ["{ gpg_public_keys: [] }"]),
             None).
Proof.
  split; [vm_compute; reflexivity|].
  exact (f_equal returned
           (mem_GetProvider_needs_sums_and_keys_only (lib := stdlib) (pkg := registry)
              "registry" "" "tar.gz" (objects release_bucket)
              "hashicorp" "random" "2.0.0" "linux" "amd64"
              "providers/hashicorp/random/terraform-provider-random_2.0.0_linux_amd64.zip"
              random_sums
              "providers/hashicorp/random/terraform-provider-random_2.0.0_SHA256SUMS.sig"
              ("aaa111  terraform-provider-random_2.0.0_linux_amd64.zip" +:+ String "010"
                 "bbb222  terraform-provider-random_2.0.0_darwin_arm64.zip")
              "aaa111" "{ gpg_public_keys: [] }" ["{ gpg_public_keys: [] }"]
              ltac:(discriminate) ltac:(reflexivity) ltac:(vm_compute; reflexivity)
              ltac:(vm_compute; reflexivity) ltac:(vm_compute; reflexivity)
              ltac:(reflexivity))).
Defined.

Lemma envVarSuffix_is_upper_snake_case_witness :
  isASCII "storage-s3-bucket" = true
  /\ envVarSuffix (fun s => s) "storage-s3-bucket" = "STORAGE_S3_BUCKET"
  /\ envVarSuffix (fun s => s) "STORAGE_S3_BUCKET" = "STORAGE_S3_BUCKET".
Proof.
  split; [reflexivity|]. split; [reflexivity|].
  exact (proj1 (proj2 (proj2 (envVarSuffix_is_upper_snake_case (fun s => s)
                                "storage-s3-bucket" ltac:(reflexivity))))).
Defined.

Lemma mem_round_trip_default_format_witness :
  ("hashicorp" <> "" /\ "consul" <> "" /\ "aws" <> "" /\ "1.0.0" <> "")
  /\ (∅ : gmap string string) !! consul_targz = None
  /\ returned (UploadModule targz_registry "hashicorp" "consul" "aws" "1.0.0" "BODY"
                 (start empty_bucket))
     = Some (core.Mod.Build "hashicorp" "consul" "aws" "1.0.0"
               ("https://registry.s3.amazonaws.com/" +:+ consul_targz), None)
  /\ returned (UploadModule targz_registry "hashicorp" "consul" "aws" "1.0.0" "BODY"
                 (start {| objects := <[consul_targz := "BODY"]> ∅; faults := [] |}))
     = Some (core.Mod.zero,
             Some (withMessage (sentinelError ErrModuleAlreadyExists) consul_targz)).
Proof.
  split; [repeat split; discriminate|]. split; [reflexivity|].
  destruct (mem_round_trip_default_format (lib := stdlib) (pkg := registry)
              "registry" "" ∅ "hashicorp" "consul" "aws" "1.0.0" "BODY"
              ltac:(discriminate) ltac:(discriminate) ltac:(discriminate)
              ltac:(discriminate) ltac:(reflexivity))
    as ((cs1 & Hfirst) & _ & (cs3 & Hsecond)).
  split.
  - exact (f_equal returned Hfirst).
  - exact (f_equal returned Hsecond).
Defined.

Lemma mem_second_run_repeats_copies_witness :
  exists st1 st2,
    MigrateModules targz_registry false (start legacy_bucket) = Done None st1
    /\ MigrateModules targz_registry false (start (world st1)) = Done None st2
    /\ In (module_copy targz_registry legacy_key) (List.filter is_copy (calls st1))
    /\ In (module_copy targz_registry legacy_key) (List.filter is_copy (calls st2)).
Proof.
  eexists _, _. split; [vm_compute; reflexivity|]. split; [vm_compute; reflexivity|].
  assert (Hfirst :
    In (module_copy targz_registry legacy_key)
      (List.filter is_copy
         (calls (final (MigrateModules targz_registry false (start legacy_bucket))))))
    by (vm_compute; left; reflexivity).
  split; [exact Hfirst|].
  eapply (mem_second_run_repeats_copies (lib := stdlib) (pkg := registry)
            "registry" "" "tar.gz" legacy_bucket);
    [vm_compute; reflexivity | vm_compute; reflexivity | exact Hfirst].
Defined.
